(** * Document verification agent: scoring, compliance deadlines, review gate and stage graph

    A shallow embedding of the Python package [app.agent]:
    - [state.py]: the TypedDict records and the per-field reducers of
      [DocumentVerificationState];
    - [nodes/risk_assessment.py]: [calculate_overall_risk_score],
      [determine_risk_level];
    - [nodes/compliance.py]: [check_deadline_compliance];
    - [nodes/extraction.py]: [calculate_urgency];
    - [nodes/hitl.py]: [hitl_node], [prepare_review_summary],
      [apply_user_modifications];
    - [graph.py]: the edges of [create_verification_graph] and [should_review].
    - further on: the scorers, the three passes and the node of
      [nodes/risk_assessment.py]; [COMPLIANCE_RULES], [verify_compliance] and
      [compliance_node] of [nodes/compliance.py]; [ingestion_node];
      [classification_node]; of [nodes/report.py] the compliance and risk
      sections, [generate_recommendations_section] and
      [extract_top_recommendations].

    Conventions of the embedding.
    - A Python [float] score is an exact rational ([Q]): sums, products and the
      quotient are computed without binary64 rounding error, and [round(x, 1)]
      is rounding to the nearest tenth, ties to even.  Module [Binary64] replays
      the concrete evaluations on IEEE binary64 numbers.
    - The dicts held in the accumulating lists [risks], [compliance_items] and
      [obligations] are mutable objects: they live in a [Store] and the lists
      hold their addresses, so that in-place assignment and aliasing are
      visible.
    - An exception is a value [Raise msg]; the store keeps the writes made
      before it was raised.
    - [datetime.utcnow().isoformat()] is an argument [now] of the stage.
    - [str.lower] and [str.upper] follow the Unicode case tables and are
      arguments [lower] and [upper] of the functions that call them. *)

From Stdlib Require Import QArith Qround Qminmax Lqa.
From Stdlib Require Import Floats.
From stdpp Require Import base list strings gmap pretty.

Open Scope Q_scope.

(** ** Python helpers *)

Module Py.

(** [str(n)] for an [int]. *)
Definition str (n : Z) : string := pretty n.

(** [f"{x}"] for an optional string: [None] prints as the word None. *)
Definition fmt (x : option string) : string :=
  match x with
  | Some s => s
  | None => "None"
  end.

(** [needle in hay] for two strings. *)
Definition contains (needle hay : string) : bool :=
  match String.index 0 needle hay with
  | Some _ => true
  | None => false
  end.

(** Nearest integer, ties to the even neighbour. *)
Definition round_half_even (x : Q) : Z :=
  let f := Qfloor x in
  match Qcompare (x - inject_Z f) (1 # 2) with
  | Lt => f
  | Gt => (f + 1)%Z
  | Eq => if Z.even f then f else (f + 1)%Z
  end.

(** [round(x, 1)]. *)
Definition round1 (x : Q) : Q := inject_Z (round_half_even (x * 10)) / 10.

(** The outcome of a block that may raise: [str(e)] is kept. *)
Inductive result (A : Type) : Type :=
| Ok (a : A)
| Raise (msg : string).
Arguments Ok {A} a.
Arguments Raise {A} msg.

End Py.

(** ** state.py: the records *)

Record RenewalDate := {
  d_date : string;
  d_description : string;
  d_days_until : Z;
  d_urgency : string;
  d_clause_reference : option string
}.

Record Obligation := {
  o_clause_id : string;
  o_requirement : string;
  o_party : string;
  o_status : string;
  o_deadline : option string;
  o_description : string
}.

Record ComplianceItem := {
  c_regulation : string;
  c_requirement : string;
  c_status : string;
  c_gap : option string;
  c_severity : string
}.

Record Risk := {
  r_id : string;
  r_category : string;
  r_severity : string;
  r_description : string;
  r_mitigation : string;
  r_score : Q
}.

(** ** risk_assessment.py *)

(** [sorted(risks, key=lambda r: r["score"], reverse=True)]: a stable sort,
    risks of equal score keep their relative order. *)
Fixpoint insert_desc (r : Risk) (l : list Risk) : list Risk :=
  match l with
  | [] => [r]
  | y :: l' =>
      if Qlt_le_dec (r_score r) (r_score y) then y :: insert_desc r l'
      else r :: l
  end.

Definition sorted_desc (risks : list Risk) : list Risk :=
  foldr insert_desc [] risks.

(** Descending order of score. *)
Inductive descending : list Risk -> Prop :=
| descending_nil : descending []
| descending_cons r l :
    Forall (fun y => r_score y <= r_score r) l -> descending l ->
    descending (r :: l).

Definition weights : list Q := [1.0; 0.7; 0.5; 0.3; 0.2].

(** [weights[idx] if idx < len(weights) else 0.1] *)
Definition weight_at (idx : nat) : Q :=
  match weights !! idx with
  | Some w => w
  | None => 0.1
  end.

(** The [for idx, risk in enumerate(...)] loop with its two accumulators. *)
Fixpoint weighted_loop (idx : nat) (rs : list Risk) (weighted_sum weight_total : Q)
  : Q * Q :=
  match rs with
  | [] => (weighted_sum, weight_total)
  | risk :: rs' =>
      let weight := weight_at idx in
      weighted_loop (S idx) rs'
        (weighted_sum + r_score risk * weight) (weight_total + weight)
  end.

Definition calculate_overall_risk_score (risks : list Risk) : Q :=
  match risks with
  | [] => 0
  | _ =>
      let sorted_risks := sorted_desc risks in
      let '(weighted_sum, weight_total) :=
        weighted_loop 0 (take 5 sorted_risks) 0 0 in
      let overall_score :=
        if Qlt_le_dec 0 weight_total then weighted_sum / weight_total else 0 in
      Py.round1 overall_score
  end.

Definition determine_risk_level (score : Q) : string :=
  if Qle_bool 76 score then "critical"
  else if Qle_bool 51 score then "high"
  else if Qle_bool 26 score then "medium"
  else "low".



(** ** extraction.py *)

Definition calculate_urgency (days_until : Z) : string :=
  if decide (days_until < 0)%Z then "critical"
  else if decide (days_until <= 7)%Z then "critical"
  else if decide (days_until <= 30)%Z then "high"
  else if decide (days_until <= 90)%Z then "medium"
  else "low".

(** ** compliance.py *)

(** The body of the loop of [check_deadline_compliance]: the items one renewal
    date appends to [deadline_items]. *)
Definition deadline_item (renewal : RenewalDate) : list ComplianceItem :=
  let days_until := d_days_until renewal in
  let description := d_description renewal in
  if decide (days_until < 0)%Z then
    [ {| c_regulation := "Deadline Compliance";
         c_requirement := "Meet deadline: " +:+ description;
         c_status := "non_compliant";
         c_gap := Some ("Deadline overdue by " +:+ Py.str (Z.abs days_until)
                        +:+ " days");
         c_severity := "critical" |} ]
  else if decide (days_until <= 7)%Z then
    [ {| c_regulation := "Deadline Compliance";
         c_requirement := "Meet deadline: " +:+ description;
         c_status := "partially_compliant";
         c_gap := Some ("Deadline in " +:+ Py.str days_until
                        +:+ " days - immediate action required");
         c_severity := "critical" |} ]
  else if decide (days_until <= 30)%Z then
    [ {| c_regulation := "Deadline Compliance";
         c_requirement := "Meet deadline: " +:+ description;
         c_status := "partially_compliant";
         c_gap := Some ("Deadline approaching in " +:+ Py.str days_until
                        +:+ " days");
         c_severity := "high" |} ]
  else [].

Definition check_deadline_compliance (renewal_dates : list RenewalDate)
  : list ComplianceItem :=
  foldl (fun deadline_items renewal => deadline_items ++ deadline_item renewal)
        [] renewal_dates.

(** ** state.py: the store of mutable dicts *)

Definition loc := nat.

Record Store := {
  risk_objs : gmap loc Risk;
  item_objs : gmap loc ComplianceItem;
  obligation_objs : gmap loc Obligation
}.

(** ** state.py: feedback, report and the state aggregate *)

Record ParsedSection := {
  ps_section_name : string;
  ps_content : string;
  ps_page : Z
}.

Record DocumentMetadata := {
  dm_document_type : string;
  dm_parties : list string;
  dm_effective_date : option string;
  dm_expiration_date : option string;
  dm_document_id : option string;
  dm_jurisdiction : option string
}.

(** The dicts of [feedback["modifications"]].  A field is [None] when its key
    is absent; [cm_index] is also [None] when the value is null, as
    [mod.get("index")] returns [None] in both cases. *)
Record RiskMod := {
  rm_id : option string;
  rm_severity : option string;
  rm_description : option string;
  rm_mitigation : option string
}.

Record ComplianceMod := {
  cm_index : option Z;
  cm_status : option string;
  cm_gap : option (option string)
}.

Record ObligationMod := {
  om_clause_id : option string;
  om_status : option string;
  om_description : option string
}.

Record Modifications := {
  m_risks : option (list RiskMod);
  m_compliance_items : option (list ComplianceMod);
  m_obligations : option (list ObligationMod);
  m_notes : option string
}.

(** [hf_action] is [None] when the key is absent; [hf_modifications] is [None]
    when the key is absent and [Some None] when its value is null. *)
Record HumanFeedback := {
  hf_timestamp : string;
  hf_action : option string;
  hf_comments : option string;
  hf_modifications : option (option Modifications)
}.

(** [review_items] receives risk descriptions from the risk assessment and
    summary groups from the review gate. *)
Inductive ReviewItem :=
| ReviewText (description : string)
| ReviewGroup (type priority : string) (count : nat) (description : string)
              (items : list loc).

(** The top-level keys of the report; its [sections] are an aggregation that
    nothing below reads. *)
Record VerificationReport := {
  vr_document_id : string;
  vr_generated_at : string;
  vr_summary : string;
  vr_risk_level : string;
  vr_overall_risk_score : Q
}.

Record State := {
  st_document_file : string;
  st_document_type : string;
  st_user_id : string;
  st_session_id : string;
  st_raw_text : string;
  st_parsed_sections : list ParsedSection;
  st_document_metadata : option DocumentMetadata;
  st_renewal_dates : list RenewalDate;
  st_obligations : list loc;
  st_compliance_items : list loc;
  st_risks : list loc;
  st_overall_risk_score : Q;
  st_risk_level : string;
  st_human_feedback : option HumanFeedback;
  st_requires_review : bool;
  st_review_items : list ReviewItem;
  st_current_step : string;
  st_progress_percentage : Z;
  st_messages : list string;
  st_verification_report : option VerificationReport;
  st_recommendations : list string;
  st_status : string;
  st_error_message : option string;
  st_created_at : string;
  st_updated_at : string
}.

(** The dict a stage returns: a key is [None] when the stage does not return
    it. *)
Record Update := {
  u_raw_text : option (string);
  u_document_type : option (string);
  u_parsed_sections : option (list ParsedSection);
  u_document_metadata : option (DocumentMetadata);
  u_renewal_dates : option (list RenewalDate);
  u_obligations : option (list loc);
  u_compliance_items : option (list loc);
  u_risks : option (list loc);
  u_overall_risk_score : option (Q);
  u_risk_level : option (string);
  u_requires_review : option (bool);
  u_review_items : option (list ReviewItem);
  u_current_step : option (string);
  u_progress_percentage : option (Z);
  u_messages : option (list string);
  u_verification_report : option (VerificationReport);
  u_recommendations : option (list string);
  u_status : option (string);
  u_error_message : option (string);
  u_updated_at : option (string)
}.

(** [{}] *)
Definition no_update : Update :=
  {| u_raw_text := None;
     u_document_type := None;
     u_parsed_sections := None;
     u_document_metadata := None;
     u_renewal_dates := None;
     u_obligations := None;
     u_compliance_items := None;
     u_risks := None;
     u_overall_risk_score := None;
     u_risk_level := None;
     u_requires_review := None;
     u_review_items := None;
     u_current_step := None;
     u_progress_percentage := None;
     u_messages := None;
     u_verification_report := None;
     u_recommendations := None;
     u_status := None;
     u_error_message := None;
     u_updated_at := None |}.

(** [d[key] = v], for the keys the stages below assign. *)
Definition set_obligations (v : list loc) (d : Update) : Update :=
  Build_Update (u_raw_text d) (u_document_type d) (u_parsed_sections d)
    (u_document_metadata d) (u_renewal_dates d) (Some v) (u_compliance_items
    d) (u_risks d) (u_overall_risk_score d) (u_risk_level d)
    (u_requires_review d) (u_review_items d) (u_current_step d)
    (u_progress_percentage d) (u_messages d) (u_verification_report d)
    (u_recommendations d) (u_status d) (u_error_message d) (u_updated_at d).

Definition set_compliance_items (v : list loc) (d : Update) : Update :=
  Build_Update (u_raw_text d) (u_document_type d) (u_parsed_sections d)
    (u_document_metadata d) (u_renewal_dates d) (u_obligations d) (Some v)
    (u_risks d) (u_overall_risk_score d) (u_risk_level d) (u_requires_review
    d) (u_review_items d) (u_current_step d) (u_progress_percentage d)
    (u_messages d) (u_verification_report d) (u_recommendations d) (u_status
    d) (u_error_message d) (u_updated_at d).

Definition set_risks (v : list loc) (d : Update) : Update :=
  Build_Update (u_raw_text d) (u_document_type d) (u_parsed_sections d)
    (u_document_metadata d) (u_renewal_dates d) (u_obligations d)
    (u_compliance_items d) (Some v) (u_overall_risk_score d) (u_risk_level
    d) (u_requires_review d) (u_review_items d) (u_current_step d)
    (u_progress_percentage d) (u_messages d) (u_verification_report d)
    (u_recommendations d) (u_status d) (u_error_message d) (u_updated_at d).

Definition set_requires_review (v : bool) (d : Update) : Update :=
  Build_Update (u_raw_text d) (u_document_type d) (u_parsed_sections d)
    (u_document_metadata d) (u_renewal_dates d) (u_obligations d)
    (u_compliance_items d) (u_risks d) (u_overall_risk_score d)
    (u_risk_level d) (Some v) (u_review_items d) (u_current_step d)
    (u_progress_percentage d) (u_messages d) (u_verification_report d)
    (u_recommendations d) (u_status d) (u_error_message d) (u_updated_at d).

Definition set_review_items (v : list ReviewItem) (d : Update) : Update :=
  Build_Update (u_raw_text d) (u_document_type d) (u_parsed_sections d)
    (u_document_metadata d) (u_renewal_dates d) (u_obligations d)
    (u_compliance_items d) (u_risks d) (u_overall_risk_score d)
    (u_risk_level d) (u_requires_review d) (Some v) (u_current_step d)
    (u_progress_percentage d) (u_messages d) (u_verification_report d)
    (u_recommendations d) (u_status d) (u_error_message d) (u_updated_at d).

Definition set_current_step (v : string) (d : Update) : Update :=
  Build_Update (u_raw_text d) (u_document_type d) (u_parsed_sections d)
    (u_document_metadata d) (u_renewal_dates d) (u_obligations d)
    (u_compliance_items d) (u_risks d) (u_overall_risk_score d)
    (u_risk_level d) (u_requires_review d) (u_review_items d) (Some v)
    (u_progress_percentage d) (u_messages d) (u_verification_report d)
    (u_recommendations d) (u_status d) (u_error_message d) (u_updated_at d).

Definition set_progress_percentage (v : Z) (d : Update) : Update :=
  Build_Update (u_raw_text d) (u_document_type d) (u_parsed_sections d)
    (u_document_metadata d) (u_renewal_dates d) (u_obligations d)
    (u_compliance_items d) (u_risks d) (u_overall_risk_score d)
    (u_risk_level d) (u_requires_review d) (u_review_items d)
    (u_current_step d) (Some v) (u_messages d) (u_verification_report d)
    (u_recommendations d) (u_status d) (u_error_message d) (u_updated_at d).

Definition set_messages (v : list string) (d : Update) : Update :=
  Build_Update (u_raw_text d) (u_document_type d) (u_parsed_sections d)
    (u_document_metadata d) (u_renewal_dates d) (u_obligations d)
    (u_compliance_items d) (u_risks d) (u_overall_risk_score d)
    (u_risk_level d) (u_requires_review d) (u_review_items d)
    (u_current_step d) (u_progress_percentage d) (Some v)
    (u_verification_report d) (u_recommendations d) (u_status d)
    (u_error_message d) (u_updated_at d).

Definition set_verification_report (v : VerificationReport) (d : Update) : Update :=
  Build_Update (u_raw_text d) (u_document_type d) (u_parsed_sections d)
    (u_document_metadata d) (u_renewal_dates d) (u_obligations d)
    (u_compliance_items d) (u_risks d) (u_overall_risk_score d)
    (u_risk_level d) (u_requires_review d) (u_review_items d)
    (u_current_step d) (u_progress_percentage d) (u_messages d) (Some v)
    (u_recommendations d) (u_status d) (u_error_message d) (u_updated_at d).

Definition set_recommendations (v : list string) (d : Update) : Update :=
  Build_Update (u_raw_text d) (u_document_type d) (u_parsed_sections d)
    (u_document_metadata d) (u_renewal_dates d) (u_obligations d)
    (u_compliance_items d) (u_risks d) (u_overall_risk_score d)
    (u_risk_level d) (u_requires_review d) (u_review_items d)
    (u_current_step d) (u_progress_percentage d) (u_messages d)
    (u_verification_report d) (Some v) (u_status d) (u_error_message d)
    (u_updated_at d).

Definition set_status (v : string) (d : Update) : Update :=
  Build_Update (u_raw_text d) (u_document_type d) (u_parsed_sections d)
    (u_document_metadata d) (u_renewal_dates d) (u_obligations d)
    (u_compliance_items d) (u_risks d) (u_overall_risk_score d)
    (u_risk_level d) (u_requires_review d) (u_review_items d)
    (u_current_step d) (u_progress_percentage d) (u_messages d)
    (u_verification_report d) (u_recommendations d) (Some v)
    (u_error_message d) (u_updated_at d).

Definition set_error_message (v : string) (d : Update) : Update :=
  Build_Update (u_raw_text d) (u_document_type d) (u_parsed_sections d)
    (u_document_metadata d) (u_renewal_dates d) (u_obligations d)
    (u_compliance_items d) (u_risks d) (u_overall_risk_score d)
    (u_risk_level d) (u_requires_review d) (u_review_items d)
    (u_current_step d) (u_progress_percentage d) (u_messages d)
    (u_verification_report d) (u_recommendations d) (u_status d) (Some v)
    (u_updated_at d).

Definition set_updated_at (v : string) (d : Update) : Update :=
  Build_Update (u_raw_text d) (u_document_type d) (u_parsed_sections d)
    (u_document_metadata d) (u_renewal_dates d) (u_obligations d)
    (u_compliance_items d) (u_risks d) (u_overall_risk_score d)
    (u_risk_level d) (u_requires_review d) (u_review_items d)
    (u_current_step d) (u_progress_percentage d) (u_messages d)
    (u_verification_report d) (u_recommendations d) (u_status d)
    (u_error_message d) (Some v).

(** The reducers declared by the annotations of [DocumentVerificationState]:
    [operator.add] on the annotated list keys, last value on every other key.
    A key the stage does not return leaves the field as it is. *)
Definition operator_add {A : Type} (old : list A) (new : option (list A)) : list A :=
  match new with
  | Some l => old ++ l
  | None => old
  end.

Definition last_value {A : Type} (old : A) (new : option A) : A :=
  match new with
  | Some v => v
  | None => old
  end.

Definition merge (state : State) (d : Update) : State :=
  {| st_document_file := st_document_file state;
     st_document_type := last_value (st_document_type state) (u_document_type d);
     st_user_id := st_user_id state;
     st_session_id := st_session_id state;
     st_raw_text := last_value (st_raw_text state) (u_raw_text d);
     st_parsed_sections :=
       operator_add (st_parsed_sections state) (u_parsed_sections d);
     st_document_metadata :=
       last_value (st_document_metadata state) (Some <$> u_document_metadata d);
     st_renewal_dates := operator_add (st_renewal_dates state) (u_renewal_dates d);
     st_obligations := operator_add (st_obligations state) (u_obligations d);
     st_compliance_items :=
       operator_add (st_compliance_items state) (u_compliance_items d);
     st_risks := operator_add (st_risks state) (u_risks d);
     st_overall_risk_score :=
       last_value (st_overall_risk_score state) (u_overall_risk_score d);
     st_risk_level := last_value (st_risk_level state) (u_risk_level d);
     st_human_feedback := st_human_feedback state;
     st_requires_review :=
       last_value (st_requires_review state) (u_requires_review d);
     st_review_items := operator_add (st_review_items state) (u_review_items d);
     st_current_step := last_value (st_current_step state) (u_current_step d);
     st_progress_percentage :=
       last_value (st_progress_percentage state) (u_progress_percentage d);
     st_messages := operator_add (st_messages state) (u_messages d);
     st_verification_report :=
       last_value (st_verification_report state)
                  (Some <$> u_verification_report d);
     st_recommendations :=
       operator_add (st_recommendations state) (u_recommendations d);
     st_status := last_value (st_status state) (u_status d);
     st_error_message :=
       last_value (st_error_message state) (Some <$> u_error_message d);
     st_created_at := st_created_at state;
     st_updated_at := last_value (st_updated_at state) (u_updated_at d) |}.

(** ** Code that writes to the store and may raise *)

Definition M (A : Type) : Type := Store -> Store * Py.result A.

Definition ret {A : Type} (a : A) : M A := fun s => (s, Py.Ok a).

Definition raise {A : Type} (msg : string) : M A := fun s => (s, Py.Raise msg).

Definition bind {A B : Type} (c : M A) (k : A -> M B) : M B :=
  fun s =>
    match c s with
    | (s', Py.Ok a) => k a s'
    | (s', Py.Raise msg) => (s', Py.Raise msg)
    end.

#[global] Instance M_ret : MRet M := @ret.
#[global] Instance M_bind : MBind M := fun A B k c => bind c k.

(** A statement that only writes. *)
Definition write (f : Store -> Store) : M unit := fun s => (f s, Py.Ok tt).

(** [for x in l: body(x)] *)
Fixpoint for_each {B : Type} (body : B -> M unit) (l : list B) : M unit :=
  match l with
  | [] => ret tt
  | x :: l' => _ ← body x; for_each body l'
  end.

(** In-place assignment to the dict at an address. *)
Definition alter_risk (f : Risk -> Risk) (l : loc) (s : Store) : Store :=
  {| risk_objs := alter f l (risk_objs s);
     item_objs := item_objs s;
     obligation_objs := obligation_objs s |}.

Definition alter_item (f : ComplianceItem -> ComplianceItem) (l : loc) (s : Store)
  : Store :=
  {| risk_objs := risk_objs s;
     item_objs := alter f l (item_objs s);
     obligation_objs := obligation_objs s |}.

Definition alter_obligation (f : Obligation -> Obligation) (l : loc) (s : Store)
  : Store :=
  {| risk_objs := risk_objs s;
     item_objs := item_objs s;
     obligation_objs := alter f l (obligation_objs s) |}.

(** [[x for x in ls if p(x)]] over a list of addresses. *)
Definition select {A : Type} (objs : gmap loc A) (p : A -> bool) (ls : list loc)
  : list loc :=
  List.filter (fun l => match objs !! l with Some x => p x | None => false end) ls.

(** ** hitl.py *)

(** [if key in mod: obj[key] = mod[key]] *)
Definition if_in {A : Type} (new : option A) (old : A) : A :=
  match new with
  | Some v => v
  | None => old
  end.

Definition modify_risk (mod_ : RiskMod) (risk : Risk) : Risk :=
  {| r_id := r_id risk;
     r_category := r_category risk;
     r_severity := if_in (rm_severity mod_) (r_severity risk);
     r_description := if_in (rm_description mod_) (r_description risk);
     r_mitigation := if_in (rm_mitigation mod_) (r_mitigation risk);
     r_score := r_score risk |}.

Definition modify_item (mod_ : ComplianceMod) (item : ComplianceItem)
  : ComplianceItem :=
  {| c_regulation := c_regulation item;
     c_requirement := c_requirement item;
     c_status := if_in (cm_status mod_) (c_status item);
     c_gap := if_in (cm_gap mod_) (c_gap item);
     c_severity := c_severity item |}.

Definition modify_obligation (mod_ : ObligationMod) (obligation : Obligation)
  : Obligation :=
  {| o_clause_id := o_clause_id obligation;
     o_requirement := o_requirement obligation;
     o_party := o_party obligation;
     o_status := if_in (om_status mod_) (o_status obligation);
     o_deadline := o_deadline obligation;
     o_description := if_in (om_description mod_) (o_description obligation) |}.

(** The body of [for mod in modifications["risks"]]: the inner loop visits
    every risk of the state and assigns to those whose id is [mod.get("id")]. *)
Definition risk_mod_body (risks : list loc) (mod_ : RiskMod) : M unit :=
  let risk_id := rm_id mod_ in
  for_each
    (fun l =>
       write (alter_risk
                (fun risk =>
                   if decide (Some (r_id risk) = risk_id) then modify_risk mod_ risk
                   else risk) l))
    risks.

(** The body of [for mod in modifications["compliance_items"]]: comparing
    [0 <= idx] with [idx] being [None] raises [TypeError]. *)
Definition compliance_mod_body (compliance_items : list loc) (mod_ : ComplianceMod)
  : M unit :=
  match cm_index mod_ with
  | None => raise "'<=' not supported between instances of 'int' and 'NoneType'"
  | Some idx =>
      if decide (0 <= idx < Z.of_nat (length compliance_items))%Z then
        match compliance_items !! Z.to_nat idx with
        | Some l => write (alter_item (modify_item mod_) l)
        | None => mret tt
        end
      else mret tt
  end.

(** The body of [for mod in modifications["obligations"]]. *)
Definition obligation_mod_body (obligations : list loc) (mod_ : ObligationMod)
  : M unit :=
  let clause_id := om_clause_id mod_ in
  for_each
    (fun l =>
       write (alter_obligation
                (fun obligation =>
                   if decide (Some (o_clause_id obligation) = clause_id)
                   then modify_obligation mod_ obligation
                   else obligation) l))
    obligations.

(** [modifications] is [None] when the feedback carries a null value: the
    first membership test then raises [TypeError]. *)
Definition apply_user_modifications (state : State)
  (modifications : option Modifications) : M Update :=
  match modifications with
  | None => raise "argument of type 'NoneType' is not iterable"
  | Some modifications =>
      let updated := no_update in
      updated ←
        match m_risks modifications with
        | Some mods =>
            let risks := st_risks state in
            _ ← for_each (risk_mod_body risks) mods;
            mret (set_risks risks updated)
        | None => mret updated
        end;
      updated ←
        match m_compliance_items modifications with
        | Some mods =>
            let compliance_items := st_compliance_items state in
            _ ← for_each (compliance_mod_body compliance_items) mods;
            mret (set_compliance_items compliance_items updated)
        | None => mret updated
        end;
      updated ←
        match m_obligations modifications with
        | Some mods =>
            let obligations := st_obligations state in
            _ ← for_each (obligation_mod_body obligations) mods;
            mret (set_obligations obligations updated)
        | None => mret updated
        end;
      mret (match m_notes modifications with
            | Some notes => set_messages ["User note: " +:+ notes] updated
            | None => updated
            end)
  end.

Record ReviewSummary := {
  rs_overall_risk_score : Q;
  rs_risk_level : string;
  rs_items : list ReviewItem;
  rs_requires_attention : bool
}.

(** [x in [a, b]] on strings. *)
Definition one_of (x : string) (l : list string) : bool := bool_decide (x ∈ l).

Definition prepare_review_summary (state : State) (s : Store) : ReviewSummary :=
  let risks := st_risks state in
  let compliance_items := st_compliance_items state in
  let obligations := st_obligations state in
  let review_items := [] in
  let critical_risks :=
    select (risk_objs s) (fun r => one_of (r_severity r) ["critical"; "high"])
           risks in
  let review_items :=
    if bool_decide (critical_risks = []) then review_items
    else review_items ++
         [ReviewGroup "risks" "critical" (length critical_risks)
            (pretty (length critical_risks) +:+ " critical/high risks identified")
            (take 5 critical_risks)] in
  let non_compliant :=
    select (item_objs s) (fun c => bool_decide (c_status c = "non_compliant"))
           compliance_items in
  let review_items :=
    if bool_decide (non_compliant = []) then review_items
    else review_items ++
         [ReviewGroup "compliance" "high" (length non_compliant)
            (pretty (length non_compliant) +:+ " compliance gaps found")
            (take 5 non_compliant)] in
  let unclear_obligations :=
    select (obligation_objs s) (fun o => bool_decide (o_status o = "unclear"))
           obligations in
  let review_items :=
    if bool_decide (unclear_obligations = []) then review_items
    else review_items ++
         [ReviewGroup "obligations" "medium" (length unclear_obligations)
            (pretty (length unclear_obligations)
             +:+ " obligations need clarification")
            (take 5 unclear_obligations)] in
  {| rs_overall_risk_score := st_overall_risk_score state;
     rs_risk_level := st_risk_level state;
     rs_items := review_items;
     rs_requires_attention :=
       bool_decide (0 < length critical_risks)%nat
       || bool_decide (0 < length non_compliant)%nat |}.

(** The [except Exception as e] handler of [hitl_node]. *)
Definition hitl_failed (now e : string) : Update :=
  set_status "error" $
  set_error_message ("HITL review failed: " +:+ e) $
  set_current_step "hitl" $
  set_updated_at now no_update.

(** The result is [None] where the Python function falls off its end (feedback
    whose action is none of the three). *)
Definition hitl_node (now : string) (state : State) (s : Store)
  : Store * option Update :=
  match st_human_feedback state with
  | Some human_feedback =>
      let action := default "approved" (hf_action human_feedback) in
      let comments := hf_comments human_feedback in
      let modifications :=
        default (Some {| m_risks := None; m_compliance_items := None;
                         m_obligations := None; m_notes := None |})
                (hf_modifications human_feedback) in
      if decide (action = "approved") then
        (s, Some (set_requires_review false $
                  set_current_step "hitl_approved" $
                  set_progress_percentage 85 $
                  set_messages ["Review approved by user"] $
                  set_updated_at now no_update))
      else if decide (action = "revised") then
        match apply_user_modifications state modifications s with
        | (s', Py.Ok updated_state) =>
            (s', Some (set_requires_review false $
                       set_current_step "hitl_revised" $
                       set_progress_percentage 85 $
                       set_messages ["Review revised with user feedback: "
                                     +:+ Py.fmt comments] $
                       set_updated_at now updated_state))
        | (s', Py.Raise e) => (s', Some (hitl_failed now e))
        end
      else if decide (action = "rejected") then
        (s, Some (set_status "error" $
                  set_error_message ("User rejected findings: "
                                     +:+ Py.fmt comments) $
                  set_current_step "hitl_rejected" $
                  set_updated_at now no_update))
      else (s, None)
  | None =>
      let review_summary := prepare_review_summary state s in
      (s, Some (set_requires_review true $
                set_current_step "hitl_pending" $
                set_progress_percentage 80 $
                set_messages ["Awaiting human review and approval"] $
                set_review_items (rs_items review_summary) $
                set_updated_at now no_update))
  end.

(** ** graph.py *)

Inductive node :=
| ingestion | classification | extraction | compliance | risk_assessment
| hitl | report_generation.

(** The two literals [should_review] returns. *)
Inductive branch := review | skip.

Definition should_review (state : State) : branch :=
  if st_requires_review state then review
  else
    let risk_score := st_overall_risk_score state in
    if Qlt_le_dec 75 risk_score then review else skip.

(** The path map of [add_conditional_edges]. *)
Definition path_map (b : branch) : node :=
  match b with
  | review => hitl
  | skip => report_generation
  end.

(** The edges added by [create_verification_graph]; [None] is [END].  The
    conditional edge is evaluated on the state that already holds the update
    of [risk_assessment]. *)
Definition next_node (n : node) (state : State) : option node :=
  match n with
  | ingestion => Some classification
  | classification => Some extraction
  | extraction => Some compliance
  | compliance => Some risk_assessment
  | risk_assessment => Some (path_map (should_review state))
  | hitl => Some report_generation
  | report_generation => None
  end.

(** The number of nodes on the longest path from a node to [END]. *)
Definition distance (n : node) : nat :=
  match n with
  | ingestion => 7
  | classification => 6
  | extraction => 5
  | compliance => 4
  | risk_assessment => 3
  | hitl => 2
  | report_generation => 1
  end.

(** A node function: it reads the state, may write to the store, and returns
    the dict to merge. *)
Definition stage : Type := State -> Store -> Store * Update.

Section Graph.

(** The stages whose bodies no property below depends on, the clock each node
    reads, and the aggregation helpers of [report.py]. *)
Variables ingestion_node classification_node extraction_node : stage.
Variables compliance_node risk_assessment_node : stage.
Variable clock : node -> string.
Variable generate_executive_summary : State -> Store -> string.
Variable extract_top_recommendations : State -> Store -> list string.

(** report.py: the keys [report_generation_node] returns.  While no stage has
    set the metadata, [state.get("document_metadata", {})] is [None] and
    [generate_document_info_section] raises [AttributeError], which the
    handler of the node turns into the error state; on records of the
    declared types nothing else in the node can raise. *)
Definition report_generation_node (now : string) : stage :=
  fun state s =>
    match st_document_metadata state with
    | None =>
        (s, set_status "error" $
            set_error_message
              ("Report generation failed: "
               +:+ "'NoneType' object has no attribute 'get'") $
            set_current_step "report_generation" $
            set_updated_at now no_update)
    | Some _ =>
        let report :=
          {| vr_document_id := st_session_id state;
             vr_generated_at := now;
             vr_summary := generate_executive_summary state s;
             vr_risk_level := st_risk_level state;
             vr_overall_risk_score := st_overall_risk_score state |} in
        let recommendations := extract_top_recommendations state s in
        (s, set_verification_report report $
            set_recommendations recommendations $
            set_status "completed" $
            set_current_step "report_generation" $
            set_progress_percentage 100 $
            set_messages ["Verification report generated successfully"] $
            set_updated_at now no_update)
    end.

(** The function registered for each node name by [add_node].  A node that
    returns [None] contributes no update. *)
Definition node_fn (n : node) : stage :=
  match n with
  | ingestion => ingestion_node
  | classification => classification_node
  | extraction => extraction_node
  | compliance => compliance_node
  | risk_assessment => risk_assessment_node
  | hitl =>
      fun state s =>
        let '(s', d) := hitl_node (clock hitl) state s in
        (s', default no_update d)
  | report_generation => report_generation_node (clock report_generation)
  end.

(** Running the compiled graph from node [n]: call the node, merge its update
    with the reducers, follow the edge.  The result lists the nodes that were
    called, each with the update it returned, then the final state and
    store.  [fuel] bounds the number of nodes called. *)
Fixpoint run (fuel : nat) (n : node) (state : State) (s : Store)
  : option (list (node * Update) * State * Store) :=
  match fuel with
  | O => None
  | S fuel' =>
      let '(s', d) := node_fn n state s in
      let state' := merge state d in
      match next_node n state' with
      | None => Some ([(n, d)], state', s')
      | Some n' =>
          match run fuel' n' state' s' with
          | Some (called, final, s'') => Some ((n, d) :: called, final, s'')
          | None => None
          end
      end
  end.

(** [verification_graph.ainvoke(initial_state, config)]: the entry point is
    [ingestion] and the longest path calls seven nodes. *)
Definition ainvoke (initial_state : State) (s : Store)
  : option (list (node * Update) * State * Store) :=
  run 7 ingestion initial_state s.

End Graph.

(** ** risk_assessment.py on binary64 numbers *)

Module Binary64.

#[local] Set Warnings "-inexact-float".

(** The exact value of a finite float. *)
Definition exact (x : float) : option Q :=
  match Prim2SF x with
  | S754_zero _ => Some 0
  | S754_finite sign m e =>
      let magnitude :=
        match e with
        | Z0 => inject_Z (Zpos m)
        | Zpos p => inject_Z (Zpos m * 2 ^ Zpos p)
        | Zneg p => Qmake (Zpos m) (2 ^ p)
        end in
      Some (if sign then - magnitude else magnitude)
  | S754_infinity _ | S754_nan => None
  end.

(** The float of an integer below 2^53. *)
Definition of_int (n : Z) : float :=
  match n with
  | Z0 => 0%float
  | Zpos _ => PrimFloat.of_uint63 (Uint63.of_Z n)
  | Zneg p => PrimFloat.opp (PrimFloat.of_uint63 (Uint63.of_Z (Zpos p)))
  end.

(** [round(x, 1)]: the double nearest to the one-digit decimal nearest to the
    exact value of [x], ties to even; a zero result keeps the sign of [x].
    Infinities, NaN and floats too large to have a fractional part are
    returned as they are. *)
Definition round1 (x : float) : float :=
  match exact x with
  | Some q =>
      let n := Py.round_half_even (q * 10) in
      if (n =? 0)%Z then PrimFloat.mul x 0%float
      else if (Z.abs n <? 2 ^ 53)%Z then PrimFloat.div (of_int n) 10%float
      else x
  | None => x
  end.

(** The sort, on the scores alone. *)
Fixpoint insert_desc (x : float) (l : list float) : list float :=
  match l with
  | [] => [x]
  | y :: l' => if PrimFloat.ltb x y then y :: insert_desc x l' else x :: l
  end.

Definition sorted_desc (scores : list float) : list float :=
  foldr insert_desc [] scores.

Definition weights : list float := [1.0; 0.7; 0.5; 0.3; 0.2]%float.

Definition weight_at (idx : nat) : float :=
  match weights !! idx with
  | Some w => w
  | None => 0.1%float
  end.

Fixpoint weighted_loop (idx : nat) (scores : list float)
  (weighted_sum weight_total : float) : float * float :=
  match scores with
  | [] => (weighted_sum, weight_total)
  | score :: scores' =>
      let weight := weight_at idx in
      weighted_loop (S idx) scores'
        (PrimFloat.add weighted_sum (PrimFloat.mul score weight))
        (PrimFloat.add weight_total weight)
  end.

Definition calculate_overall_risk_score (scores : list float) : float :=
  match scores with
  | [] => 0%float
  | _ =>
      let '(weighted_sum, weight_total) :=
        weighted_loop 0 (take 5 (sorted_desc scores)) 0%float 0%float in
      let overall_score :=
        if PrimFloat.ltb 0%float weight_total
        then PrimFloat.div weighted_sum weight_total
        else 0%float in
      round1 overall_score
  end.

(** [severity_scores.get(severity, 50)], then the adjustment by status. *)
Definition calculate_compliance_risk_score (severity status : string) : float :=
  let base_score :=
    if decide (severity = "critical") then 90%float
    else if decide (severity = "high") then 70%float
    else if decide (severity = "medium") then 50%float
    else if decide (severity = "low") then 30%float
    else 50%float in
  if decide (status = "non_compliant") then base_score
  else if decide (status = "partially_compliant")
       then PrimFloat.mul base_score 0.7%float
  else PrimFloat.mul base_score 0.3%float.

End Binary64.

(** ** Fixtures: the state built by the upload route, a checkpoint, feedback *)

(** The state of [verify_document] (routes/agent.py) with the metadata set by
    the classification, the findings of a finished risk assessment and, on a
    resume, the feedback attached. *)
Definition checkpoint (obligations compliance_items risks : list loc)
  (overall_risk_score : Q) (requires_review : bool)
  (human_feedback : option HumanFeedback) : State :=
  {| st_document_file := "uploads/contract.pdf";
     st_document_type := "unknown";
     st_user_id := "default_user";
     st_session_id := "session-1";
     st_raw_text := "This Agreement is made between Party A and Party B.";
     st_parsed_sections := [];
     st_document_metadata :=
       Some {| dm_document_type := "contract";
               dm_parties := ["Party A"; "Party B"];
               dm_effective_date := None;
               dm_expiration_date := None;
               dm_document_id := None;
               dm_jurisdiction := None |};
     st_renewal_dates := [];
     st_obligations := obligations;
     st_compliance_items := compliance_items;
     st_risks := risks;
     st_overall_risk_score := overall_risk_score;
     st_risk_level := determine_risk_level overall_risk_score;
     st_human_feedback := human_feedback;
     st_requires_review := requires_review;
     st_review_items := [];
     st_current_step := "risk_assessment";
     st_progress_percentage := 75;
     st_messages := ["Document uploaded successfully"];
     st_verification_report := None;
     st_recommendations := [];
     st_status := "processing";
     st_error_message := None;
     st_created_at := "2026-01-01T00:00:00";
     st_updated_at := "2026-01-01T00:00:00" |}.

(** The state a resume re-enters the review gate with. *)
Definition attach_feedback (human_feedback : HumanFeedback) (state : State) : State :=
  {| st_document_file := st_document_file state;
     st_document_type := st_document_type state;
     st_user_id := st_user_id state;
     st_session_id := st_session_id state;
     st_raw_text := st_raw_text state;
     st_parsed_sections := st_parsed_sections state;
     st_document_metadata := st_document_metadata state;
     st_renewal_dates := st_renewal_dates state;
     st_obligations := st_obligations state;
     st_compliance_items := st_compliance_items state;
     st_risks := st_risks state;
     st_overall_risk_score := st_overall_risk_score state;
     st_risk_level := st_risk_level state;
     st_human_feedback := Some human_feedback;
     st_requires_review := st_requires_review state;
     st_review_items := st_review_items state;
     st_current_step := st_current_step state;
     st_progress_percentage := st_progress_percentage state;
     st_messages := st_messages state;
     st_verification_report := st_verification_report state;
     st_recommendations := st_recommendations state;
     st_status := st_status state;
     st_error_message := st_error_message state;
     st_created_at := st_created_at state;
     st_updated_at := st_updated_at state |}.

Definition feedback (action : string) (comments : option string)
  (modifications : option Modifications) : HumanFeedback :=
  {| hf_timestamp := "2026-01-02T00:00:00";
     hf_action := Some action;
     hf_comments := comments;
     hf_modifications := Some <$> modifications |}.

Definition no_modifications : Modifications :=
  {| m_risks := None; m_compliance_items := None; m_obligations := None;
     m_notes := None |}.

Definition set_m_risks (mods : list RiskMod) (m : Modifications) : Modifications :=
  {| m_risks := Some mods;
     m_compliance_items := m_compliance_items m;
     m_obligations := m_obligations m;
     m_notes := m_notes m |}.

Definition set_m_compliance_items (mods : list ComplianceMod) (m : Modifications)
  : Modifications :=
  {| m_risks := m_risks m;
     m_compliance_items := Some mods;
     m_obligations := m_obligations m;
     m_notes := m_notes m |}.

Definition risk_of (id severity : string) (score : Q) : Risk :=
  {| r_id := id; r_category := "compliance"; r_severity := severity;
     r_description := "GDPR: No DPA found in contract documents";
     r_mitigation := "Engage data protection officer";
     r_score := score |}.

Definition sample_item : ComplianceItem :=
  {| c_regulation := "GDPR";
     c_requirement := "Data Processing Agreement required";
     c_status := "non_compliant";
     c_gap := Some "No DPA found in contract documents";
     c_severity := "high" |}.

Definition sample_obligation : Obligation :=
  {| o_clause_id := "6.1";
     o_requirement := "Compliance with data protection regulations";
     o_party := "Both Parties";
     o_status := "unclear";
     o_deadline := None;
     o_description := "Comply with GDPR and applicable data protection laws" |}.

(** One risk, one compliance item and one obligation, at address 0 of their
    kinds. *)
Definition sample_store : Store :=
  {| risk_objs := {[ 0%nat := risk_of "compliance_risk_0" "high" 70 ]};
     item_objs := {[ 0%nat := sample_item ]};
     obligation_objs := {[ 0%nat := sample_obligation ]} |}.

Definition sample_state (human_feedback : option HumanFeedback) : State :=
  checkpoint [0%nat] [0%nat] [0%nat] 70 false human_feedback.

Definition renewal_in (days : Z) : RenewalDate :=
  {| d_date := "2026-01-01"; d_description := "Contract renewal deadline";
     d_days_until := days; d_urgency := calculate_urgency days;
     d_clause_reference := Some "Section 5.2" |}.

Definition scored (score : Q) : Risk := risk_of "risk" "medium" score.

(** Feedback that lowers the severity of the risk of [sample_store]. *)
Definition lower_severity : RiskMod :=
  {| rm_id := Some "compliance_risk_0"; rm_severity := Some "low";
     rm_description := None; rm_mitigation := None |}.

(** A risk patch whose id no risk of [sample_store] has. *)
Definition unknown_risk : RiskMod :=
  {| rm_id := Some "deadline_risk_7"; rm_severity := Some "low";
     rm_description := None; rm_mitigation := None |}.

(** A compliance patch without the key [index]. *)
Definition no_index : ComplianceMod :=
  {| cm_index := None; cm_status := Some "compliant"; cm_gap := None |}.

(** ** Predicates on stage calls *)

(** The keys of a dict that no assignment of [apply_user_modifications]
    targets. *)
Definition same_risk_frame (a b : Risk) : Prop :=
  r_id a = r_id b /\ r_category a = r_category b /\ r_score a = r_score b.

Definition same_item_frame (a b : ComplianceItem) : Prop :=
  c_regulation a = c_regulation b /\ c_requirement a = c_requirement b
  /\ c_severity a = c_severity b.

Definition same_obligation_frame (a b : Obligation) : Prop :=
  o_clause_id a = o_clause_id b /\ o_requirement a = o_requirement b
  /\ o_party a = o_party b /\ o_deadline a = o_deadline b.

(** [s'] holds the same objects as [s], up to the keys a patch may assign. *)
Definition patched (s s' : Store) : Prop :=
  forall l : loc,
    option_Forall2 same_risk_frame (risk_objs s !! l) (risk_objs s' !! l)
    /\ option_Forall2 same_item_frame (item_objs s !! l) (item_objs s' !! l)
    /\ option_Forall2 same_obligation_frame
         (obligation_objs s !! l) (obligation_objs s' !! l).

(** Objects outside the three lists of the state are the same in [s'] as in
    [s]. *)
Definition untouched_outside (state : State) (s s' : Store) : Prop :=
  (forall l : loc, l ∉ st_risks state -> risk_objs s' !! l = risk_objs s !! l)
  /\ (forall l : loc,
        l ∉ st_compliance_items state -> item_objs s' !! l = item_objs s !! l)
  /\ (forall l : loc,
        l ∉ st_obligations state ->
        obligation_objs s' !! l = obligation_objs s !! l).

(** The frame of one call of the review gate. *)
Definition hitl_frame (state : State) (s s' : Store) : Prop :=
  patched s s' /\ untouched_outside state s s'.

(** The stage contract of the merge policy, first half: the entries of the
    lists of the input state are the same after the call as before. *)
Definition entries_unmodified (state : State) (s s' : Store) : Prop :=
  (forall l : loc, l ∈ st_risks state -> risk_objs s' !! l = risk_objs s !! l)
  /\ (forall l : loc,
        l ∈ st_compliance_items state -> item_objs s' !! l = item_objs s !! l)
  /\ (forall l : loc,
        l ∈ st_obligations state ->
        obligation_objs s' !! l = obligation_objs s !! l).

(** Second half: the lists of the update hold no entry the state already
    has. *)
Definition returns_delta_only (state : State) (d : Update) : Prop :=
  (forall l : loc, l ∈ default [] (u_risks d) -> l ∉ st_risks state)
  /\ (forall l : loc,
        l ∈ default [] (u_compliance_items d) -> l ∉ st_compliance_items state)
  /\ (forall l : loc,
        l ∈ default [] (u_obligations d) -> l ∉ st_obligations state).

(** In a list of calls, an update with [status] set to error is the last
    one. *)
Fixpoint error_is_last (called : list (node * Update)) : bool :=
  match called with
  | [] => true
  | (_, d) :: rest =>
      if bool_decide (u_status d = Some "error")
      then match rest with [] => true | _ :: _ => false end
      else error_is_last rest
  end.

(** ** Further stages and helpers

    [d[key] = v], for the keys the stages below assign. *)
Definition set_raw_text (v : string) (d : Update) : Update :=
  Build_Update (Some v) (u_document_type d) (u_parsed_sections d)
    (u_document_metadata d) (u_renewal_dates d) (u_obligations d)
    (u_compliance_items d) (u_risks d) (u_overall_risk_score d)
    (u_risk_level d) (u_requires_review d) (u_review_items d)
    (u_current_step d) (u_progress_percentage d) (u_messages d)
    (u_verification_report d) (u_recommendations d) (u_status d)
    (u_error_message d) (u_updated_at d).

Definition set_document_type (v : string) (d : Update) : Update :=
  Build_Update (u_raw_text d) (Some v) (u_parsed_sections d)
    (u_document_metadata d) (u_renewal_dates d) (u_obligations d)
    (u_compliance_items d) (u_risks d) (u_overall_risk_score d)
    (u_risk_level d) (u_requires_review d) (u_review_items d)
    (u_current_step d) (u_progress_percentage d) (u_messages d)
    (u_verification_report d) (u_recommendations d) (u_status d)
    (u_error_message d) (u_updated_at d).

Definition set_parsed_sections (v : list ParsedSection) (d : Update) : Update :=
  Build_Update (u_raw_text d) (u_document_type d) (Some v)
    (u_document_metadata d) (u_renewal_dates d) (u_obligations d)
    (u_compliance_items d) (u_risks d) (u_overall_risk_score d)
    (u_risk_level d) (u_requires_review d) (u_review_items d)
    (u_current_step d) (u_progress_percentage d) (u_messages d)
    (u_verification_report d) (u_recommendations d) (u_status d)
    (u_error_message d) (u_updated_at d).

Definition set_document_metadata (v : DocumentMetadata) (d : Update) : Update :=
  Build_Update (u_raw_text d) (u_document_type d) (u_parsed_sections d)
    (Some v) (u_renewal_dates d) (u_obligations d) (u_compliance_items d)
    (u_risks d) (u_overall_risk_score d) (u_risk_level d) (u_requires_review
    d) (u_review_items d) (u_current_step d) (u_progress_percentage d)
    (u_messages d) (u_verification_report d) (u_recommendations d) (u_status
    d) (u_error_message d) (u_updated_at d).

Definition set_overall_risk_score (v : Q) (d : Update) : Update :=
  Build_Update (u_raw_text d) (u_document_type d) (u_parsed_sections d)
    (u_document_metadata d) (u_renewal_dates d) (u_obligations d)
    (u_compliance_items d) (u_risks d) (Some v) (u_risk_level d)
    (u_requires_review d) (u_review_items d) (u_current_step d)
    (u_progress_percentage d) (u_messages d) (u_verification_report d)
    (u_recommendations d) (u_status d) (u_error_message d) (u_updated_at d).

Definition set_risk_level (v : string) (d : Update) : Update :=
  Build_Update (u_raw_text d) (u_document_type d) (u_parsed_sections d)
    (u_document_metadata d) (u_renewal_dates d) (u_obligations d)
    (u_compliance_items d) (u_risks d) (u_overall_risk_score d) (Some v)
    (u_requires_review d) (u_review_items d) (u_current_step d)
    (u_progress_percentage d) (u_messages d) (u_verification_report d)
    (u_recommendations d) (u_status d) (u_error_message d) (u_updated_at d).

(** ** risk_assessment.py: the scorers *)

Definition calculate_compliance_risk_score (severity status : string) : Q :=
  let base_score :=
    if decide (severity = "critical") then 90
    else if decide (severity = "high") then 70
    else if decide (severity = "medium") then 50
    else if decide (severity = "low") then 30
    else 50 in
  if decide (status = "non_compliant") then base_score
  else if decide (status = "partially_compliant") then base_score * 0.7
  else base_score * 0.3.

Definition calculate_deadline_risk_score (days_until : Z) : Q :=
  if decide (days_until < 0)%Z then 100
  else if decide (days_until <= 7)%Z then 90
  else if decide (days_until <= 14)%Z then 75
  else if decide (days_until <= 30)%Z then 60
  else 40.

(** [mapping.get(urgency, "medium")] *)
Definition map_urgency_to_severity (urgency : string) : string :=
  if decide (urgency = "critical") then "critical"
  else if decide (urgency = "high") then "high"
  else if decide (urgency = "medium") then "medium"
  else if decide (urgency = "low") then "low"
  else "medium".

(** [mitigations.get(regulation, mitigations["default"])]; the key default
    of the table holds the default text itself. *)
Definition generate_compliance_mitigation (regulation requirement severity : string)
  : string :=
  if decide (regulation = "GDPR") then
    "Engage data protection officer to ensure GDPR compliance. Review and update data processing agreements."
  else if decide (regulation = "ISO27001") then
    "Schedule audit with certified ISO27001 auditor. Review information security management system."
  else if decide (regulation = "SOC2") then
    "Contact SOC2 auditor to schedule Type II assessment. Review security controls."
  else
    "Review " +:+ regulation
    +:+ " requirements and develop compliance plan. Consult with legal team if needed.".

Definition generate_deadline_mitigation (days_until : Z) (description : string)
  : string :=
  if decide (days_until < 0)%Z then
    "URGENT: Deadline overdue. Contact relevant parties immediately to address "
    +:+ description +:+ "."
  else if decide (days_until <= 7)%Z then
    "CRITICAL: Take immediate action. Prioritize completion of " +:+ description
    +:+ " within the next week."
  else if decide (days_until <= 30)%Z then
    "HIGH PRIORITY: Schedule completion of " +:+ description +:+ " within "
    +:+ Py.str days_until +:+ " days. Set reminders."
  else
    "PLANNED: Schedule " +:+ description +:+ " completion. Set reminder for "
    +:+ Py.str (days_until - 7) +:+ " days.".

Definition generate_obligation_mitigation (requirement party status : string)
  : string :=
  if decide (status = "overdue") then
    "Contact " +:+ party +:+ " immediately regarding overdue obligation: "
    +:+ requirement +:+ ". Escalate to management if needed."
  else if decide (status = "unclear") then
    "Seek clarification from legal team regarding: " +:+ requirement
    +:+ ". Document interpretation for " +:+ party +:+ "."
  else
    "Monitor " +:+ requirement +:+ " obligation for " +:+ party
    +:+ ". Ensure timely completion.".

(** ** risk_assessment.py: the three passes

    Each pass is the [for idx, x in enumerate(...)] loop with the list it
    appends to. *)

Definition compliance_risk (idx : nat) (item : ComplianceItem) : Risk :=
  let severity := c_severity item in
  let regulation := c_regulation item in
  let requirement := c_requirement item in
  let gap := c_gap item in
  let risk_score := calculate_compliance_risk_score severity (c_status item) in
  let mitigation := generate_compliance_mitigation regulation requirement severity in
  {| r_id := "compliance_risk_" +:+ pretty idx;
     r_category := "compliance";
     r_severity := severity;
     r_description := regulation +:+ ": " +:+ Py.fmt gap;
     r_mitigation := mitigation;
     r_score := risk_score |}.

Fixpoint assess_compliance_loop (idx : nat) (compliance_items : list ComplianceItem)
  (risks : list Risk) : list Risk :=
  match compliance_items with
  | [] => risks
  | item :: rest =>
      assess_compliance_loop (S idx) rest
        (if one_of (c_status item) ["non_compliant"; "partially_compliant"]
         then risks ++ [compliance_risk idx item]
         else risks)
  end.

Definition assess_compliance_risks (compliance_items : list ComplianceItem)
  : list Risk :=
  assess_compliance_loop 0 compliance_items [].

Definition deadline_risk (idx : nat) (renewal : RenewalDate) : Risk :=
  let days_until := d_days_until renewal in
  let urgency := d_urgency renewal in
  let description := d_description renewal in
  let risk_score := calculate_deadline_risk_score days_until in
  let severity := map_urgency_to_severity urgency in
  let mitigation := generate_deadline_mitigation days_until description in
  {| r_id := "deadline_risk_" +:+ pretty idx;
     r_category := "deadline";
     r_severity := severity;
     r_description :=
       "Deadline approaching: " +:+ description +:+ " in "
       +:+ Py.str days_until +:+ " days";
     r_mitigation := mitigation;
     r_score := risk_score |}.

Fixpoint assess_deadline_loop (idx : nat) (renewal_dates : list RenewalDate)
  (risks : list Risk) : list Risk :=
  match renewal_dates with
  | [] => risks
  | renewal :: rest =>
      assess_deadline_loop (S idx) rest
        (if decide (d_days_until renewal <= 30)%Z
         then risks ++ [deadline_risk idx renewal]
         else risks)
  end.

Definition assess_deadline_risks (renewal_dates : list RenewalDate) : list Risk :=
  assess_deadline_loop 0 renewal_dates [].

Definition obligation_risk (idx : nat) (obligation : Obligation) : Risk :=
  let status := o_status obligation in
  let requirement := o_requirement obligation in
  let party := o_party obligation in
  let severity := if decide (status = "overdue") then "high" else "medium" in
  let risk_score := if decide (status = "overdue") then 70 else 50 in
  let mitigation := generate_obligation_mitigation requirement party status in
  {| r_id := "obligation_risk_" +:+ pretty idx;
     r_category := "contractual";
     r_severity := severity;
     r_description :=
       "Obligation " +:+ status +:+ ": " +:+ requirement +:+ " (" +:+ party
       +:+ ")";
     r_mitigation := mitigation;
     r_score := risk_score |}.

Fixpoint assess_obligation_loop (idx : nat) (obligations : list Obligation)
  (risks : list Risk) : list Risk :=
  match obligations with
  | [] => risks
  | obligation :: rest =>
      assess_obligation_loop (S idx) rest
        (if one_of (o_status obligation) ["overdue"; "unclear"]
         then risks ++ [obligation_risk idx obligation]
         else risks)
  end.

Definition assess_obligation_risks (obligations : list Obligation) : list Risk :=
  assess_obligation_loop 0 obligations [].

(** ** New dicts and formatting *)

(** The dicts at a list of addresses, as a stage reads them. *)
Definition deref {A : Type} (objs : gmap loc A) (ls : list loc) : list A :=
  omap (fun l => objs !! l) ls.

(** A dict literal creates an object at an address no object of its kind
    has. *)
Definition new_risk (risk : Risk) : M loc :=
  fun s =>
    let l := fresh (dom (risk_objs s)) in
    ({| risk_objs := <[l := risk]> (risk_objs s);
        item_objs := item_objs s;
        obligation_objs := obligation_objs s |}, Py.Ok l).

Definition new_item (item : ComplianceItem) : M loc :=
  fun s =>
    let l := fresh (dom (item_objs s)) in
    ({| risk_objs := risk_objs s;
        item_objs := <[l := item]> (item_objs s);
        obligation_objs := obligation_objs s |}, Py.Ok l).

Fixpoint new_all {A : Type} (new : A -> M loc) (xs : list A) : M (list loc) :=
  match xs with
  | [] => mret []
  | x :: xs' => l ← new x; ls ← new_all new xs'; mret (l :: ls)
  end.

(** [f"{x:.1f}"] *)
Definition format_1f (x : Q) : string :=
  let n := Py.round_half_even (x * 10) in
  (if Qlt_le_dec x 0 then "-" else "")
  +:+ pretty (Z.abs n / 10)%Z +:+ "." +:+ pretty (Z.abs n mod 10)%Z.

(** ** ingestion.py, classification.py *)

Definition ingestion_node (now : string) : stage :=
  fun state s =>
    let raw_text := st_raw_text state in
    if decide (raw_text = "") then
      (s, set_status "error" $
          set_error_message
            ("Document ingestion failed: "
             +:+ "No text content found in document") $
          set_current_step "ingestion" $
          set_updated_at now no_update)
    else
      let document_metadata :=
        {| dm_document_type := "unknown";
           dm_parties := [];
           dm_effective_date := None;
           dm_expiration_date := None;
           dm_document_id := None;
           dm_jurisdiction := None |} in
      (s, set_raw_text raw_text $
          set_document_metadata document_metadata $
          set_current_step "ingestion" $
          set_progress_percentage 15 $
          set_messages ["Document ingested successfully"] $
          set_updated_at now no_update).

Definition classification_node (now : string) : stage :=
  fun state s =>
    let document_type := "contract" in
    let parsed_sections :=
      [ {| ps_section_name := "Parties"; ps_content := "Party A and Party B";
           ps_page := 1 |};
        {| ps_section_name := "Terms";
           ps_content := "Terms of the agreement..."; ps_page := 2 |} ] in
    let parties := ["Party A"; "Party B"] in
    (s, set_document_type document_type $
        set_parsed_sections parsed_sections $
        set_document_metadata
          {| dm_document_type := document_type;
             dm_parties := parties;
             dm_effective_date := None;
             dm_expiration_date := None;
             dm_document_id := None;
             dm_jurisdiction := None |} $
        set_current_step "classification" $
        set_progress_percentage 30 $
        set_messages ["Document classified as " +:+ document_type] $
        set_updated_at now no_update).

(** ** compliance.py: the rule table *)

Record Rules := {
  required_clauses : list string;
  required_certifications : list string;
  regulatory_requirements : list string
}.

Definition COMPLIANCE_RULES : gmap string Rules :=
  {[ "contract" :=
       {| required_clauses :=
            ["Termination clause"; "Confidentiality agreement";
             "Indemnification clause"; "Dispute resolution"];
          required_certifications := [];
          regulatory_requirements := [] |};
     "license" :=
       {| required_clauses :=
            ["License scope"; "Usage restrictions"; "Renewal terms"];
          required_certifications := ["Business license"];
          regulatory_requirements := ["State licensing requirements"] |};
     "service_agreement" :=
       {| required_clauses :=
            ["Service Level Agreement (SLA)"; "Data protection clause";
             "Liability limitations"];
          required_certifications := ["ISO27001"; "SOC2"];
          regulatory_requirements :=
            ["GDPR compliance"; "Data Processing Agreement"] |} ]}.

(** [COMPLIANCE_RULES.get(document_type, COMPLIANCE_RULES["contract"])] *)
Definition rules_for (document_type : string) : Rules :=
  match COMPLIANCE_RULES !! document_type with
  | Some rules => rules
  | None =>
      match COMPLIANCE_RULES !! "contract" with
      | Some rules => rules
      | None => {| required_clauses := []; required_certifications := [];
                   regulatory_requirements := [] |}
      end
  end.

Section Stages.

(** [str.lower] and [str.upper], which follow the Unicode case tables. *)
Variables lower upper : string -> string.

(** [any(needle.lower() in text.lower() for text in texts)] *)
Definition mentioned (needle : string) (texts : list string) : bool :=
  existsb (fun text => Py.contains (lower needle) (lower text)) texts.

(** [for x in xs: if not found(x): verified_items.append(item(x))] *)
Fixpoint append_missing (found : string -> bool)
  (item : string -> ComplianceItem) (xs : list string)
  (verified_items : list loc) : M (list loc) :=
  match xs with
  | [] => mret verified_items
  | x :: xs' =>
      if found x then append_missing found item xs' verified_items
      else
        l ← new_item (item x);
        append_missing found item xs' (verified_items ++ [l])
  end.

(** compliance.py: [verified_items] starts as a copy of the list it is given,
    holding the same dicts; the three checks read the lists they were
    given. *)
Definition verify_compliance (compliance_items obligations : list loc)
  (rules : Rules) : M (list loc) :=
  fun s =>
    let items := deref (item_objs s) compliance_items in
    let obligs := deref (obligation_objs s) obligations in
    let verified_items := compliance_items in
    (verified_items ←
       append_missing
         (fun clause => mentioned clause (o_description <$> obligs))
         (fun clause =>
            {| c_regulation := "Contract Standards";
               c_requirement := "Required clause: " +:+ clause;
               c_status := "non_compliant";
               c_gap := Some ("Missing required clause: " +:+ clause);
               c_severity := "high" |})
         (required_clauses rules) verified_items;
     verified_items ←
       append_missing
         (fun cert => mentioned cert (c_regulation <$> items))
         (fun cert =>
            {| c_regulation := cert;
               c_requirement := cert +:+ " certification required";
               c_status := "unclear";
               c_gap := Some ("No evidence of " +:+ cert
                              +:+ " certification found");
               c_severity := "medium" |})
         (required_certifications rules) verified_items;
     append_missing
       (fun regulation => mentioned regulation (c_requirement <$> items))
       (fun regulation =>
          {| c_regulation := regulation;
             c_requirement := "Compliance with " +:+ regulation;
             c_status := "non_compliant";
             c_gap := Some ("No " +:+ regulation +:+ " compliance documented");
             c_severity := "high" |})
       (regulatory_requirements rules) verified_items) s.

Definition compliance_node (now : string) : stage :=
  fun state s =>
    let document_type := st_document_type state in
    let compliance_items := st_compliance_items state in
    let obligations := st_obligations state in
    let renewal_dates := st_renewal_dates state in
    let rules := rules_for document_type in
    match
      (updated_compliance_items ←
         verify_compliance compliance_items obligations rules;
       deadline_issues ← new_all new_item (check_deadline_compliance renewal_dates);
       mret (updated_compliance_items ++ deadline_issues)) s
    with
    | (s', Py.Ok updated_compliance_items) =>
        let total_items := length updated_compliance_items in
        let compliant_count :=
          length (select (item_objs s')
                    (fun item => bool_decide (c_status item = "compliant"))
                    updated_compliance_items) in
        let non_compliant_count :=
          length (select (item_objs s')
                    (fun item => bool_decide (c_status item = "non_compliant"))
                    updated_compliance_items) in
        (s', set_compliance_items updated_compliance_items $
             set_current_step "compliance" $
             set_progress_percentage 60 $
             set_messages
               ["Verified " +:+ pretty total_items
                +:+ " compliance requirements";
                pretty compliant_count +:+ " items compliant, "
                +:+ pretty non_compliant_count +:+ " items need attention"] $
             set_updated_at now no_update)
    | (s', Py.Raise e) =>
        (s', set_status "error" $
             set_error_message ("Compliance verification failed: " +:+ e) $
             set_current_step "compliance" $
             set_updated_at now no_update)
    end.

(** risk_assessment.py: the node.  The risks it returns are new dicts. *)
Definition risk_assessment_node (now : string) : stage :=
  fun state s =>
    let compliance_items := deref (item_objs s) (st_compliance_items state) in
    let obligations := deref (obligation_objs s) (st_obligations state) in
    let renewal_dates := st_renewal_dates state in
    let compliance_risks := assess_compliance_risks compliance_items in
    let deadline_risks := assess_deadline_risks renewal_dates in
    let obligation_risks := assess_obligation_risks obligations in
    let all_risks := compliance_risks ++ deadline_risks ++ obligation_risks in
    let overall_risk_score := calculate_overall_risk_score all_risks in
    let risk_level := determine_risk_level overall_risk_score in
    let requires_review :=
      (if Qlt_le_dec 75 overall_risk_score then true else false)
      || existsb (fun risk => bool_decide (r_severity risk = "critical"))
                 all_risks in
    let review_items :=
      if requires_review then
        r_description
          <$> List.filter
                (fun risk => one_of (r_severity risk) ["critical"; "high"])
                all_risks
      else [] in
    match new_all new_risk all_risks s with
    | (s', Py.Ok risks) =>
        (s', set_risks risks $
             set_overall_risk_score overall_risk_score $
             set_risk_level risk_level $
             set_requires_review requires_review $
             set_review_items (ReviewText <$> review_items) $
             set_current_step "risk_assessment" $
             set_progress_percentage 75 $
             set_messages
               ["Identified " +:+ pretty (length all_risks) +:+ " risk items";
                "Overall risk level: " +:+ upper risk_level;
                "Risk score: " +:+ format_1f overall_risk_score +:+ "/100"] $
             set_updated_at now no_update)
    | (s', Py.Raise e) =>
        (s', set_status "error" $
             set_error_message ("Risk assessment failed: " +:+ e) $
             set_current_step "risk_assessment" $
             set_updated_at now no_update)
    end.

End Stages.

(** ** What an enumerating loop appends *)

(** [enumerate(xs, idx)] *)
Fixpoint enumerate_from {A : Type} (idx : nat) (xs : list A) : list (nat * A) :=
  match xs with
  | [] => []
  | x :: xs' => (idx, x) :: enumerate_from (S idx) xs'
  end.

(** [[make(i, x) for i, x in enumerate(xs, idx) if keep(x)]] *)
Definition appended {A B : Type} (keep : A -> bool) (make : nat -> A -> B)
  (idx : nat) (xs : list A) : list B :=
  (fun p => make p.1 p.2)
    <$> filter (fun p : nat * A => keep p.2) (enumerate_from idx xs).

(** The tests of the three passes of the risk assessment. *)
Definition scored_status (item : ComplianceItem) : bool :=
  one_of (c_status item) ["non_compliant"; "partially_compliant"].

Definition due_within_30 (renewal : RenewalDate) : bool :=
  bool_decide (d_days_until renewal <= 30)%Z.

Definition scored_obligation (obligation : Obligation) : bool :=
  one_of (o_status obligation) ["overdue"; "unclear"].

(** ** New dicts in the store *)

(** [s'] is [s] with new risks at the addresses [new], and nothing else
    changed. *)
Definition risks_added (s s' : Store) (new : list loc) : Prop :=
  NoDup new
  /\ (forall l : loc, l ∈ new -> risk_objs s !! l = None)
  /\ (forall l : loc, l ∈ new -> is_Some (risk_objs s' !! l))
  /\ (forall l : loc, l ∉ new -> risk_objs s' !! l = risk_objs s !! l)
  /\ item_objs s' = item_objs s
  /\ obligation_objs s' = obligation_objs s.

(** The same for compliance items. *)
Definition items_added (s s' : Store) (new : list loc) : Prop :=
  NoDup new
  /\ (forall l : loc, l ∈ new -> item_objs s !! l = None)
  /\ (forall l : loc, l ∈ new -> is_Some (item_objs s' !! l))
  /\ (forall l : loc, l ∉ new -> item_objs s' !! l = item_objs s !! l)
  /\ risk_objs s' = risk_objs s
  /\ obligation_objs s' = obligation_objs s.

(** Every address of the three lists of the state holds a dict. *)
Definition well_formed (state : State) (s : Store) : Prop :=
  (forall l : loc, l ∈ st_risks state -> is_Some (risk_objs s !! l))
  /\ (forall l : loc,
        l ∈ st_compliance_items state -> is_Some (item_objs s !! l))
  /\ (forall l : loc,
        l ∈ st_obligations state -> is_Some (obligation_objs s !! l)).

(** The number of rules of a rule set. *)
Definition rule_count (rules : Rules) : nat :=
  length (required_clauses rules) + length (required_certifications rules)
  + length (regulatory_requirements rules).

(** [all_risks] of [risk_assessment_node], as a function of its input. *)
Definition assessed_risks (state : State) (s : Store) : list Risk :=
  assess_compliance_risks (deref (item_objs s) (st_compliance_items state))
  ++ assess_deadline_risks (st_renewal_dates state)
  ++ assess_obligation_risks (deref (obligation_objs s) (st_obligations state)).

(** ** Further fixtures and measures *)

(** The modifications of a review with the key [notes] set, or removed. *)
Definition set_m_notes (notes : option string) (m : Modifications)
  : Modifications :=
  {| m_risks := m_risks m;
     m_compliance_items := m_compliance_items m;
     m_obligations := m_obligations m;
     m_notes := notes |}.

(** The entries the called nodes returned under an accumulating key, in call
    order. *)
Definition returned {A : Type} (key : Update -> option (list A))
  (called : list (node * Update)) : list A :=
  mjoin ((fun c : node * Update => default [] (key c.2)) <$> called).

(** Two risk lists with the same scores, position by position. *)
Definition same_scores (l1 l2 : list Risk) : Prop :=
  Forall2 (fun a b => r_score a == r_score b) l1 l2.

(** ** report.py: the sections computed from the findings *)

Record Recommendation := {
  rec_priority : string;
  rec_category : string;
  rec_issue : option string;
  rec_action : string;
  rec_timeline : string
}.

(** The four loops of [generate_recommendations_section], each appending to
    [recommendations]. *)
Definition critical_risk_recommendations (risks : list Risk)
  : list Recommendation :=
  let critical_risks := filter (fun r => r_severity r = "critical") risks in
  (fun risk =>
     {| rec_priority := "critical";
        rec_category := r_category risk;
        rec_issue := Some (r_description risk);
        rec_action := r_mitigation risk;
        rec_timeline := "Immediate (within 24 hours)" |})
    <$> critical_risks.

Definition high_risk_recommendations (risks : list Risk)
  : list Recommendation :=
  let high_risks := filter (fun r => r_severity r = "high") risks in
  (fun risk =>
     {| rec_priority := "high";
        rec_category := r_category risk;
        rec_issue := Some (r_description risk);
        rec_action := r_mitigation risk;
        rec_timeline := "Within 7 days" |})
    <$> take 3 high_risks.

Definition gap_recommendations (compliance_items : list ComplianceItem)
  : list Recommendation :=
  let non_compliant :=
    filter (fun c => c_status c = "non_compliant") compliance_items in
  (fun item =>
     {| rec_priority := "high";
        rec_category := "compliance";
        rec_issue := c_gap item;
        rec_action :=
          "Address " +:+ c_regulation item +:+ " compliance requirement";
        rec_timeline := "Within 14 days" |})
    <$> take 3 non_compliant.

Definition deadline_recommendations (renewal_dates : list RenewalDate)
  : list Recommendation :=
  let urgent_deadlines :=
    filter (fun d => d_urgency d = "critical") renewal_dates in
  (fun deadline =>
     {| rec_priority := "critical";
        rec_category := "deadline";
        rec_issue := Some ("Deadline approaching: " +:+ d_description deadline);
        rec_action := "Complete renewal process immediately";
        rec_timeline := Py.str (d_days_until deadline) +:+ " days remaining" |})
    <$> urgent_deadlines.

Definition generate_recommendations_section (risks : list Risk)
  (compliance_items : list ComplianceItem) (renewal_dates : list RenewalDate)
  : list Recommendation :=
  let recommendations := [] in
  let recommendations :=
    recommendations ++ critical_risk_recommendations risks in
  let recommendations := recommendations ++ high_risk_recommendations risks in
  let recommendations :=
    recommendations ++ gap_recommendations compliance_items in
  let recommendations :=
    recommendations ++ deadline_recommendations renewal_dates in
  recommendations.

(** [priority_order.get(priority, 3)] *)
Definition priority_order (priority : string) : nat :=
  if decide (priority = "critical") then 0
  else if decide (priority = "high") then 1
  else if decide (priority = "medium") then 2
  else 3.

(** [sorted(xs, key=key)]: a stable sort, entries of equal key keep their
    relative order. *)
Fixpoint insert_by_key {A : Type} (key : A -> nat) (x : A) (l : list A)
  : list A :=
  match l with
  | [] => [x]
  | y :: l' =>
      if decide (key y < key x)%nat then y :: insert_by_key key x l'
      else x :: l
  end.

Definition sorted_by_key {A : Type} (key : A -> nat) (xs : list A) : list A :=
  foldr (insert_by_key key) [] xs.

(** [f"[{priority}] {action} - {timeline}"], [upper] being [str.upper]. *)
Definition format_recommendation (upper : string -> string)
  (rec : Recommendation) : string :=
  let priority := upper (rec_priority rec) in
  let action := rec_action rec in
  let timeline := rec_timeline rec in
  "[" +:+ priority +:+ "] " +:+ action +:+ " - " +:+ timeline.

Definition extract_top_recommendations (upper : string -> string)
  (recommendations : list Recommendation) : list string :=
  let sorted_recs :=
    sorted_by_key (fun r => priority_order (rec_priority r)) recommendations in
  format_recommendation upper <$> take 5 sorted_recs.

(** A dict of lists filled by [if k not in d: d[k] = []; d[k].append(x)]: the
    keys stay in the order of their first insertion. *)
Fixpoint group_insert {A : Type} (k : string) (x : A)
  (groups : list (string * list A)) : list (string * list A) :=
  match groups with
  | [] => [(k, [x])]
  | (k', xs) :: rest =>
      if decide (k' = k) then (k', xs ++ [x]) :: rest
      else (k', xs) :: group_insert k x rest
  end.

Definition group_by {A : Type} (key : A -> string) (items : list A)
  : list (string * list A) :=
  foldl (fun groups x => group_insert (key x) x groups) [] items.

(** [d.get(k, [])] *)
Fixpoint get_group {A : Type} (k : string) (groups : list (string * list A))
  : list A :=
  match groups with
  | [] => []
  | (k', xs) :: rest => if decide (k' = k) then xs else get_group k rest
  end.

Record ComplianceSection := {
  cs_total_count : nat;
  cs_compliant_count : nat;
  cs_non_compliant_count : nat;
  cs_partially_compliant_count : nat;
  cs_unclear_count : nat;
  cs_compliance_rate : Q;
  cs_by_regulation : list (string * list ComplianceItem);
  cs_gaps : list ComplianceItem
}.

Definition generate_compliance_section (compliance_items : list ComplianceItem)
  : ComplianceSection :=
  let compliant := filter (fun c => c_status c = "compliant") compliance_items in
  let non_compliant :=
    filter (fun c => c_status c = "non_compliant") compliance_items in
  let partially_compliant :=
    filter (fun c => c_status c = "partially_compliant") compliance_items in
  let unclear := filter (fun c => c_status c = "unclear") compliance_items in
  let by_regulation := group_by c_regulation compliance_items in
  {| cs_total_count := length compliance_items;
     cs_compliant_count := length compliant;
     cs_non_compliant_count := length non_compliant;
     cs_partially_compliant_count := length partially_compliant;
     cs_unclear_count := length unclear;
     cs_compliance_rate :=
       match compliance_items with
       | [] => 0
       | _ =>
           inject_Z (Z.of_nat (length compliant))
           / inject_Z (Z.of_nat (length compliance_items)) * 100
       end;
     cs_by_regulation := by_regulation;
     cs_gaps := non_compliant ++ partially_compliant |}.

Record RiskMatrixEntry := {
  rme_id : string;
  rme_category : string;
  rme_severity : string;
  rme_score : Q;
  rme_description : string
}.

Definition generate_risk_matrix (risks : list Risk) : list RiskMatrixEntry :=
  (fun risk =>
     {| rme_id := r_id risk;
        rme_category := r_category risk;
        rme_severity := r_severity risk;
        rme_score := r_score risk;
        rme_description := r_description risk |})
    <$> risks.

Record RiskAssessmentSection := {
  ras_overall_level : string;
  ras_total_risks : nat;
  ras_by_category : list (string * list Risk);
  ras_by_severity : list (string * list Risk);
  ras_critical_risks : list Risk;
  ras_high_risks : list Risk;
  ras_risk_matrix : list RiskMatrixEntry
}.

Definition generate_risk_assessment_section (risks : list Risk)
  (risk_level : string) : RiskAssessmentSection :=
  let by_category := group_by r_category risks in
  let by_severity := group_by r_severity risks in
  {| ras_overall_level := risk_level;
     ras_total_risks := length risks;
     ras_by_category := by_category;
     ras_by_severity := by_severity;
     ras_critical_risks := get_group "critical" by_severity;
     ras_high_risks := get_group "high" by_severity;
     ras_risk_matrix := generate_risk_matrix risks |}.

(** Case analysis on the status tests of a list of compliance items. *)
Local Ltac status_cases :=
  repeat case_decide; simpl; try lia; try (exfalso; congruence); exfalso;
  match goal with
  | H : _ ∉ _, E : c_status _ = _ |- _ =>
      apply H; rewrite E; apply (bool_decide_unpack _); reflexivity
  | H : ~ _ ∉ _ |- _ =>
      apply H; intros Hin;
      repeat (apply elem_of_cons in Hin as [? | Hin]; [done |]);
      by apply elem_of_nil in Hin
  | H : ~ _ ∈ _, E : c_status _ = _ |- _ =>
      apply H; rewrite E; apply (bool_decide_unpack _); reflexivity
  | H : _ ∈ _ |- _ =>
      repeat (apply elem_of_cons in H as [? | H]; [done |]);
      by apply elem_of_nil in H
  end.

(** * Properties *)

(** ** Rounding *)

Lemma round_half_even_cases (x : Q) :
  (Py.round_half_even x = Qfloor x /\ x <= inject_Z (Qfloor x) + (1 # 2))
  \/ (Py.round_half_even x = (Qfloor x + 1)%Z
      /\ inject_Z (Qfloor x) + (1 # 2) <= x).
Proof.
  unfold Py.round_half_even.
  destruct (Qcompare (x - inject_Z (Qfloor x)) (1 # 2)) eqn:Hc.
  - apply Qeq_alt in Hc.
    destruct (Z.even (Qfloor x)); [left | right]; split; auto; lra.
  - apply Qlt_alt in Hc. left. split; auto; lra.
  - apply Qgt_alt in Hc. right. split; auto; lra.
Qed.

Lemma round_half_even_le_int (x : Q) (k : Z) :
  x <= inject_Z k -> (Py.round_half_even x <= k)%Z.
Proof.
  intros Hx.
  pose proof (Qfloor_le x) as Hf.
  assert (Hfk : (Qfloor x <= k)%Z) by (rewrite Zle_Qle; lra).
  destruct (round_half_even_cases x) as [[-> _] | [-> Hh]]; [lia |].
  assert (Hlt : inject_Z (Qfloor x) < inject_Z k) by lra.
  rewrite <- Zlt_Qlt in Hlt. lia.
Qed.

Lemma round_half_even_ge_int (x : Q) (k : Z) :
  inject_Z k <= x -> (k <= Py.round_half_even x)%Z.
Proof.
  intros Hx.
  pose proof (Qlt_floor x) as Hf.
  assert (Hlt : inject_Z k < inject_Z (Qfloor x + 1)) by lra.
  rewrite <- Zlt_Qlt in Hlt.
  destruct (round_half_even_cases x) as [[-> _] | [-> _]]; lia.
Qed.

Lemma round_half_even_comp (x y : Q) :
  x == y -> Py.round_half_even x = Py.round_half_even y.
Proof.
  intros E. unfold Py.round_half_even.
  rewrite (Qfloor_comp _ _ E).
  assert (Ec : Qcompare (x - inject_Z (Qfloor y)) (1 # 2)
               = Qcompare (y - inject_Z (Qfloor y)) (1 # 2))
    by (apply Qcompare_comp; [rewrite E |]; reflexivity).
  now rewrite Ec.
Qed.


Lemma div10 (a : Q) : a / 10 == a * 0.1.
Proof. field. Qed.

Lemma round1_comp (x y : Q) : x == y -> Py.round1 x == Py.round1 y.
Proof.
  intros E. unfold Py.round1.
  rewrite (round_half_even_comp (x * 10) (y * 10)); [reflexivity |].
  now rewrite E.
Qed.


Lemma round1_le_tenths (x : Q) (k : Z) :
  x <= inject_Z k / 10 -> Py.round1 x <= inject_Z k / 10.
Proof.
  intros Hx. unfold Py.round1. rewrite div10 in Hx.
  assert (H : (Py.round_half_even (x * 10) <= k)%Z)
    by (apply round_half_even_le_int; lra).
  rewrite Zle_Qle in H. rewrite !div10. lra.
Qed.

Lemma round1_ge_tenths (x : Q) (k : Z) :
  inject_Z k / 10 <= x -> inject_Z k / 10 <= Py.round1 x.
Proof.
  intros Hx. unfold Py.round1. rewrite div10 in Hx.
  assert (H : (k <= Py.round_half_even (x * 10))%Z)
    by (apply round_half_even_ge_int; lra).
  rewrite Zle_Qle in H. rewrite !div10. lra.
Qed.


(** ** The overall risk score *)

Lemma insert_desc_perm (r : Risk) (l : list Risk) : insert_desc r l ≡ₚ r :: l.
Proof.
  induction l as [| y l IH]; simpl; [done |].
  destruct (Qlt_le_dec (r_score r) (r_score y)); [| done].
  rewrite IH. apply Permutation_swap.
Qed.

Lemma sorted_desc_perm (risks : list Risk) : sorted_desc risks ≡ₚ risks.
Proof.
  induction risks as [| r l IH]; simpl; [done |].
  rewrite insert_desc_perm. by rewrite IH.
Qed.

Lemma sorted_desc_length (risks : list Risk) :
  length (sorted_desc risks) = length risks.
Proof. by rewrite sorted_desc_perm. Qed.

Lemma insert_desc_descending (r : Risk) (l : list Risk) :
  descending l -> descending (insert_desc r l).
Proof.
  induction 1 as [| y l Hy Hl IH]; simpl.
  - constructor; constructor.
  - destruct (Qlt_le_dec (r_score r) (r_score y)) as [Hlt | Hle].
    + constructor; [| done].
      rewrite insert_desc_perm. constructor; [lra | done].
    + constructor; [| by constructor].
      constructor; [done |].
      eapply Forall_impl; [exact Hy |]. simpl. intros z Hz. lra.
Qed.

(** The result of the sort is in descending order of score. *)
Lemma sorted_desc_descending (risks : list Risk) : descending (sorted_desc risks).
Proof.
  induction risks; simpl; [constructor | by apply insert_desc_descending].
Qed.

Lemma weight_at_pos (idx : nat) : 0 < weight_at idx.
Proof.
  unfold weight_at, weights.
  do 5 (destruct idx as [| idx]; [reflexivity |]). reflexivity.
Qed.




(** Every weighted sum the loop can reach stays between [lo] and [hi] times
    the total weight, when the scores do. *)
Lemma weighted_loop_bounds (lo hi : Q) (rs : list Risk) :
  Forall (fun r => lo <= r_score r <= hi) rs ->
  forall (idx : nat) (ws wt : Q),
    lo * wt <= ws <= hi * wt ->
    lo * (weighted_loop idx rs ws wt).2 <= (weighted_loop idx rs ws wt).1
    /\ (weighted_loop idx rs ws wt).1 <= hi * (weighted_loop idx rs ws wt).2
    /\ wt <= (weighted_loop idx rs ws wt).2
    /\ (rs <> [] -> wt < (weighted_loop idx rs ws wt).2).
Proof.
  induction 1 as [| r rs [Hlo Hhi] _ IH]; intros idx ws wt [Hl Hh].
  - simpl. repeat split; try lra. congruence.
  - simpl weighted_loop.
    pose proof (weight_at_pos idx) as Hw.
    set (w := weight_at idx) in *.
    assert (H1 : lo * w <= r_score r * w)
      by (apply Qmult_le_compat_r; lra).
    assert (H2 : r_score r * w <= hi * w)
      by (apply Qmult_le_compat_r; lra).
    destruct (IH (S idx) (ws + r_score r * w) (wt + w)) as (A & B & C & _).
    { split; lra. }
    repeat split; try done; lra.
Qed.

(** The score of a non-empty list is the rounding of an average that lies
    between any two bounds of the individual scores. *)
Lemma overall_score_between (lo hi : Q) (risks : list Risk) :
  risks <> [] ->
  Forall (fun r => lo <= r_score r <= hi) risks ->
  exists avg : Q,
    calculate_overall_risk_score risks = Py.round1 avg /\ lo <= avg <= hi.
Proof.
  intros Hne Hall.
  destruct risks as [| r0 rs0]; [done |].
  unfold calculate_overall_risk_score.
  set (l := take 5 (sorted_desc (r0 :: rs0))).
  assert (Hl : Forall (fun r => lo <= r_score r <= hi) l).
  { apply Forall_take. by rewrite sorted_desc_perm. }
  assert (Hlne : l <> []).
  { subst l. pose proof (sorted_desc_length (r0 :: rs0)) as Hlen.
    destruct (sorted_desc (r0 :: rs0)); simpl in *; [lia | done]. }
  destruct (weighted_loop_bounds lo hi l Hl 0%nat 0 0) as (A & B & _ & D);
    [split; lra |].
  specialize (D Hlne).
  destruct (weighted_loop 0 l 0 0) as [ws wt]. simpl in *.
  destruct (Qlt_le_dec 0 wt) as [_ | Hle]; [| lra].
  exists (ws / wt). split; [done |]. split.
  - apply Qle_shift_div_l; [done | lra].
  - apply Qle_shift_div_r; [done | lra].
Qed.




(** For the record, the three scores in any other order give 74.5 too. *)
Example overall_score_unsorted :
  calculate_overall_risk_score [scored 50; scored 90; scored 70] == 74.5.
Proof. reflexivity. Qed.




(** ** The same scores on binary64 numbers *)

#[local] Set Warnings "-inexact-float".

(** The worked example of C1 in floating point: 74.5 as well. *)
Example binary64_overall_90_70_50 :
  Binary64.calculate_overall_risk_score [90; 70; 50]%float = 74.5%float.
Proof. vm_compute. reflexivity. Qed.

(** The counterexample of C9 in floating point: 74.96 scores 75.0. *)
Example binary64_overall_74_96 :
  Binary64.calculate_overall_risk_score [74.96]%float = 75%float
  /\ PrimFloat.ltb 74.96%float 75%float = true.
Proof. split; vm_compute; reflexivity. Qed.

(** In floating point the scorer itself produces such a score: a partially
    compliant item of critical severity is scored 90 * 0.7, just below 63,
    and a list with that single risk scores 63.0. *)
Example binary64_overall_partially_compliant_critical :
  let score :=
    Binary64.calculate_compliance_risk_score "critical" "partially_compliant" in
  PrimFloat.ltb score 63%float = true
  /\ Binary64.calculate_overall_risk_score [score] = 63%float.
Proof. split; vm_compute; reflexivity. Qed.

(** ** The risk level *)

(** Between the integer marks the level is the one of the lower mark. *)
Lemma determine_risk_level_half_open (score : Q) :
  (51 <= score < 76 -> determine_risk_level score = "high")
  /\ (26 <= score < 51 -> determine_risk_level score = "medium").
Proof.
  unfold determine_risk_level.
  destruct (Qle_bool 76 score) eqn:H76; destruct (Qle_bool 51 score) eqn:H51;
    destruct (Qle_bool 26 score) eqn:H26;
    repeat match goal with
           | H : Qle_bool _ _ = true |- _ => apply Qle_bool_iff in H
           | H : Qle_bool _ _ = false |- _ =>
               apply not_true_iff_false in H; rewrite Qle_bool_iff in H
           end;
    split; intros [? ?]; try reflexivity; exfalso; lra.
Qed.

(** C6.  [determine_risk_level] maps scores of 76 and more to critical, 51 to
    75 to high, 26 to 50 to medium and scores below 26 to low; 76 gives
    critical, 75 and 51 give high, 50 and 26 give medium, 25 gives low. *)
Theorem determine_risk_level_bands (score : Q) :
  (76 <= score -> determine_risk_level score = "critical")
  /\ (51 <= score <= 75 -> determine_risk_level score = "high")
  /\ (26 <= score <= 50 -> determine_risk_level score = "medium")
  /\ (score < 26 -> determine_risk_level score = "low")
  /\ determine_risk_level 76 = "critical"
  /\ determine_risk_level 75 = "high"
  /\ determine_risk_level 51 = "high"
  /\ determine_risk_level 50 = "medium"
  /\ determine_risk_level 26 = "medium"
  /\ determine_risk_level 25 = "low".
Proof.
  pose proof (determine_risk_level_half_open score) as [Hhigh Hmedium].
  split; [| split; [| split; [| split]]].
  - intros H. unfold determine_risk_level.
    apply Qle_bool_iff in H. by rewrite H.
  - intros [? ?]. apply Hhigh. split; lra.
  - intros [? ?]. apply Hmedium. split; lra.
  - intros H. unfold determine_risk_level.
    destruct (Qle_bool 76 score) eqn:H76;
      [apply Qle_bool_iff in H76; lra |].
    destruct (Qle_bool 51 score) eqn:H51;
      [apply Qle_bool_iff in H51; lra |].
    destruct (Qle_bool 26 score) eqn:H26;
      [apply Qle_bool_iff in H26; lra | reflexivity].
  - repeat split; reflexivity.
Qed.

Lemma determine_risk_level_bands_witness :
  51 <= 62.5 <= 75 /\ determine_risk_level 62.5 = "high".
Proof.
  assert (H : 51 <= 62.5 <= 75) by (split; lra).
  split; [exact H |].
  exact (proj1 (proj2 (determine_risk_level_bands 62.5)) H).
Defined.

(** ** The conditional edge *)

Lemma should_review_spec (state : State) :
  should_review state = review
  <-> st_requires_review state = true \/ 75 < st_overall_risk_score state.
Proof.
  unfold should_review.
  destruct (st_requires_review state);
    [| destruct (Qlt_le_dec 75 (st_overall_risk_score state))]; split;
    try done; auto.
  intros [? | ?]; [done | lra].
Qed.

(** C5.  After [risk_assessment] the graph goes to the review gate exactly
    when [requires_review] is set or the overall score is above 75, and to
    the report otherwise; a score of 80 reaches the gate with the flag
    unset. *)
Theorem risk_assessment_routing (state : State) :
  (next_node risk_assessment state = Some hitl
   <-> st_requires_review state = true \/ 75 < st_overall_risk_score state)
  /\ (next_node risk_assessment state = Some report_generation
      <-> ~ (st_requires_review state = true
             \/ 75 < st_overall_risk_score state))
  /\ (st_requires_review state = false ->
      st_overall_risk_score state == 80 ->
      next_node risk_assessment state = Some hitl).
Proof.
  pose proof (should_review_spec state) as Hs. simpl.
  destruct (should_review state) eqn:E; simpl.
  - assert (Hc : st_requires_review state = true
                 \/ 75 < st_overall_risk_score state) by (by apply Hs).
    repeat split; try done; intros Hn; try done; by destruct Hn.
  - assert (Hc : ~ (st_requires_review state = true
                    \/ 75 < st_overall_risk_score state)).
    { intros Hc. apply Hs in Hc. discriminate Hc. }
    repeat split; try done.
    intros _ H80. exfalso. apply Hc. right. rewrite H80. reflexivity.
Qed.

Lemma risk_assessment_routing_witness :
  st_requires_review (checkpoint [] [] [] 80 false None) = false
  /\ st_overall_risk_score (checkpoint [] [] [] 80 false None) == 80
  /\ next_node risk_assessment (checkpoint [] [] [] 80 false None) = Some hitl.
Proof.
  assert (Hf : st_requires_review (checkpoint [] [] [] 80 false None) = false)
    by reflexivity.
  assert (Hs : st_overall_risk_score (checkpoint [] [] [] 80 false None) == 80)
    by reflexivity.
  split; [exact Hf |]. split; [exact Hs |].
  exact (proj2 (proj2 (risk_assessment_routing _)) Hf Hs).
Defined.

(** ** Deadline compliance *)




(** ** Loops over the store *)

Lemma for_each_write {B : Type} (f : B -> Store -> Store) (l : list B)
  (s : Store) :
  for_each (fun x => write (f x)) l s
  = (foldl (fun s x => f x s) s l, Py.Ok tt).
Proof.
  revert s. induction l as [| x l IH]; intros s; simpl; [done |].
  unfold mbind, M_bind, bind, write. simpl. apply IH.
Qed.

Lemma for_each_app {B : Type} (body : B -> M unit) (l1 l2 : list B)
  (s : Store) :
  for_each body (l1 ++ l2) s
  = match for_each body l1 s with
    | (s', Py.Ok _) => for_each body l2 s'
    | (s', Py.Raise msg) => (s', Py.Raise msg)
    end.
Proof.
  revert s. induction l1 as [| x l1 IH]; intros s; simpl; [done |].
  unfold mbind, M_bind, bind.
  destruct (body x s) as [s1 [[] | msg]]; [apply IH | done].
Qed.

Section Invariant.

(** A relation between the store before and the store after, kept by every
    statement of a block: it is then kept by the block. *)
Variable R : Store -> Store -> Prop.
Hypothesis R_refl : forall s, R s s.
Hypothesis R_trans : forall s1 s2 s3, R s1 s2 -> R s2 s3 -> R s1 s3.

Lemma bind_invariant {A B : Type} (c : M A) (k : A -> M B) (s : Store) :
  R s (c s).1 -> (forall a s', R s' (k a s').1) -> R s (bind c k s).1.
Proof.
  intros Hc Hk. unfold bind.
  destruct (c s) as [s1 [a | msg]]; simpl in *; [| done].
  eapply R_trans; [exact Hc | apply Hk].
Qed.

Lemma for_each_invariant {B : Type} (body : B -> M unit) (l : list B) :
  (forall x s, x ∈ l -> R s (body x s).1) ->
  forall s, R s (for_each body l s).1.
Proof.
  induction l as [| x l IH]; intros Hbody s; simpl; [apply R_refl |].
  apply bind_invariant.
  - apply Hbody. apply list_elem_of_here.
  - intros _ s'. apply IH. intros y s'' Hy. apply Hbody.
    by apply list_elem_of_further.
Qed.

End Invariant.

(** ** What a patch can change *)

Lemma alter_risk_id (f : Risk -> Risk) (l : loc) (s : Store) :
  (forall x, risk_objs s !! l = Some x -> f x = x) -> alter_risk f l s = s.
Proof.
  intros H. destruct s as [rs its obs]. unfold alter_risk. simpl in *.
  f_equal. by apply alter_id.
Qed.

Lemma patched_refl (s : Store) : patched s s.
Proof.
  intros l. repeat split; apply option_Forall2_refl; by intros ?.
Qed.

Lemma patched_trans (s1 s2 s3 : Store) :
  patched s1 s2 -> patched s2 s3 -> patched s1 s3.
Proof.
  intros H12 H23 l.
  destruct (H12 l) as (A1 & B1 & C1), (H23 l) as (A2 & B2 & C2).
  repeat split.
  - destruct A1; inversion A2; subst; constructor.
    unfold same_risk_frame in *. intuition congruence.
  - destruct B1; inversion B2; subst; constructor.
    unfold same_item_frame in *. intuition congruence.
  - destruct C1; inversion C2; subst; constructor.
    unfold same_obligation_frame in *. intuition congruence.
Qed.

Lemma option_Forall2_alter {A : Type} (P : A -> A -> Prop) (f : A -> A)
  (m : gmap loc A) (l l' : loc) :
  (forall x, P x x) -> (forall x, P x (f x)) ->
  option_Forall2 P (m !! l') (alter f l m !! l').
Proof.
  intros Hrefl Hf. destruct (decide (l = l')) as [-> | Hne].
  - rewrite lookup_alter_eq. destruct (m !! l'); constructor. apply Hf.
  - rewrite lookup_alter_ne by done. destruct (m !! l'); constructor.
    apply Hrefl.
Qed.

Lemma hitl_frame_refl (state : State) (s : Store) : hitl_frame state s s.
Proof. split; [apply patched_refl | by repeat split]. Qed.

Lemma hitl_frame_trans (state : State) (s1 s2 s3 : Store) :
  hitl_frame state s1 s2 -> hitl_frame state s2 s3 -> hitl_frame state s1 s3.
Proof.
  intros [P12 (A1 & B1 & C1)] [P23 (A2 & B2 & C2)]. split.
  - by eapply patched_trans.
  - repeat split; intros l Hl.
    + by rewrite A2, A1.
    + by rewrite B2, B1.
    + by rewrite C2, C1.
Qed.

Lemma hitl_frame_alter_risk (state : State) (f : Risk -> Risk) (l : loc)
  (s : Store) :
  l ∈ st_risks state -> (forall x, same_risk_frame x (f x)) ->
  hitl_frame state s (alter_risk f l s).
Proof.
  intros Hl Hf. split.
  - intros l'. simpl. repeat split; try (apply option_Forall2_refl; by intros ?).
    apply option_Forall2_alter; [by intros ? | done].
  - repeat split; try done. simpl. intros l' Hl'.
    apply lookup_alter_ne. by intros ->.
Qed.



Lemma risk_mods_frame (state : State) (mods : list RiskMod) (s : Store) :
  hitl_frame state s (for_each (risk_mod_body (st_risks state)) mods s).1.
Proof.
  apply (for_each_invariant _ (hitl_frame_refl state) (hitl_frame_trans state)).
  intros mod_ s1 _.
  apply (for_each_invariant _ (hitl_frame_refl state) (hitl_frame_trans state)).
  intros l s2 Hl. simpl.
  apply hitl_frame_alter_risk; [done |].
  intros x. destruct (decide _); by repeat split.
Qed.




(** ** The review gate *)




(** The merge then doubles the list: both entries are the patched risk. *)
Example revised_review_doubles_risks :
  let state :=
    sample_state
      (Some (feedback "revised" (Some "Severity overstated")
               (Some (set_m_risks [lower_severity] no_modifications)))) in
  let out := hitl_node "2026-01-03T00:00:00" state sample_store in
  st_risks (merge state (default no_update out.2)) = [0%nat; 0%nat]
  /\ r_severity <$> risk_objs out.1 !! 0%nat = Some "low".
Proof. split; reflexivity. Qed.

(** C3, as amended.  Entered without feedback, the gate returns an update
    that sets [requires_review] to true and [current_step] to hitl_pending at
    progress 80 and leaves the store alone; the update has no [status] key,
    so the merged state keeps the status it had. *)
Theorem hitl_node_without_feedback (now : string) (state : State) (s : Store) :
  st_human_feedback state = None ->
  exists d : Update,
    hitl_node now state s = (s, Some d)
    /\ u_requires_review d = Some true
    /\ u_current_step d = Some "hitl_pending"
    /\ u_progress_percentage d = Some 80%Z
    /\ u_review_items d = Some (rs_items (prepare_review_summary state s))
    /\ u_status d = None
    /\ st_requires_review (merge state d) = true
    /\ st_status (merge state d) = st_status state.
Proof.
  intros Hfb. unfold hitl_node. rewrite Hfb.
  eexists. split; [reflexivity |]. by repeat split.
Qed.

Lemma hitl_node_without_feedback_witness :
  st_human_feedback (sample_state None) = None
  /\ exists d : Update,
       hitl_node "2026-01-03T00:00:00" (sample_state None) sample_store
       = (sample_store, Some d)
       /\ u_requires_review d = Some true
       /\ u_status d = None.
Proof.
  assert (H : st_human_feedback (sample_state None) = None) by reflexivity.
  split; [exact H |].
  destruct (hitl_node_without_feedback "2026-01-03T00:00:00"
              (sample_state None) sample_store H)
    as (d & Hd & Hr & _ & _ & _ & Hs & _).
  exists d. by repeat split.
Defined.

(** C3, as stated, fails: the update of a gate entered without feedback does
    not set [status] to review_required. *)
Lemma pending_review_does_not_set_status :
  ~ exists d : Update,
      (hitl_node "2026-01-03T00:00:00" (sample_state None) sample_store).2
      = Some d
      /\ u_requires_review d = Some true
      /\ u_status d = Some "review_required".
Proof.
  intros (d & Hd & _ & Hs). simpl in Hd. injection Hd as <-.
  discriminate Hs.
Qed.

(** ** Revised reviews *)

Lemma for_each_total {B : Type} (body : B -> M unit) (l : list B) :
  (forall x s, exists s', body x s = (s', Py.Ok tt)) ->
  forall s, exists s', for_each body l s = (s', Py.Ok tt).
Proof.
  intros Hbody. induction l as [| x l IH]; intros s; simpl; [by eexists |].
  unfold mbind, M_bind, bind.
  destruct (Hbody x s) as [s1 ->]. apply IH.
Qed.

Lemma risk_mod_body_total (risks : list loc) (mod_ : RiskMod) (s : Store) :
  exists s', risk_mod_body risks mod_ s = (s', Py.Ok tt).
Proof. unfold risk_mod_body. rewrite for_each_write. by eexists. Qed.

Lemma obligation_mod_body_total (obligations : list loc) (mod_ : ObligationMod)
  (s : Store) :
  exists s', obligation_mod_body obligations mod_ s = (s', Py.Ok tt).
Proof. unfold obligation_mod_body. rewrite for_each_write. by eexists. Qed.

(** The loop over the compliance patches raises as soon as it meets one
    without an index, and that is the only exception it can raise. *)
Lemma compliance_loop_raises (compliance_items : list loc)
  (mods : list ComplianceMod) (mod_ : ComplianceMod) :
  mod_ ∈ mods -> cm_index mod_ = None ->
  forall s, exists s',
    for_each (compliance_mod_body compliance_items) mods s
    = (s', Py.Raise
             "'<=' not supported between instances of 'int' and 'NoneType'").
Proof.
  intros Hin Hnone.
  induction mods as [| x mods IH]; intros s; [by apply elem_of_nil in Hin |].
  simpl. unfold mbind, M_bind, bind.
  destruct (cm_index x) as [idx |] eqn:Ex.
  - assert (Hx : exists s1, compliance_mod_body compliance_items x s
                            = (s1, Py.Ok tt)).
    { unfold compliance_mod_body. rewrite Ex.
      destruct (decide _); [| by eexists].
      destruct (compliance_items !! Z.to_nat idx); by eexists. }
    destruct Hx as [s1 ->].
    apply IH. apply elem_of_cons in Hin as [-> | Hin]; [congruence | done].
  - unfold compliance_mod_body. rewrite Ex. by eexists.
Qed.

Lemma bind_ok {A B : Type} (c : M A) (k : A -> M B) (s s1 : Store) (a : A) :
  c s = (s1, Py.Ok a) -> bind c k s = k a s1.
Proof. intros E. unfold bind. by rewrite E. Qed.

Lemma bind_raise {A B : Type} (c : M A) (k : A -> M B) (s s1 : Store)
  (msg : string) :
  c s = (s1, Py.Raise msg) -> bind c k s = (s1, Py.Raise msg).
Proof. intros E. unfold bind. by rewrite E. Qed.

(** A loop that cannot raise, followed by the assignment to [updated]. *)
Lemma block_ok {B : Type} (body : B -> M unit) (mods : list B) (u : Update)
  (s : Store) :
  (forall x s0, exists s', body x s0 = (s', Py.Ok tt)) ->
  exists s1, bind (for_each body mods) (fun _ => ret u) s = (s1, Py.Ok u).
Proof.
  intros Hbody. destruct (for_each_total body mods Hbody s) as [s1 E].
  exists s1. by rewrite (bind_ok _ _ _ _ _ E).
Qed.

Lemma risk_block_ok (state : State) (ms : Modifications) (u : Update)
  (s : Store) :
  exists s1 u1,
    match m_risks ms with
    | Some mods =>
        bind (for_each (risk_mod_body (st_risks state)) mods)
             (fun _ => ret (set_risks (st_risks state) u))
    | None => ret u
    end s = (s1, Py.Ok u1)
    /\ u_status u1 = u_status u /\ u_error_message u1 = u_error_message u.
Proof.
  destruct (m_risks ms) as [mods |]; [| by eexists _, _].
  destruct (block_ok _ mods (set_risks (st_risks state) u) s
              (risk_mod_body_total (st_risks state))) as [s1 E].
  by eexists _, _.
Qed.

Lemma obligation_block_ok (state : State) (ms : Modifications) (u : Update)
  (s : Store) :
  exists s1 u1,
    match m_obligations ms with
    | Some mods =>
        bind (for_each (obligation_mod_body (st_obligations state)) mods)
             (fun _ => ret (set_obligations (st_obligations state) u))
    | None => ret u
    end s = (s1, Py.Ok u1)
    /\ u_status u1 = u_status u /\ u_error_message u1 = u_error_message u.
Proof.
  destruct (m_obligations ms) as [mods |]; [| by eexists _, _].
  destruct (block_ok _ mods (set_obligations (st_obligations state) u) s
              (obligation_mod_body_total (st_obligations state))) as [s1 E].
  by eexists _, _.
Qed.

Lemma apply_user_modifications_raises (state : State) (ms : Modifications)
  (mods : list ComplianceMod) (mod_ : ComplianceMod) (s : Store) :
  m_compliance_items ms = Some mods -> mod_ ∈ mods -> cm_index mod_ = None ->
  exists s',
    apply_user_modifications state (Some ms) s
    = (s', Py.Raise
             "'<=' not supported between instances of 'int' and 'NoneType'").
Proof.
  intros Hitems Hin Hnone.
  unfold apply_user_modifications, mbind, M_bind, mret, M_ret.
  destruct (risk_block_ok state ms no_update s) as (s1 & u1 & E1 & _).
  rewrite (bind_ok _ _ _ _ _ E1). rewrite Hitems.
  destruct (compliance_loop_raises (st_compliance_items state) mods mod_
              Hin Hnone s1) as [s2 E2].
  exists s2. apply bind_raise. by apply bind_raise.
Qed.

(** C10.  A revised review whose modifications hold a compliance entry
    without an integer index makes the gate return the error state: the
    bounds comparison raises and the handler of [hitl_node] turns the
    exception into [status] error. *)
Theorem hitl_node_missing_index (now : string) (state : State) (s : Store)
  (fb : HumanFeedback) (ms : Modifications) (mods : list ComplianceMod)
  (mod_ : ComplianceMod) :
  st_human_feedback state = Some fb ->
  hf_action fb = Some "revised" ->
  hf_modifications fb = Some (Some ms) ->
  m_compliance_items ms = Some mods ->
  mod_ ∈ mods ->
  cm_index mod_ = None ->
  exists (s' : Store) (d : Update),
    hitl_node now state s = (s', Some d)
    /\ u_status d = Some "error"
    /\ u_error_message d
       = Some ("HITL review failed: "
               +:+ "'<=' not supported between instances of 'int' and 'NoneType'")
    /\ u_current_step d = Some "hitl".
Proof.
  intros Hfb Hact Hmods Hitems Hin Hnone.
  unfold hitl_node. rewrite Hfb, Hact, Hmods. simpl default.
  rewrite decide_False by done. rewrite decide_True by done.
  destruct (apply_user_modifications_raises state ms mods mod_ s
              Hitems Hin Hnone) as [s' ->].
  eexists _, _. split; [reflexivity |]. by repeat split.
Qed.

Lemma hitl_node_missing_index_witness :
  exists (s' : Store) (d : Update),
    hitl_node "2026-01-03T00:00:00"
      (sample_state
         (Some (feedback "revised" None
                  (Some (set_m_compliance_items [no_index] no_modifications)))))
      sample_store
    = (s', Some d)
    /\ u_status d = Some "error".
Proof.
  destruct (hitl_node_missing_index "2026-01-03T00:00:00"
              (sample_state
                 (Some (feedback "revised" None
                          (Some (set_m_compliance_items [no_index]
                                   no_modifications)))))
              sample_store _ _ [no_index] no_index
              eq_refl eq_refl eq_refl eq_refl (list_elem_of_here _ _) eq_refl)
    as (s' & d & Hd & Hs & _).
  by exists s', d.
Defined.

(** A risk patch whose id no risk of the list has writes nothing. *)
Lemma risk_mod_body_unmatched (risks : list loc) (mod_ : RiskMod) (s : Store) :
  (forall l risk, l ∈ risks -> risk_objs s !! l = Some risk ->
                  Some (r_id risk) <> rm_id mod_) ->
  risk_mod_body risks mod_ s = (s, Py.Ok tt).
Proof.
  intros Hun. unfold risk_mod_body. rewrite for_each_write. f_equal.
  induction risks as [| l risks IH]; simpl; [done |].
  rewrite alter_risk_id.
  - apply IH. intros l' risk Hl'. apply Hun. by apply list_elem_of_further.
  - intros x Hx. rewrite decide_False; [done |].
    eapply Hun; [apply list_elem_of_here | exact Hx].
Qed.

(** Patches never assign to [id]: an id that is absent stays absent. *)
Lemma unmatched_patched (risks : list loc) (mod_ : RiskMod) (s s1 : Store) :
  patched s s1 ->
  (forall l risk, l ∈ risks -> risk_objs s !! l = Some risk ->
                  Some (r_id risk) <> rm_id mod_) ->
  forall l risk, l ∈ risks -> risk_objs s1 !! l = Some risk ->
                 Some (r_id risk) <> rm_id mod_.
Proof.
  intros Hp Hun l risk Hl Hrisk.
  destruct (Hp l) as (Hr & _ & _). rewrite Hrisk in Hr.
  inversion Hr as [risk0 ? (Hid & _ & _) E0 |]; subst.
  rewrite <- Hid. eapply Hun; [exact Hl | done].
Qed.

Lemma risk_loop_skips_unmatched (state : State) (before after : list RiskMod)
  (mod_ : RiskMod) (s : Store) :
  (forall l risk, l ∈ st_risks state -> risk_objs s !! l = Some risk ->
                  Some (r_id risk) <> rm_id mod_) ->
  for_each (risk_mod_body (st_risks state)) (before ++ mod_ :: after) s
  = for_each (risk_mod_body (st_risks state)) (before ++ after) s.
Proof.
  intros Hun. rewrite !for_each_app.
  pose proof (risk_mods_frame state before s) as [Hp _].
  destruct (for_each (risk_mod_body (st_risks state)) before s)
    as [s1 [[] | msg]]; [| done].
  simpl in Hp. simpl for_each. unfold mbind, M_bind.
  rewrite (bind_ok _ _ _ s1 tt); [done |].
  apply risk_mod_body_unmatched. by eapply unmatched_patched.
Qed.

(** Without compliance patches the modifications are applied without an
    exception, and the dict they return has no [status] key. *)
Lemma apply_user_modifications_ok (state : State) (ms : Modifications)
  (s : Store) :
  m_compliance_items ms = None ->
  exists s' u,
    apply_user_modifications state (Some ms) s = (s', Py.Ok u)
    /\ u_status u = None /\ u_error_message u = None.
Proof.
  intros Hitems.
  unfold apply_user_modifications, mbind, M_bind, mret, M_ret.
  destruct (risk_block_ok state ms no_update s) as (s1 & u1 & E1 & S1 & M1).
  rewrite (bind_ok _ _ _ _ _ E1). rewrite Hitems.
  rewrite (bind_ok _ _ s1 s1 u1) by done.
  destruct (obligation_block_ok state ms u1 s1) as (s2 & u2 & E2 & S2 & M2).
  rewrite (bind_ok _ _ _ _ _ E2).
  eexists _, _. split; [reflexivity |].
  simpl in S1, M1. destruct (m_notes ms); simpl; split; congruence.
Qed.

Lemma bind_congr {A B : Type} (c1 c2 : M A) (k : A -> M B) (s : Store) :
  c1 s = c2 s -> bind c1 k s = bind c2 k s.
Proof. intros E. unfold bind. by rewrite E. Qed.

(** The branch of [hitl_node] taken by a revised review. *)
Lemma hitl_node_revised (now : string) (state : State) (s : Store)
  (comments : option string) (ms : Modifications) :
  hitl_node now
    (attach_feedback (feedback "revised" comments (Some ms)) state) s
  = match apply_user_modifications
            (attach_feedback (feedback "revised" comments (Some ms)) state)
            (Some ms) s with
    | (s', Py.Ok updated_state) =>
        (s', Some (set_requires_review false $
                   set_current_step "hitl_revised" $
                   set_progress_percentage 85 $
                   set_messages ["Review revised with user feedback: "
                                 +:+ Py.fmt comments] $
                   set_updated_at now updated_state))
    | (s', Py.Raise e) => (s', Some (hitl_failed now e))
    end.
Proof. reflexivity. Qed.

(** C8.  In a revised review, a risk patch whose id no risk of the current
    list has is ignored: it writes nothing and raises nothing, the gate
    returns what it returns without that entry, and with no compliance
    patches beside it the gate does not return the error state. *)
Theorem unmatched_risk_patch_ignored (now : string) (state : State) (s : Store)
  (comments : option string) (ms : Modifications)
  (before after : list RiskMod) (mod_ : RiskMod) :
  m_risks ms = Some (before ++ mod_ :: after) ->
  (forall l risk, l ∈ st_risks state -> risk_objs s !! l = Some risk ->
                  Some (r_id risk) <> rm_id mod_) ->
  risk_mod_body (st_risks state) mod_ s = (s, Py.Ok tt)
  /\ hitl_node now
       (attach_feedback (feedback "revised" comments (Some ms)) state) s
     = hitl_node now
         (attach_feedback
            (feedback "revised" comments
               (Some (set_m_risks (before ++ after) ms))) state) s
  /\ (m_compliance_items ms = None ->
      exists (s' : Store) (d : Update),
        hitl_node now
          (attach_feedback (feedback "revised" comments (Some ms)) state) s
        = (s', Some d)
        /\ u_status d = None).
Proof.
  intros Hrisks Hun. split; [by apply risk_mod_body_unmatched |]. split.
  - rewrite !hitl_node_revised. simpl st_risks.
    assert (E : apply_user_modifications
                  (attach_feedback (feedback "revised" comments (Some ms)) state)
                  (Some ms) s
                = apply_user_modifications
                    (attach_feedback
                       (feedback "revised" comments
                          (Some (set_m_risks (before ++ after) ms))) state)
                    (Some (set_m_risks (before ++ after) ms)) s).
    { unfold apply_user_modifications. simpl. rewrite Hrisks.
      unfold mbind, M_bind. apply bind_congr. apply bind_congr.
      by apply risk_loop_skips_unmatched. }
    by rewrite E.
  - intros Hitems. rewrite hitl_node_revised.
    destruct (apply_user_modifications_ok
                (attach_feedback (feedback "revised" comments (Some ms)) state)
                ms s Hitems) as (s' & u & -> & Hs & _).
    eexists _, _. split; [reflexivity |]. exact Hs.
Qed.

Lemma unmatched_risk_patch_ignored_witness :
  hitl_node "2026-01-03T00:00:00"
    (attach_feedback
       (feedback "revised" None
          (Some (set_m_risks [lower_severity; unknown_risk] no_modifications)))
       (sample_state None))
    sample_store
  = hitl_node "2026-01-03T00:00:00"
      (attach_feedback
         (feedback "revised" None
            (Some (set_m_risks [lower_severity] no_modifications)))
         (sample_state None))
      sample_store.
Proof.
  assert (Hun : forall l risk,
             l ∈ st_risks (sample_state None) ->
             risk_objs sample_store !! l = Some risk ->
             Some (r_id risk) <> rm_id unknown_risk).
  { intros l risk Hl. apply list_elem_of_singleton in Hl as ->.
    vm_compute. intros [= <-]. discriminate. }
  exact (proj1 (proj2 (unmatched_risk_patch_ignored "2026-01-03T00:00:00"
                         (sample_state None) sample_store None
                         (set_m_risks [lower_severity; unknown_risk]
                            no_modifications)
                         [lower_severity] [] unknown_risk eq_refl Hun))).
Defined.

(** ** Runs of the graph *)

Lemma next_node_closer (n n' : node) (state : State) :
  next_node n state = Some n' -> (distance n' < distance n)%nat.
Proof.
  destruct n; intros H; inversion H; subst; clear H;
    try (destruct (should_review state)); simpl; lia.
Qed.

Section GraphProperties.

Variables ingestion_node classification_node extraction_node : stage.
Variables compliance_node risk_assessment_node : stage.
Variable clock : node -> string.
Variable generate_executive_summary : State -> Store -> string.
Variable extract_top_recommendations : State -> Store -> list string.

Local Abbreviation run_graph :=
  (run ingestion_node classification_node extraction_node compliance_node
       risk_assessment_node clock generate_executive_summary
       extract_top_recommendations).

(** Every run reaches [END], and its last call is the report: with the
    metadata present the report overwrites [status] with completed. *)
Lemma run_reaches_report (fuel : nat) :
  forall (n : node) (state : State) (s : Store),
    (distance n <= fuel)%nat ->
    exists called final s',
      run_graph fuel n state s = Some (called, final, s')
      /\ fst <$> last called = Some report_generation
      /\ (is_Some (st_document_metadata final) ->
          st_status final = "completed").
Proof.
  induction fuel as [| fuel IH]; intros n state s Hd.
  - destruct n; simpl in Hd; lia.
  - simpl.
    destruct (node_fn _ _ _ _ _ _ _ _ n state s) as [s1 d] eqn:En.
    destruct (next_node n (merge state d)) as [n' |] eqn:Enext.
    + pose proof (next_node_closer _ _ _ Enext) as Hlt.
      destruct (IH n' (merge state d) s1) as (called & final & s' & -> & Hl & Hs);
        [lia |].
      eexists _, _, _. split; [reflexivity |]. split; [| done].
      destruct called; [done | exact Hl].
    + destruct n; try discriminate Enext.
      simpl in En. unfold report_generation_node in En.
      eexists _, _, _. split; [reflexivity |]. split; [done |].
      destruct (st_document_metadata state) eqn:Em;
        injection En as <- <-; simpl; rewrite Em; simpl; [done |].
      intros [? ?]. discriminate.
Qed.

(** C2, as amended.  An update with [status] error does not stop a run: the
    graph follows its edges whatever the updates hold, so every run ends with
    the call of report_generation, whose update sets [status] to completed
    when the document metadata is present.  Re-entering the review gate with
    feedback whose action is rejected makes [hitl_node] return [status] error
    with the rejection comment in [error_message]; report_generation is the
    next node called. *)
Theorem run_does_not_halt_on_error (n : node) (state : State) (s : Store) :
  (exists called final s',
     run_graph 7 n state s = Some (called, final, s')
     /\ fst <$> last called = Some report_generation
     /\ (is_Some (st_document_metadata final) ->
         st_status final = "completed"))
  /\ (forall fb : HumanFeedback,
        st_human_feedback state = Some fb ->
        hf_action fb = Some "rejected" ->
        exists d1 d2 : Update,
          run_graph 7 hitl state s
          = Some ([(hitl, d1); (report_generation, d2)],
                  merge (merge state d1) d2, s)
          /\ u_status d1 = Some "error"
          /\ u_error_message d1
             = Some ("User rejected findings: " +:+ Py.fmt (hf_comments fb))
          /\ u_current_step d1 = Some "hitl_rejected"
          /\ (is_Some (st_document_metadata state) ->
              u_status d2 = Some "completed")).
Proof.
  split.
  - apply run_reaches_report. destruct n; simpl; lia.
  - intros fb Hfb Hact. simpl. unfold hitl_node. rewrite Hfb, Hact. simpl.
    destruct (report_generation_node _ _ _ _ _) as [s2 d2] eqn:Er.
    unfold report_generation_node in Er. simpl in Er.
    destruct (st_document_metadata state) eqn:Em;
      injection Er as <- <-;
      (eexists _, _; split; [reflexivity |]; repeat split; try done);
      intros [? ?]; discriminate.
Qed.

End GraphProperties.

Lemma run_does_not_halt_on_error_witness :
  exists d1 d2 : Update,
    run (fun _ s => (s, no_update)) (fun _ s => (s, no_update))
        (fun _ s => (s, no_update)) (fun _ s => (s, no_update))
        (fun _ s => (s, no_update)) (fun _ => "2026-01-03T00:00:00")
        (fun _ _ => "EXECUTIVE SUMMARY") (fun _ _ => [])
        7 hitl
        (sample_state (Some (feedback "rejected" (Some "Findings are wrong")
                               None)))
        sample_store
    = Some ([(hitl, d1); (report_generation, d2)],
            merge (merge (sample_state
                            (Some (feedback "rejected"
                                     (Some "Findings are wrong") None))) d1) d2,
            sample_store)
    /\ u_status d1 = Some "error"
    /\ u_error_message d1 = Some "User rejected findings: Findings are wrong"
    /\ u_status d2 = Some "completed".
Proof.
  destruct (proj2 (run_does_not_halt_on_error
                     (fun _ s => (s, no_update)) (fun _ s => (s, no_update))
                     (fun _ s => (s, no_update)) (fun _ s => (s, no_update))
                     (fun _ s => (s, no_update))
                     (fun _ => "2026-01-03T00:00:00")
                     (fun _ _ => "EXECUTIVE SUMMARY") (fun _ _ => [])
                     hitl
                     (sample_state
                        (Some (feedback "rejected" (Some "Findings are wrong")
                                 None)))
                     sample_store)
              _ eq_refl eq_refl)
    as (d1 & d2 & Hrun & Hs & Hm & _ & Hc).
  exists d1, d2. split; [exact Hrun |]. split; [exact Hs |].
  split; [exact Hm |]. apply Hc. by eexists.
Defined.

(** C2, as stated, fails: re-entered with a rejection, the gate returns
    [status] error and the report is generated all the same, whatever the
    other stages are. *)
Lemma rejected_review_still_reports :
  ~ (forall (ingestion_node classification_node extraction_node
             compliance_node risk_assessment_node : stage)
            (clock : node -> string)
            (generate_executive_summary : State -> Store -> string)
            (extract_top_recommendations : State -> Store -> list string)
            (called : list (node * Update)) (final : State) (s' : Store),
       run ingestion_node classification_node extraction_node compliance_node
           risk_assessment_node clock generate_executive_summary
           extract_top_recommendations 7 hitl
           (sample_state (Some (feedback "rejected" (Some "Findings are wrong")
                                  None)))
           sample_store
       = Some (called, final, s') ->
       error_is_last called = true).
Proof.
  intros H.
  destruct (run (fun _ s => (s, no_update)) (fun _ s => (s, no_update))
                (fun _ s => (s, no_update)) (fun _ s => (s, no_update))
                (fun _ s => (s, no_update)) (fun _ => "2026-01-03T00:00:00")
                (fun _ _ => "EXECUTIVE SUMMARY") (fun _ _ => [])
                7 hitl
                (sample_state
                   (Some (feedback "rejected" (Some "Findings are wrong")
                            None)))
                sample_store)
    as [[[called final] s'] |] eqn:E.
  - specialize (H _ _ _ _ _ _ _ _ _ _ _ E).
    vm_compute in E. injection E as <- _ _.
    vm_compute in H. discriminate H.
  - vm_compute in E. discriminate E.
Qed.

(** * Further properties *)

(** ** The scorers *)

(** X1.  Whatever the severity and the status, a compliance score lies
    between 9 and 90; for the two statuses the compliance pass scores it is
    at least 21. *)
Theorem calculate_compliance_risk_score_range (severity status : string) :
  9 <= calculate_compliance_risk_score severity status <= 90
  /\ (status = "non_compliant" \/ status = "partially_compliant" ->
      21 <= calculate_compliance_risk_score severity status).
Proof.
  unfold calculate_compliance_risk_score.
  repeat destruct (decide _); subst;
    (split; [split; lra | intros [? | ?]; try done; lra]).
Qed.

Lemma calculate_compliance_risk_score_range_witness :
  21 <= calculate_compliance_risk_score "low" "partially_compliant".
Proof.
  apply (proj2 (calculate_compliance_risk_score_range
                  "low" "partially_compliant")).
  right. reflexivity.
Defined.

(** X2.  The deadline score never grows with the days left, and lies between
    40 and 100. *)
Theorem calculate_deadline_risk_score_antitone (d1 d2 : Z) :
  (d1 <= d2)%Z ->
  calculate_deadline_risk_score d2 <= calculate_deadline_risk_score d1
  /\ 40 <= calculate_deadline_risk_score d2
  /\ calculate_deadline_risk_score d1 <= 100.
Proof.
  intros Hle. unfold calculate_deadline_risk_score.
  repeat destruct (decide _); try lia; repeat split; lra.
Qed.

Lemma calculate_deadline_risk_score_antitone_witness :
  calculate_deadline_risk_score 8 <= calculate_deadline_risk_score 7.
Proof.
  apply (calculate_deadline_risk_score_antitone 7 8). lia.
Defined.

(** X3.  [map_urgency_to_severity] always returns one of the four levels, is
    idempotent, and leaves every urgency [calculate_urgency] can return as it
    is. *)
Theorem map_urgency_to_severity_levels (urgency : string) (days_until : Z) :
  map_urgency_to_severity urgency ∈ ["critical"; "high"; "medium"; "low"]
  /\ map_urgency_to_severity (map_urgency_to_severity urgency)
     = map_urgency_to_severity urgency
  /\ map_urgency_to_severity (calculate_urgency days_until)
     = calculate_urgency days_until.
Proof.
  split; [| split].
  - unfold map_urgency_to_severity.
    repeat destruct (decide _); set_solver.
  - unfold map_urgency_to_severity.
    repeat (destruct (decide _); subst; try done).
  - unfold calculate_urgency. repeat destruct (decide _); reflexivity.
Qed.

(** ** The three passes of the risk assessment *)

Lemma appended_cons {A B : Type} (keep : A -> bool) (make : nat -> A -> B)
  (idx : nat) (x : A) (xs : list A) :
  appended keep make idx (x :: xs)
  = (if keep x then [make idx x] else []) ++ appended keep make (S idx) xs.
Proof.
  unfold appended. simpl. destruct (keep x) eqn:E.
  - rewrite filter_cons_True by (simpl; rewrite E; exact I). done.
  - rewrite filter_cons_False by (simpl; rewrite E; exact id). done.
Qed.

Lemma assess_compliance_loop_appended (items : list ComplianceItem) :
  forall (idx : nat) (risks : list Risk),
    assess_compliance_loop idx items risks
    = risks ++ appended scored_status compliance_risk idx items.
Proof.
  induction items as [| item rest IH]; intros idx risks; simpl.
  - by rewrite app_nil_r.
  - rewrite IH, appended_cons. unfold scored_status at 2.
    destruct (one_of _ _); by rewrite <- ?app_assoc.
Qed.

Lemma assess_deadline_loop_appended (dates : list RenewalDate) :
  forall (idx : nat) (risks : list Risk),
    assess_deadline_loop idx dates risks
    = risks ++ appended due_within_30 deadline_risk idx dates.
Proof.
  induction dates as [| renewal rest IH]; intros idx risks; simpl.
  - by rewrite app_nil_r.
  - rewrite IH, appended_cons. unfold due_within_30 at 2.
    destruct (decide _) as [H | H].
    + rewrite bool_decide_eq_true_2 by done. by rewrite <- app_assoc.
    + rewrite bool_decide_eq_false_2 by done. done.
Qed.

Lemma assess_obligation_loop_appended (obligations : list Obligation) :
  forall (idx : nat) (risks : list Risk),
    assess_obligation_loop idx obligations risks
    = risks ++ appended scored_obligation obligation_risk idx obligations.
Proof.
  induction obligations as [| obligation rest IH]; intros idx risks; simpl.
  - by rewrite app_nil_r.
  - rewrite IH, appended_cons. unfold scored_obligation at 2.
    destruct (one_of _ _); by rewrite <- ?app_assoc.
Qed.

Lemma appended_length {A B : Type} (keep : A -> bool) (make : nat -> A -> B)
  (xs : list A) :
  forall idx : nat,
    length (appended keep make idx xs) = length (List.filter keep xs).
Proof.
  induction xs as [| x xs IH]; intros idx; [done |].
  rewrite appended_cons, length_app, IH. simpl.
  by destruct (keep x).
Qed.

Lemma appended_elem_of {A B : Type} (keep : A -> bool) (make : nat -> A -> B)
  (xs : list A) (y : B) :
  forall idx : nat,
    y ∈ appended keep make idx xs ->
    exists (i : nat) (x : A),
      xs !! i = Some x /\ keep x = true /\ y = make (idx + i)%nat x.
Proof.
  induction xs as [| x xs IH]; intros idx Hy.
  - by apply elem_of_nil in Hy.
  - rewrite appended_cons in Hy. apply elem_of_app in Hy as [Hy | Hy].
    + destruct (keep x) eqn:E; [| by apply elem_of_nil in Hy].
      apply list_elem_of_singleton in Hy as ->.
      exists 0%nat, x. rewrite Nat.add_0_r. done.
    + destruct (IH _ Hy) as (i & x' & Hi & Hk & ->).
      exists (S i), x'. repeat split; [done | done |]. f_equal. lia.
Qed.

Lemma enumerate_from_fst {A : Type} (xs : list A) :
  forall idx : nat, (enumerate_from idx xs).*1 = seq idx (length xs).
Proof.
  induction xs as [| x xs IH]; intros idx; simpl; [done |]. by rewrite IH.
Qed.

(** The ids of one pass, built from a prefix and the index, are pairwise
    distinct. *)
Lemma appended_ids_NoDup {A : Type} (keep : A -> bool) (make : nat -> A -> Risk)
  (prefix : string) (idx : nat) (xs : list A) :
  (forall i x, r_id (make i x) = prefix +:+ pretty i) ->
  NoDup (r_id <$> appended keep make idx xs).
Proof.
  intros Hid.
  assert (E : r_id <$> appended keep make idx xs
              = (fun i : nat => prefix +:+ pretty i)
                  <$> (filter (fun p : nat * A => keep p.2)
                         (enumerate_from idx xs)).*1).
  { unfold appended. rewrite <- !list_fmap_compose.
    apply list_fmap_ext. intros ? [i x] ?. simpl. apply Hid. }
  rewrite E.
  apply NoDup_fmap_2.
  - intros i j Hij. apply String.app_inj in Hij. by apply (inj pretty) in Hij.
  - eapply sublist_NoDup; [| apply fmap_sublist, sublist_filter].
    rewrite enumerate_from_fst. apply NoDup_seq.
Qed.






Lemma elem_of_appended_id {A : Type} (keep : A -> bool)
  (make : nat -> A -> Risk) (prefix : string) (xs : list A) (id : string) :
  (forall i x, r_id (make i x) = prefix +:+ pretty i) ->
  id ∈ r_id <$> appended keep make 0 xs ->
  exists i : nat, id = prefix +:+ pretty i.
Proof.
  intros Hid Hin. apply list_elem_of_fmap in Hin as (r & -> & Hr).
  apply appended_elem_of in Hr as (i & x & _ & _ & ->). eauto.
Qed.

(** X5.  The risks of one assessment have pairwise distinct ids. *)
Theorem risk_ids_distinct (compliance_items : list ComplianceItem)
  (renewal_dates : list RenewalDate) (obligations : list Obligation) :
  NoDup (r_id <$> (assess_compliance_risks compliance_items
                   ++ assess_deadline_risks renewal_dates
                   ++ assess_obligation_risks obligations)).
Proof.
  unfold assess_compliance_risks, assess_deadline_risks,
    assess_obligation_risks.
  rewrite assess_compliance_loop_appended, assess_deadline_loop_appended,
    assess_obligation_loop_appended. simpl.
  rewrite !fmap_app. apply NoDup_app. split; [| split].
  - by apply (appended_ids_NoDup _ _ "compliance_risk_").
  - intros id Hc Hrest.
    apply (elem_of_appended_id _ _ "compliance_risk_") in Hc as [i ->];
      [| done].
    apply elem_of_app in Hrest as [Hd | Ho].
    + apply (elem_of_appended_id _ _ "deadline_risk_") in Hd as [j Hj];
        [| done].
      simpl in Hj. discriminate Hj.
    + apply (elem_of_appended_id _ _ "obligation_risk_") in Ho as [j Hj];
        [| done].
      simpl in Hj. discriminate Hj.
  - apply NoDup_app. split; [| split].
    + by apply (appended_ids_NoDup _ _ "deadline_risk_").
    + intros id Hd Ho.
      apply (elem_of_appended_id _ _ "deadline_risk_") in Hd as [i ->];
        [| done].
      apply (elem_of_appended_id _ _ "obligation_risk_") in Ho as [j Hj];
        [| done].
      simpl in Hj. discriminate Hj.
    + by apply (appended_ids_NoDup _ _ "obligation_risk_").
Qed.

(** Every risk the three passes produce is scored between 21 and 100. *)
Lemma assessed_scores_bounded (compliance_items : list ComplianceItem)
  (renewal_dates : list RenewalDate) (obligations : list Obligation) :
  Forall (fun r => 21 <= r_score r <= 100)
    (assess_compliance_risks compliance_items
     ++ assess_deadline_risks renewal_dates
     ++ assess_obligation_risks obligations).
Proof.
  unfold assess_compliance_risks, assess_deadline_risks,
    assess_obligation_risks.
  rewrite assess_compliance_loop_appended, assess_deadline_loop_appended,
    assess_obligation_loop_appended. simpl.
  rewrite !Forall_app. repeat split; apply Forall_forall; intros r Hr;
    apply appended_elem_of in Hr as (i & x & _ & Hk & ->); simpl.
  - unfold scored_status, one_of in Hk. apply bool_decide_eq_true in Hk.
    unfold calculate_compliance_risk_score.
    apply elem_of_cons in Hk as [Hk | Hk];
      [| apply list_elem_of_singleton in Hk]; rewrite Hk;
      repeat destruct (decide _); try done; split; lra.
  - unfold due_within_30 in Hk. apply bool_decide_eq_true in Hk.
    unfold calculate_deadline_risk_score.
    repeat destruct (decide _); try lia; split; lra.
  - destruct (decide _); split; lra.
Qed.

(** ** New dicts *)

Lemma deref_cons {A : Type} (objs : gmap loc A) (l : loc) (ls : list loc) :
  deref objs (l :: ls)
  = match objs !! l with
    | Some x => x :: deref objs ls
    | None => deref objs ls
    end.
Proof. reflexivity. Qed.

Lemma deref_app {A : Type} (objs : gmap loc A) (ls1 ls2 : list loc) :
  deref objs (ls1 ++ ls2) = deref objs ls1 ++ deref objs ls2.
Proof.
  induction ls1 as [| l ls1 IH]; [done |].
  simpl app. rewrite !deref_cons, IH. by destruct (objs !! l).
Qed.

Lemma risks_added_nil (s : Store) : risks_added s s [].
Proof.
  repeat split; try done; try apply NoDup_nil_2;
    intros l Hl; by apply elem_of_nil in Hl.
Qed.

Lemma risks_added_app (s s1 s2 : Store) (n1 n2 : list loc) :
  risks_added s s1 n1 -> risks_added s1 s2 n2 -> risks_added s s2 (n1 ++ n2).
Proof.
  intros (D1 & F1 & S1 & K1 & I1 & O1) (D2 & F2 & S2 & K2 & I2 & O2).
  assert (Hdisj : forall l, l ∈ n1 -> l ∉ n2).
  { intros l H1 H2. specialize (S1 l H1). rewrite (F2 l H2) in S1.
    by destruct S1. }
  repeat split.
  - apply NoDup_app. by repeat split.
  - intros l Hl. apply elem_of_app in Hl as [Hl | Hl]; [by apply F1 |].
    rewrite <- K1; [by apply F2 |]. intros H1. by apply (Hdisj l).
  - intros l Hl. apply elem_of_app in Hl as [Hl | Hl]; [| by apply S2].
    rewrite K2; [by apply S1 |]. by apply Hdisj.
  - intros l Hl. apply not_elem_of_app in Hl as [H1 H2].
    by rewrite K2, K1.
  - congruence.
  - congruence.
Qed.

Lemma new_risk_added (risk : Risk) (s : Store) :
  exists s' l,
    new_risk risk s = (s', Py.Ok l)
    /\ risks_added s s' [l] /\ risk_objs s' !! l = Some risk.
Proof.
  unfold new_risk. eexists _, _. split; [reflexivity |].
  assert (Hfresh : risk_objs s !! fresh (dom (risk_objs s)) = None)
    by (apply not_elem_of_dom, is_fresh).
  split; [| simpl; apply lookup_insert_eq].
  repeat split; simpl.
  - apply NoDup_singleton.
  - intros l Hl. by apply list_elem_of_singleton in Hl as ->.
  - intros l Hl. apply list_elem_of_singleton in Hl as ->.
    rewrite lookup_insert_eq. by eexists.
  - intros l Hl. apply lookup_insert_ne. intros <-. apply Hl.
    apply list_elem_of_here.
Qed.

Lemma new_all_risks_added (risks : list Risk) :
  forall s : Store,
    exists s' new,
      new_all new_risk risks s = (s', Py.Ok new)
      /\ risks_added s s' new /\ deref (risk_objs s') new = risks.
Proof.
  induction risks as [| risk risks IH]; intros s.
  - exists s, []. split; [done |]. split; [apply risks_added_nil | done].
  - simpl. unfold mbind, M_bind, mret, M_ret.
    destruct (new_risk_added risk s) as (s1 & l & E1 & A1 & L1).
    rewrite (bind_ok _ _ _ _ _ E1).
    destruct (IH s1) as (s2 & new & E2 & A2 & D2).
    rewrite (bind_ok _ _ _ _ _ E2).
    exists s2, (l :: new). split; [done |].
    pose proof (risks_added_app _ _ _ _ _ A1 A2) as A. split; [exact A |].
    rewrite deref_cons.
    destruct A2 as (_ & F2 & _ & K2 & _).
    rewrite K2, L1; [by rewrite D2 |].
    intros Hl. specialize (F2 l Hl). congruence.
Qed.

Lemma items_added_nil (s : Store) : items_added s s [].
Proof.
  repeat split; try done; try apply NoDup_nil_2;
    intros l Hl; by apply elem_of_nil in Hl.
Qed.

Lemma items_added_app (s s1 s2 : Store) (n1 n2 : list loc) :
  items_added s s1 n1 -> items_added s1 s2 n2 -> items_added s s2 (n1 ++ n2).
Proof.
  intros (D1 & F1 & S1 & K1 & I1 & O1) (D2 & F2 & S2 & K2 & I2 & O2).
  assert (Hdisj : forall l, l ∈ n1 -> l ∉ n2).
  { intros l H1 H2. specialize (S1 l H1). rewrite (F2 l H2) in S1.
    by destruct S1. }
  repeat split.
  - apply NoDup_app. by repeat split.
  - intros l Hl. apply elem_of_app in Hl as [Hl | Hl]; [by apply F1 |].
    rewrite <- K1; [by apply F2 |]. intros H1. by apply (Hdisj l).
  - intros l Hl. apply elem_of_app in Hl as [Hl | Hl]; [| by apply S2].
    rewrite K2; [by apply S1 |]. by apply Hdisj.
  - intros l Hl. apply not_elem_of_app in Hl as [H1 H2].
    by rewrite K2, K1.
  - congruence.
  - congruence.
Qed.

Lemma new_item_added (item : ComplianceItem) (s : Store) :
  exists s' l,
    new_item item s = (s', Py.Ok l)
    /\ items_added s s' [l] /\ item_objs s' !! l = Some item.
Proof.
  unfold new_item. eexists _, _. split; [reflexivity |].
  assert (Hfresh : item_objs s !! fresh (dom (item_objs s)) = None)
    by (apply not_elem_of_dom, is_fresh).
  split; [| simpl; apply lookup_insert_eq].
  repeat split; simpl.
  - apply NoDup_singleton.
  - intros l Hl. by apply list_elem_of_singleton in Hl as ->.
  - intros l Hl. apply list_elem_of_singleton in Hl as ->.
    rewrite lookup_insert_eq. by eexists.
  - intros l Hl. apply lookup_insert_ne. intros <-. apply Hl.
    apply list_elem_of_here.
Qed.

(** Reading through addresses that were there before gives what it gave. *)
Lemma deref_items_added (s s' : Store) (new ls : list loc) :
  items_added s s' new ->
  (forall l, l ∈ ls -> l ∉ new) ->
  deref (item_objs s') ls = deref (item_objs s) ls.
Proof.
  intros (_ & _ & _ & K & _) Hls.
  induction ls as [| l ls IH]; [done |].
  rewrite !deref_cons.
  rewrite K by (apply Hls, list_elem_of_here).
  rewrite IH; [done |]. intros l' Hl'. by apply Hls, list_elem_of_further.
Qed.

Lemma new_all_items_added (items : list ComplianceItem) :
  forall s : Store,
    exists s' new,
      new_all new_item items s = (s', Py.Ok new)
      /\ items_added s s' new /\ deref (item_objs s') new = items.
Proof.
  induction items as [| item items IH]; intros s.
  - exists s, []. split; [done |]. split; [apply items_added_nil | done].
  - simpl. unfold mbind, M_bind, mret, M_ret.
    destruct (new_item_added item s) as (s1 & l & E1 & A1 & L1).
    rewrite (bind_ok _ _ _ _ _ E1).
    destruct (IH s1) as (s2 & new & E2 & A2 & D2).
    rewrite (bind_ok _ _ _ _ _ E2).
    exists s2, (l :: new). split; [done |].
    pose proof (items_added_app _ _ _ _ _ A1 A2) as A. split; [exact A |].
    rewrite deref_cons.
    destruct A2 as (_ & F2 & _ & K2 & _).
    rewrite K2, L1; [by rewrite D2 |].
    intros Hl. specialize (F2 l Hl). congruence.
Qed.

(** ** The risk assessment node *)

(** What the node returns, key by key. *)
Lemma risk_assessment_node_returns (upper : string -> string) (now : string)
  (state : State) (s : Store) :
  exists (s' : Store) (new : list loc) (d : Update),
    risk_assessment_node upper now state s = (s', d)
    /\ risks_added s s' new
    /\ deref (risk_objs s') new = assessed_risks state s
    /\ u_risks d = Some new
    /\ u_overall_risk_score d
       = Some (calculate_overall_risk_score (assessed_risks state s))
    /\ u_risk_level d
       = Some (determine_risk_level
                 (calculate_overall_risk_score (assessed_risks state s)))
    /\ u_requires_review d
       = Some ((if Qlt_le_dec 75
                     (calculate_overall_risk_score (assessed_risks state s))
                then true else false)
               || existsb (fun risk => bool_decide (r_severity risk = "critical"))
                          (assessed_risks state s))
    /\ u_status d = None
    /\ u_compliance_items d = None /\ u_obligations d = None.
Proof.
  unfold risk_assessment_node. fold (assessed_risks state s).
  destruct (new_all_risks_added (assessed_risks state s) s)
    as (s' & new & -> & Hadd & Hderef).
  exists s', new. eexists. split; [reflexivity |].
  split; [exact Hadd |]. split; [exact Hderef |]. by repeat split.
Qed.

Lemma overall_score_range (risks : list Risk) :
  Forall (fun r => 21 <= r_score r <= 100) risks ->
  0 <= calculate_overall_risk_score risks <= 100
  /\ (risks <> [] -> 21 <= calculate_overall_risk_score risks).
Proof.
  intros Hall. destruct (decide (risks = [])) as [-> | Hne].
  - split; [simpl; split; lra | done].
  - destruct (overall_score_between 21 100 risks Hne Hall)
      as (avg & -> & Hlo & Hhi).
    pose proof (round1_ge_tenths avg 210) as Ha.
    pose proof (round1_le_tenths avg 1000) as Hb.
    rewrite !div10 in Ha, Hb.
    change (inject_Z 210) with 210 in Ha.
    change (inject_Z 1000) with 1000 in Hb.
    assert (H0 : 210 * 0.1 <= avg) by lra.
    assert (H1 : avg <= 1000 * 0.1) by lra.
    specialize (Ha H0). specialize (Hb H1). split; [split; lra |].
    intros _. lra.
Qed.

(** X6.  The risk assessment never returns the error state; the overall
    score it returns lies in [0, 100], is at least 21 as soon as one risk is
    found, and the level it returns is the level of that score. *)
Theorem risk_assessment_node_score (upper : string -> string) (now : string)
  (state : State) (s : Store) :
  exists score : Q,
    u_overall_risk_score (risk_assessment_node upper now state s).2 = Some score
    /\ 0 <= score <= 100
    /\ (u_risks (risk_assessment_node upper now state s).2 <> Some [] ->
        21 <= score)
    /\ u_risk_level (risk_assessment_node upper now state s).2
       = Some (determine_risk_level score)
    /\ u_status (risk_assessment_node upper now state s).2 = None.
Proof.
  destruct (risk_assessment_node_returns upper now state s)
    as (s' & new & d & -> & Hadd & Hderef & Hr & Hs & Hl & _ & Hst & _).
  simpl. eexists. split; [exact Hs |].
  pose proof (assessed_scores_bounded
                (deref (item_objs s) (st_compliance_items state))
                (st_renewal_dates state)
                (deref (obligation_objs s) (st_obligations state))) as Hb.
  fold (assessed_risks state s) in Hb.
  destruct (overall_score_range _ Hb) as [Hrange Hlow].
  split; [exact Hrange |]. split; [| by split].
  intros Hnew. apply Hlow. intros Hnil. apply Hnew.
  rewrite Hr. f_equal. rewrite Hnil in Hderef.
  destruct Hadd as (_ & _ & Hsome & _).
  destruct new as [| l new]; [done |].
  rewrite deref_cons in Hderef.
  destruct (Hsome l (list_elem_of_here _ _)) as [x Hx]. by rewrite Hx in Hderef.
Qed.

Lemma risk_assessment_node_score_witness :
  exists score : Q,
    u_overall_risk_score
      (risk_assessment_node id "2026-01-03T00:00:00" (sample_state None)
         sample_store).2
    = Some score
    /\ 21 <= score.
Proof.
  destruct (risk_assessment_node_score id "2026-01-03T00:00:00"
              (sample_state None) sample_store)
    as (score & Hs & _ & Hlow & _).
  exists score. split; [exact Hs |].
  apply Hlow. intros H. vm_compute in H. discriminate H.
Defined.

(** X7.  After the risk assessment the graph goes to the review gate exactly
    when the returned score is above 75 or one of the returned risks is of
    severity critical; a returned level of critical always goes there. *)
Theorem risk_assessment_node_routing (upper : string -> string) (now : string)
  (state : State) (s : Store) :
  let out := risk_assessment_node upper now state s in
  let state' := merge state out.2 in
  (next_node risk_assessment state' = Some hitl
   <-> 75 < st_overall_risk_score state'
       \/ exists (l : loc) (risk : Risk),
            l ∈ default [] (u_risks out.2)
            /\ risk_objs out.1 !! l = Some risk
            /\ r_severity risk = "critical")
  /\ (st_risk_level state' = "critical" ->
      next_node risk_assessment state' = Some hitl).
Proof.
  intros out state'. subst out state'.
  destruct (risk_assessment_node_returns upper now state s)
    as (s' & new & d & -> & Hadd & Hderef & Hr & Hs & Hl & Hq & _).
  cbn [fst snd].
  assert (Hnext : next_node risk_assessment (merge state d) = Some hitl
                  <-> should_review (merge state d) = review).
  { simpl. destruct (should_review (merge state d)); simpl; split; congruence. }
  assert (Hcrit : existsb (fun risk => bool_decide (r_severity risk = "critical"))
                          (assessed_risks state s) = true
                  <-> exists l risk, l ∈ new /\ risk_objs s' !! l = Some risk
                                     /\ r_severity risk = "critical").
  { rewrite existsb_exists. split.
    - intros (risk & Hin & Hc). apply bool_decide_eq_true in Hc.
      apply list_elem_of_In in Hin. rewrite <- Hderef in Hin.
      apply list_elem_of_omap in Hin as (l & Hl' & Hx). eauto.
    - intros (l & risk & Hl' & Hx & Hc). exists risk. split.
      + apply list_elem_of_In. rewrite <- Hderef.
        apply list_elem_of_omap. eauto.
      + by apply bool_decide_eq_true. }
  assert (Hreview : should_review (merge state d) = review
                    <-> 75 < calculate_overall_risk_score
                                 (assessed_risks state s)
                        \/ existsb
                             (fun risk =>
                                bool_decide (r_severity risk = "critical"))
                             (assessed_risks state s) = true).
  { unfold should_review. simpl. rewrite Hq, Hs. simpl.
    destruct (Qlt_le_dec 75 _) as [Hlt | Hle]; destruct (existsb _ _); simpl;
      (split;
       [ intros H; (by left) || (by right) || discriminate H
       | intros [? | ?]; try done; lra ]). }
  split.
  - rewrite Hnext, Hreview, Hcrit. rewrite Hr. simpl. rewrite Hs. simpl. done.
  - simpl st_risk_level. rewrite Hl. simpl. intros Hlevel.
    apply Hnext, Hreview. left.
    unfold determine_risk_level in Hlevel.
    destruct (Qle_bool 76 _) eqn:H76.
    + apply Qle_bool_iff in H76. lra.
    + repeat destruct (Qle_bool _ _); discriminate Hlevel.
Qed.

Lemma risk_assessment_node_routing_witness :
  let s := {| risk_objs := ∅;
              item_objs :=
                {[ 0%nat := {| c_regulation := "GDPR";
                               c_requirement := "Data Processing Agreement required";
                               c_status := "non_compliant";
                               c_gap := None;
                               c_severity := "critical" |} ]};
              obligation_objs := ∅ |} in
  let out :=
    risk_assessment_node id "2026-01-03T00:00:00" (sample_state None) s in
  next_node risk_assessment (merge (sample_state None) out.2) = Some hitl.
Proof.
  intros s out.
  apply (proj2 (risk_assessment_node_routing id "2026-01-03T00:00:00"
                  (sample_state None) s)).
  reflexivity.
Defined.

(** X8.  The risk assessment keeps the contract of the merge policy: on a
    state whose lists hold dicts, it writes to none of them and the risks it
    returns are new dicts, pairwise distinct. *)
Theorem risk_assessment_node_contract (upper : string -> string) (now : string)
  (state : State) (s : Store) :
  well_formed state s ->
  entries_unmodified state s (risk_assessment_node upper now state s).1
  /\ returns_delta_only state (risk_assessment_node upper now state s).2
  /\ NoDup (default [] (u_risks (risk_assessment_node upper now state s).2)).
Proof.
  intros (Wr & Wi & Wo).
  destruct (risk_assessment_node_returns upper now state s)
    as (s' & new & d & -> & Hadd & _ & Hr & _ & _ & _ & _ & Hi & Ho).
  destruct Hadd as (Hnodup & Hfresh & _ & Hkeep & Hitems & Hobls).
  cbn [fst snd].
  assert (Hdisj : forall l, l ∈ new -> l ∉ st_risks state).
  { intros l Hl Hin. specialize (Hfresh l Hl).
    destruct (Wr l Hin) as [x Hx]. congruence. }
  split; [| split].
  - repeat split; intros l Hl.
    + apply Hkeep. intros Hnew. by apply (Hdisj l).
    + by rewrite Hitems.
    + by rewrite Hobls.
  - unfold returns_delta_only. rewrite Hr, Hi, Ho. simpl.
    repeat split; try done; intros l Hl; by apply elem_of_nil in Hl.
  - by rewrite Hr.
Qed.

Lemma risk_assessment_node_contract_witness :
  entries_unmodified (sample_state None) sample_store
    (risk_assessment_node id "2026-01-03T00:00:00" (sample_state None)
       sample_store).1.
Proof.
  assert (W : well_formed (sample_state None) sample_store).
  { repeat split; intros l Hl; apply list_elem_of_singleton in Hl as ->;
      by eexists. }
  exact (proj1 (risk_assessment_node_contract id "2026-01-03T00:00:00"
                  (sample_state None) sample_store W)).
Defined.

(** ** The compliance stage *)

Lemma deref_length {A : Type} (objs : gmap loc A) (ls : list loc) :
  (forall l, l ∈ ls -> is_Some (objs !! l)) ->
  length (deref objs ls) = length ls.
Proof.
  induction ls as [| l ls IH]; intros Hls; [done |].
  rewrite deref_cons.
  destruct (Hls l (list_elem_of_here _ _)) as [x ->]. simpl.
  rewrite IH; [done |]. intros l' Hl'. by apply Hls, list_elem_of_further.
Qed.

Lemma items_added_deref_app (s s1 s2 : Store) (n1 n2 : list loc) :
  items_added s s1 n1 -> items_added s1 s2 n2 ->
  deref (item_objs s2) (n1 ++ n2)
  = deref (item_objs s1) n1 ++ deref (item_objs s2) n2.
Proof.
  intros A1 A2. rewrite deref_app. f_equal.
  apply (deref_items_added _ _ n2); [done |].
  intros l H1 H2.
  destruct A1 as (_ & _ & S1 & _), A2 as (_ & F2 & _).
  specialize (S1 l H1). rewrite (F2 l H2) in S1. by destruct S1.
Qed.

Lemma append_missing_added (found : string -> bool)
  (item : string -> ComplianceItem) (xs : list string) :
  forall (verified : list loc) (s : Store),
    exists s' new,
      append_missing found item xs verified s = (s', Py.Ok (verified ++ new))
      /\ items_added s s' new
      /\ deref (item_objs s') new
         = item <$> List.filter (fun x => negb (found x)) xs.
Proof.
  induction xs as [| x xs IH]; intros verified s.
  - exists s, []. rewrite app_nil_r.
    split; [done |]. split; [apply items_added_nil | done].
  - simpl. destruct (found x); simpl; [apply IH |].
    unfold mbind, M_bind.
    destruct (new_item_added (item x) s) as (s1 & l & E1 & A1 & L1).
    rewrite (bind_ok _ _ _ _ _ E1).
    destruct (IH (verified ++ [l]) s1) as (s2 & new & E2 & A2 & D2).
    exists s2, ([l] ++ new). rewrite E2, <- app_assoc.
    split; [done |]. split; [by eapply items_added_app |].
    rewrite (items_added_deref_app s s1 s2) by done.
    rewrite D2, deref_cons, L1. done.
Qed.

(** What [verify_compliance] returns: the list it was given, followed by one
    new gap per rule that is not met. *)
Lemma verify_compliance_returns (lower : string -> string)
  (compliance_items obligations : list loc) (rules : Rules) (s : Store) :
  let items := deref (item_objs s) compliance_items in
  let obligs := deref (obligation_objs s) obligations in
  exists (s' : Store) (new : list loc) (gaps : list ComplianceItem),
    verify_compliance lower compliance_items obligations rules s
    = (s', Py.Ok (compliance_items ++ new))
    /\ items_added s s' new
    /\ deref (item_objs s') new = gaps
    /\ length new = length gaps
    /\ Forall (fun item =>
                 (c_status item = "non_compliant" /\ c_severity item = "high")
                 \/ (c_status item = "unclear" /\ c_severity item = "medium"))
              gaps
    /\ (length gaps <= rule_count rules)%nat
    /\ (items = [] -> obligs = [] -> length gaps = rule_count rules).
Proof.
  intros items obligs. unfold verify_compliance.
  fold items. fold obligs. unfold mbind, M_bind.
  match goal with
  | |- context [append_missing ?f ?i (required_clauses rules) _] =>
      destruct (append_missing_added f i (required_clauses rules)
                  compliance_items s) as (s1 & n1 & E1 & A1 & D1)
  end.
  rewrite (bind_ok _ _ _ _ _ E1).
  match goal with
  | |- context [append_missing ?f ?i (required_certifications rules) _] =>
      destruct (append_missing_added f i (required_certifications rules)
                  (compliance_items ++ n1) s1) as (s2 & n2 & E2 & A2 & D2)
  end.
  rewrite (bind_ok _ _ _ _ _ E2).
  match goal with
  | |- context [append_missing ?f ?i (regulatory_requirements rules) _] =>
      destruct (append_missing_added f i (regulatory_requirements rules)
                  ((compliance_items ++ n1) ++ n2) s2)
        as (s3 & n3 & E3 & A3 & D3)
  end.
  rewrite E3.
  pose proof (items_added_app _ _ _ _ _ A1 A2) as A12.
  pose proof (items_added_app _ _ _ _ _ A12 A3) as A123.
  exists s3, ((n1 ++ n2) ++ n3). eexists.
  split; [by rewrite <- !app_assoc |]. split; [exact A123 |].
  assert (Hd : deref (item_objs s3) ((n1 ++ n2) ++ n3)
               = (deref (item_objs s1) n1 ++ deref (item_objs s2) n2)
                 ++ deref (item_objs s3) n3).
  { rewrite (items_added_deref_app s s2 s3) by done.
    by rewrite (items_added_deref_app s s1 s2). }
  split; [exact Hd |].
  split.
  { symmetry. rewrite <- Hd. apply deref_length.
    by destruct A123 as (_ & _ & S & _). }
  rewrite D1, D2, D3. split; [| split].
  - rewrite !Forall_app. repeat split; apply Forall_fmap, Forall_forall;
      intros x _; simpl; auto.
  - rewrite !length_app, !length_fmap. unfold rule_count.
    pose proof (List.filter_length_le
                  (fun x => negb (mentioned lower x (o_description <$> obligs)))
                  (required_clauses rules)).
    pose proof (List.filter_length_le
                  (fun x => negb (mentioned lower x (c_regulation <$> items)))
                  (required_certifications rules)).
    pose proof (List.filter_length_le
                  (fun x => negb (mentioned lower x (c_requirement <$> items)))
                  (regulatory_requirements rules)).
    lia.
  - intros -> ->. simpl. rewrite !length_app, !length_fmap.
    unfold rule_count. by rewrite !filter_true.
Qed.

(** X9.  [verify_compliance] never drops or rewrites an item: it returns
    the list it was given followed by new gaps, at most one per rule, each
    either non_compliant of severity high or unclear of severity medium;
    with no obligation and no item to search, every rule yields a gap. *)
Theorem verify_compliance_appends (lower : string -> string)
  (compliance_items obligations : list loc) (rules : Rules) (s : Store) :
  exists (s' : Store) (new : list loc),
    verify_compliance lower compliance_items obligations rules s
    = (s', Py.Ok (compliance_items ++ new))
    /\ items_added s s' new
    /\ (length new <= rule_count rules)%nat
    /\ Forall (fun item =>
                 (c_status item = "non_compliant" /\ c_severity item = "high")
                 \/ (c_status item = "unclear" /\ c_severity item = "medium"))
              (deref (item_objs s') new)
    /\ (deref (item_objs s) compliance_items = [] ->
        deref (obligation_objs s) obligations = [] ->
        length new = rule_count rules).
Proof.
  destruct (verify_compliance_returns lower compliance_items obligations
              rules s)
    as (s' & new & gaps & E & Hadd & Hd & Hlen & Hall & Hle & Hall_missing).
  exists s', new. split; [exact E |]. split; [exact Hadd |].
  rewrite Hd, Hlen. split; [exact Hle |]. split; [exact Hall |].
  exact Hall_missing.
Qed.

Lemma verify_compliance_appends_witness :
  exists (s' : Store) (new : list loc),
    verify_compliance id [] [] (rules_for "contract") sample_store
    = (s', Py.Ok ([] ++ new))
    /\ length new = 4%nat.
Proof.
  destruct (verify_compliance_appends id [] [] (rules_for "contract")
              sample_store) as (s' & new & E & _ & _ & _ & H).
  exists s', new. split; [exact E |]. by apply H.
Defined.

(** X10.  The compliance stage does not raise and writes to no existing
    dict, but the list it returns starts with the items the state already
    holds: under the append reducer every previous item is then in
    [compliance_items] twice, followed by the new gaps (one per unmet rule
    and one per renewal date due within 30 days). *)
Theorem compliance_node_returns_existing_items (lower : string -> string)
  (now : string) (state : State) (s : Store) :
  let out := compliance_node lower now state s in
  exists new : list loc,
    u_compliance_items out.2 = Some (st_compliance_items state ++ new)
    /\ st_compliance_items (merge state out.2)
       = st_compliance_items state ++ st_compliance_items state ++ new
    /\ items_added s out.1 new
    /\ u_status out.2 = None
    /\ (length (check_deadline_compliance (st_renewal_dates state))
        <= length new
        <= rule_count (rules_for (st_document_type state))
           + length (check_deadline_compliance (st_renewal_dates state)))%nat
    /\ (well_formed state s -> entries_unmodified state s out.1).
Proof.
  intros out. subst out. unfold compliance_node, mbind, M_bind, mret, M_ret.
  destruct (verify_compliance_returns lower (st_compliance_items state)
              (st_obligations state) (rules_for (st_document_type state)) s)
    as (s1 & n1 & gaps & E1 & A1 & _ & Hlen & _ & Hle & _).
  rewrite (bind_ok _ _ _ _ _ E1).
  destruct (new_all_items_added
              (check_deadline_compliance (st_renewal_dates state)) s1)
    as (s2 & n2 & E2 & A2 & D2).
  rewrite (bind_ok _ _ _ _ _ E2).
  unfold ret. cbn [fst snd].
  pose proof (items_added_app _ _ _ _ _ A1 A2) as A.
  exists (n1 ++ n2).
  assert (Hn2 : length n2
                = length (check_deadline_compliance (st_renewal_dates state))).
  { rewrite <- D2. symmetry. apply deref_length.
    by destruct A2 as (_ & _ & S & _). }
  split; [simpl; by rewrite <- app_assoc |].
  split; [simpl; by rewrite <- !app_assoc |].
  split; [exact A |]. split; [done |].
  split; [rewrite length_app; lia |].
  intros (_ & Wi & _).
  destruct A as (_ & F & _ & K & Hr & Ho).
  repeat split; intros l Hl.
  - by rewrite Hr.
  - apply K. intros Hnew. specialize (F l Hnew).
    destruct (Wi l Hl) as [x Hx]. congruence.
  - by rewrite Ho.
Qed.

Lemma compliance_node_returns_existing_items_witness :
  entries_unmodified (sample_state None) sample_store
    (compliance_node id "2026-01-03T00:00:00" (sample_state None)
       sample_store).1.
Proof.
  assert (W : well_formed (sample_state None) sample_store).
  { repeat split; intros l Hl; apply list_elem_of_singleton in Hl as ->;
      by eexists. }
  destruct (compliance_node_returns_existing_items id "2026-01-03T00:00:00"
              (sample_state None) sample_store)
    as (new & _ & _ & _ & _ & _ & H).
  exact (H W).
Defined.

(** ** The compliance stage followed by the risk assessment *)

Lemma compliance_node_returns (lower : string -> string) (now : string)
  (state : State) (s : Store) :
  exists new : list loc,
    u_compliance_items (compliance_node lower now state s).2
    = Some (st_compliance_items state ++ new)
    /\ items_added s (compliance_node lower now state s).1 new.
Proof.
  unfold compliance_node, mbind, M_bind, mret, M_ret.
  destruct (verify_compliance_returns lower (st_compliance_items state)
              (st_obligations state) (rules_for (st_document_type state)) s)
    as (s1 & n1 & gaps & E1 & A1 & _).
  rewrite (bind_ok _ _ _ _ _ E1).
  destruct (new_all_items_added
              (check_deadline_compliance (st_renewal_dates state)) s1)
    as (s2 & n2 & E2 & A2 & _).
  rewrite (bind_ok _ _ _ _ _ E2).
  unfold ret. cbn [fst snd].
  exists (n1 ++ n2). split; [simpl; by rewrite <- app_assoc |].
  by eapply items_added_app.
Qed.

Lemma assess_compliance_risks_length (compliance_items : list ComplianceItem) :
  length (assess_compliance_risks compliance_items)
  = length (List.filter scored_status compliance_items).
Proof.
  unfold assess_compliance_risks.
  by rewrite assess_compliance_loop_appended, app_nil_l, appended_length.
Qed.

(** X23.  What the compliance stage hands to the risk assessment: after the
    merge, the items the state held before the stage are read twice, then
    the new gaps, so the risk assessment creates two compliance risks for
    every earlier item that is non_compliant or partially_compliant. *)
Theorem earlier_items_are_assessed_twice (lower : string -> string)
  (now : string) (state : State) (s : Store) :
  well_formed state s ->
  let out := compliance_node lower now state s in
  let before := deref (item_objs s) (st_compliance_items state) in
  exists gaps : list ComplianceItem,
    deref (item_objs out.1) (st_compliance_items (merge state out.2))
    = before ++ before ++ gaps
    /\ length (assess_compliance_risks
                 (deref (item_objs out.1)
                    (st_compliance_items (merge state out.2))))
       = (2 * length (assess_compliance_risks before)
          + length (assess_compliance_risks gaps))%nat.
Proof.
  intros (_ & Wi & _) out before. subst out before.
  destruct (compliance_node_returns lower now state s) as (new & Hu & A).
  destruct (compliance_node lower now state s) as [s' d]. cbn [fst snd] in *.
  assert (Hold : deref (item_objs s') (st_compliance_items state)
                 = deref (item_objs s) (st_compliance_items state)).
  { apply (deref_items_added _ _ new); [done |].
    intros l Hl Hnew. destruct A as (_ & F & _).
    specialize (F l Hnew). destruct (Wi l Hl) as [x Hx]. congruence. }
  assert (E : deref (item_objs s') (st_compliance_items (merge state d))
              = deref (item_objs s) (st_compliance_items state)
                ++ deref (item_objs s) (st_compliance_items state)
                ++ deref (item_objs s') new).
  { simpl. rewrite Hu. simpl. by rewrite !deref_app, Hold. }
  exists (deref (item_objs s') new). split; [exact E |].
  rewrite E, !assess_compliance_risks_length, !List.filter_app, !length_app.
  lia.
Qed.

Lemma earlier_items_are_assessed_twice_witness :
  exists gaps : list ComplianceItem,
    deref (item_objs (compliance_node id "2026-01-03T00:00:00"
                        (sample_state None) sample_store).1)
      (st_compliance_items
         (merge (sample_state None)
            (compliance_node id "2026-01-03T00:00:00" (sample_state None)
               sample_store).2))
    = [sample_item] ++ [sample_item] ++ gaps.
Proof.
  assert (W : well_formed (sample_state None) sample_store).
  { repeat split; intros l Hl; apply list_elem_of_singleton in Hl as ->;
      by eexists. }
  destruct (earlier_items_are_assessed_twice id "2026-01-03T00:00:00"
              (sample_state None) sample_store W) as (gaps & E & _).
  exists gaps. exact E.
Defined.

(** ** The review gate: summary and patches *)




(** X12.  A compliance patch whose index is negative or not below the length
    of the list writes nothing and does not raise: a negative index never
    reaches a dict from the end of the list. *)
Theorem compliance_patch_out_of_range (compliance_items : list loc)
  (mods : list ComplianceMod) (s : Store) :
  Forall (fun mod_ =>
            exists idx : Z,
              cm_index mod_ = Some idx
              /\ (idx < 0 \/ Z.of_nat (length compliance_items) <= idx)%Z)
         mods ->
  for_each (compliance_mod_body compliance_items) mods s = (s, Py.Ok tt).
Proof.
  intros H. induction H as [| mod_ mods (idx & Ei & Hr) _ IH]; [done |].
  simpl. unfold mbind, M_bind, bind.
  assert (E : compliance_mod_body compliance_items mod_ s = (s, Py.Ok tt)).
  { unfold compliance_mod_body. rewrite Ei.
    destruct (decide _) as [Hin | _]; [lia | done]. }
  rewrite E. exact IH.
Qed.

Lemma compliance_patch_out_of_range_witness :
  for_each (compliance_mod_body [0%nat])
    [ {| cm_index := Some (-1)%Z; cm_status := Some "compliant";
         cm_gap := None |};
      {| cm_index := Some 1%Z; cm_status := Some "compliant";
         cm_gap := None |} ] sample_store
  = (sample_store, Py.Ok tt).
Proof.
  apply compliance_patch_out_of_range.
  repeat constructor.
  - exists (-1)%Z. split; [reflexivity | simpl; lia].
  - exists 1%Z. split; [reflexivity | simpl; lia].
Defined.


Lemma modify_risk_idempotent (mod_ : RiskMod) (risk : Risk) :
  let patch := fun risk =>
                 if decide (Some (r_id risk) = rm_id mod_)
                 then modify_risk mod_ risk else risk in
  patch (patch risk) = patch risk.
Proof.
  simpl. destruct (decide (Some (r_id risk) = rm_id mod_)) as [E | E].
  - simpl. rewrite decide_True by exact E.
    unfold modify_risk; simpl.
    destruct mod_ as [i [v1 |] [v2 |] [v3 |]]; reflexivity.
  - by rewrite decide_False.
Qed.

Lemma foldl_alter_risk (f : Risk -> Risk) (risks : list loc) (s : Store) :
  (forall x, f (f x) = f x) ->
  let s' := foldl (fun s l => alter_risk f l s) s risks in
  (forall l, l ∈ risks -> risk_objs s' !! l = f <$> risk_objs s !! l)
  /\ (forall l, l ∉ risks -> risk_objs s' !! l = risk_objs s !! l)
  /\ item_objs s' = item_objs s
  /\ obligation_objs s' = obligation_objs s.
Proof.
  intros Hf. revert s. induction risks as [| l0 risks IH]; intros s; simpl.
  - split; [| done]. intros l Hl. by apply elem_of_nil in Hl.
  - destruct (IH (alter_risk f l0 s)) as (Hin & Hout & Hi & Ho).
    split; [| split; [| split]].
    + intros l Hl. destruct (decide (l ∈ risks)) as [Hr | Hr].
      * rewrite (Hin l Hr). simpl.
        destruct (decide (l = l0)) as [-> | Hne].
        -- rewrite lookup_alter_eq.
           destruct (risk_objs s !! l0); simpl; [by rewrite Hf | done].
        -- by rewrite lookup_alter_ne.
      * rewrite (Hout l Hr). simpl.
        apply elem_of_cons in Hl as [-> | Hl]; [| done].
        by rewrite lookup_alter_eq.
    + intros l Hl. apply not_elem_of_cons in Hl as [Hne Hl].
      rewrite (Hout l Hl). simpl. by rewrite lookup_alter_ne.
    + by rewrite Hi.
    + by rewrite Ho.
Qed.

Lemma foldl_alter_risk_fixed (f : Risk -> Risk) (risks : list loc) (s : Store) :
  (forall l x, l ∈ risks -> risk_objs s !! l = Some x -> f x = x) ->
  foldl (fun s l => alter_risk f l s) s risks = s.
Proof.
  induction risks as [| l0 risks IH]; intros H; simpl; [done |].
  rewrite alter_risk_id.
  - apply IH. intros l x Hl. apply H. by right.
  - intros x. apply H. by left.
Qed.

(** X13.  One risk patch is applied to every risk of the list that has its
    id, also when the list holds the same dict more than once, and to nothing
    else; applying it again changes nothing. *)
Theorem risk_patch_reaches_every_match (risks : list loc) (mod_ : RiskMod)
  (s : Store) :
  let patch := fun risk =>
                 if decide (Some (r_id risk) = rm_id mod_)
                 then modify_risk mod_ risk else risk in
  exists s' : Store,
    risk_mod_body risks mod_ s = (s', Py.Ok tt)
    /\ (forall l, l ∈ risks -> risk_objs s' !! l = patch <$> risk_objs s !! l)
    /\ (forall l, l ∉ risks -> risk_objs s' !! l = risk_objs s !! l)
    /\ item_objs s' = item_objs s
    /\ obligation_objs s' = obligation_objs s
    /\ risk_mod_body risks mod_ s' = (s', Py.Ok tt).
Proof.
  intros patch. unfold risk_mod_body. rewrite for_each_write.
  eexists. split; [reflexivity |].
  destruct (foldl_alter_risk patch risks s (modify_risk_idempotent mod_))
    as (Hin & Hout & Hi & Ho).
  split; [exact Hin |]. split; [exact Hout |].
  split; [exact Hi |]. split; [exact Ho |].
  rewrite for_each_write. f_equal.
  apply foldl_alter_risk_fixed. intros l x Hl Hx.
  assert (Hy : Some x = patch <$> risk_objs s !! l)
    by (rewrite <- Hx; apply (Hin l Hl)).
  destruct (risk_objs s !! l) as [y |]; [| discriminate].
  injection Hy as ->. apply modify_risk_idempotent.
Qed.

Lemma apply_user_modifications_notes (state : State) (ms : Modifications)
  (notes : string) (s : Store) :
  apply_user_modifications state (Some (set_m_notes (Some notes) ms)) s
  = match apply_user_modifications state (Some (set_m_notes None ms)) s with
    | (s', Py.Ok updated) =>
        (s', Py.Ok (set_messages ["User note: " +:+ notes] updated))
    | (s', Py.Raise e) => (s', Py.Raise e)
    end.
Proof.
  unfold apply_user_modifications, mbind, M_bind, mret, M_ret, bind.
  cbn [set_m_notes m_risks m_compliance_items m_obligations m_notes].
  destruct (m_risks ms) as [risk_mods |];
    destruct (m_compliance_items ms) as [item_mods |];
    destruct (m_obligations ms) as [obligation_mods |]; unfold ret;
    repeat match goal with
           | |- context [for_each ?body ?l ?s0] =>
               destruct (for_each body l s0) as [? [[] | ?]]
           end;
    reflexivity.
Qed.

(** X14.  The note of a revised review does not reach the messages:
    [apply_user_modifications] returns it under the key [messages], and
    [hitl_node] then assigns its own message to that key, so the gate returns
    the same with the note as without it. *)
Theorem user_note_is_overwritten (now : string) (state : State) (s : Store)
  (comments : option string) (ms : Modifications) (notes : string) :
  hitl_node now
    (attach_feedback
       (feedback "revised" comments (Some (set_m_notes (Some notes) ms)))
       state) s
  = hitl_node now
      (attach_feedback
         (feedback "revised" comments (Some (set_m_notes None ms))) state) s
  /\ forall (s' : Store) (updated : Update),
       apply_user_modifications state (Some (set_m_notes (Some notes) ms)) s
       = (s', Py.Ok updated) ->
       u_messages updated = Some ["User note: " +:+ notes].
Proof.
  split.
  - rewrite !hitl_node_revised.
    assert (E : forall fb1 fb2 m,
               apply_user_modifications (attach_feedback fb1 state) m s
               = apply_user_modifications (attach_feedback fb2 state) m s)
      by reflexivity.
    rewrite (E _ (feedback "revised" comments (Some (set_m_notes None ms)))).
    rewrite apply_user_modifications_notes.
    destruct (apply_user_modifications _ (Some (set_m_notes None ms)) s)
      as [s' [u | e]]; reflexivity.
  - intros s' updated. rewrite apply_user_modifications_notes.
    destruct (apply_user_modifications _ (Some (set_m_notes None ms)) s)
      as [s1 [u | e]]; [| discriminate].
    intros [= <- <-]. reflexivity.
Qed.

Lemma risk_patch_reaches_every_match_witness :
  exists s' : Store,
    risk_mod_body [0%nat; 0%nat] lower_severity sample_store = (s', Py.Ok tt)
    /\ r_severity <$> risk_objs s' !! 0%nat = Some "low".
Proof.
  destruct (risk_patch_reaches_every_match [0%nat; 0%nat] lower_severity
              sample_store) as (s' & E & Hin & _).
  exists s'. split; [exact E |].
  pose proof (Hin 0%nat (list_elem_of_here _ _)) as H0.
  unfold loc in *. rewrite H0. reflexivity.
Defined.

Lemma user_note_is_overwritten_witness :
  exists (s' : Store) (updated : Update),
    apply_user_modifications (sample_state None)
      (Some (set_m_notes (Some "check clause 4") no_modifications))
      sample_store
    = (s', Py.Ok updated)
    /\ u_messages updated = Some ["User note: check clause 4"].
Proof.
  eexists _, _. split; [reflexivity |].
  eapply (proj2 (user_note_is_overwritten "2026-01-03T00:00:00"
                   (sample_state None) sample_store None no_modifications
                   "check clause 4")).
  reflexivity.
Defined.

(** ** Runs: what every run does *)

Lemma merge_no_update (state : State) : merge state no_update = state.
Proof. by destruct state. Qed.

Lemma merge_keeps_metadata (state : State) (d : Update) :
  is_Some (st_document_metadata state) ->
  is_Some (st_document_metadata (merge state d)).
Proof.
  intros H. simpl. by destruct (u_document_metadata d).
Qed.

Section Runs.

Variables ingestion_node classification_node extraction_node : stage.
Variables compliance_node risk_assessment_node : stage.
Variable clock : node -> string.
Variable generate_executive_summary : State -> Store -> string.
Variable extract_top_recommendations : State -> Store -> list string.

Local Abbreviation run_with :=
  (run ingestion_node classification_node extraction_node compliance_node
       risk_assessment_node clock generate_executive_summary
       extract_top_recommendations).

Lemma run_unfold (fuel : nat) (n : node) (state : State) (s : Store) :
  run_with (S fuel) n state s
  = let '(s', d) :=
      node_fn ingestion_node classification_node extraction_node
        compliance_node risk_assessment_node clock generate_executive_summary
        extract_top_recommendations n state s in
    let state' := merge state d in
    match next_node n state' with
    | None => Some ([(n, d)], state', s')
    | Some n' =>
        match run_with fuel n' state' s' with
        | Some (called, final, s'') => Some ((n, d) :: called, final, s'')
        | None => None
        end
    end.
Proof. reflexivity. Qed.

(** Along a run an accumulating key holds what it held, followed by what
    each called node returned under it. *)
Lemma run_accumulates {A : Type} (st_key : State -> list A)
  (u_key : Update -> option (list A)) :
  (forall state d, st_key (merge state d) = st_key state ++ default [] (u_key d)) ->
  forall (fuel : nat) (n : node) (state : State) (s : Store) called final s',
    run_with fuel n state s = Some (called, final, s') ->
    st_key final = st_key state ++ returned u_key called.
Proof.
  intros Hm. induction fuel as [| fuel IH]; intros n state s called final s' E;
    [discriminate |].
  rewrite run_unfold in E.
  destruct (node_fn _ _ _ _ _ _ _ _ n state s) as [s1 d].
  cbv zeta in E.
  destruct (next_node n (merge state d)) as [n' |].
  - destruct (run_with fuel n' (merge state d) s1) as [[[called' final'] s''] |]
      eqn:E'; [| discriminate].
    injection E as <- <- <-.
    rewrite (IH _ _ _ _ _ _ E'), Hm. unfold returned. simpl.
    by rewrite <- app_assoc.
  - injection E as <- <- <-. rewrite Hm. unfold returned. simpl.
    by rewrite app_nil_r.
Qed.

(** The last call of a run that starts with the metadata present is a
    report that succeeds. *)
Lemma run_ends_completed (fuel : nat) :
  forall (n : node) (state : State) (s : Store) called final s',
    is_Some (st_document_metadata state) ->
    run_with fuel n state s = Some (called, final, s') ->
    st_status final = "completed"
    /\ st_progress_percentage final = 100%Z
    /\ is_Some (st_verification_report final).
Proof.
  induction fuel as [| fuel IH]; intros n state s called final s' Hm E;
    [discriminate |].
  rewrite run_unfold in E.
  destruct (node_fn _ _ _ _ _ _ _ _ n state s) as [s1 d] eqn:En.
  cbv zeta in E.
  destruct (next_node n (merge state d)) as [n' |] eqn:Enext.
  - destruct (run_with fuel n' (merge state d) s1) as [[[called' final'] s''] |]
      eqn:E'; [| discriminate].
    injection E as <- <- <-.
    eapply IH; [| exact E']. by apply merge_keeps_metadata.
  - injection E as <- <- <-.
    destruct n; try discriminate Enext.
    simpl in En. unfold report_generation_node in En.
    destruct Hm as [m Hm]. rewrite Hm in En. injection En as <- <-.
    simpl. split; [done |]. split; [done |]. by eexists.
Qed.

(** X15.  Feedback whose action is none of approved, revised and rejected
    makes [hitl_node] fall off its end: it returns no dict and writes
    nothing, and the run goes on to the report with the state as it was,
    [requires_review] included. *)
Theorem hitl_node_unknown_action (state : State) (s : Store)
  (fb : HumanFeedback) (action : string) :
  st_human_feedback state = Some fb ->
  hf_action fb = Some action ->
  action ∉ ["approved"; "revised"; "rejected"] ->
  hitl_node (clock hitl) state s = (s, None)
  /\ run_with 7 hitl state s
     = Some ([(hitl, no_update);
              (report_generation,
               (report_generation_node generate_executive_summary
                  extract_top_recommendations (clock report_generation)
                  state s).2)],
             merge state
               (report_generation_node generate_executive_summary
                  extract_top_recommendations (clock report_generation)
                  state s).2,
             s).
Proof.
  intros Hfb Hact Hnot.
  assert (E : hitl_node (clock hitl) state s = (s, None)).
  { unfold hitl_node. rewrite Hfb, Hact. simpl.
    rewrite !decide_False; [done | | |];
      intros ->; apply Hnot; set_solver. }
  split; [exact E |].
  rewrite run_unfold. simpl node_fn. rewrite E. cbv zeta. simpl default.
  rewrite merge_no_update. simpl next_node. cbv iota beta.
  rewrite run_unfold. simpl node_fn.
  destruct (report_generation_node _ _ _ state s) as [s2 d2] eqn:Er.
  assert (s2 = s) as ->.
  { unfold report_generation_node in Er.
    destruct (st_document_metadata state); by injection Er as <- _. }
  reflexivity.
Qed.

(** X16.  A call of the graph runs to [END] along one of two paths, the
    review gate being called at most once and only after the risk
    assessment; under each accumulating key the final state holds what the
    initial state held followed by what every called node returned, in call
    order: no entry is dropped or replaced by a later stage. *)
Theorem ainvoke_accumulates (initial_state : State) (s : Store) :
  exists called final s',
    ainvoke ingestion_node classification_node extraction_node compliance_node
      risk_assessment_node clock generate_executive_summary
      extract_top_recommendations initial_state s
    = Some (called, final, s')
    /\ (called.*1 = [ingestion; classification; extraction; compliance;
                     risk_assessment; report_generation]
        \/ called.*1 = [ingestion; classification; extraction; compliance;
                        risk_assessment; hitl; report_generation])
    /\ st_messages final
       = st_messages initial_state ++ returned u_messages called
    /\ st_risks final = st_risks initial_state ++ returned u_risks called
    /\ st_compliance_items final
       = st_compliance_items initial_state
         ++ returned u_compliance_items called
    /\ st_obligations final
       = st_obligations initial_state ++ returned u_obligations called
    /\ st_renewal_dates final
       = st_renewal_dates initial_state ++ returned u_renewal_dates called
    /\ st_review_items final
       = st_review_items initial_state ++ returned u_review_items called
    /\ st_recommendations final
       = st_recommendations initial_state
         ++ returned u_recommendations called.
Proof.
  destruct (ainvoke _ _ _ _ _ _ _ _ initial_state s)
    as [[[called final] s'] |] eqn:E.
  - exists called, final, s'. split; [reflexivity |].
    assert (Hadd : forall {A : Type} (old : list A) new,
               operator_add old new = old ++ default [] new).
    { intros A old [l |]; simpl; [done | by rewrite app_nil_r]. }
    split.
    + unfold ainvoke in E.
      repeat (rewrite run_unfold in E;
              match type of E with
              | context [node_fn ?a ?b ?c ?d ?e ?f ?g ?h ?n ?st ?s0] =>
                  destruct (node_fn a b c d e f g h n st s0) as [? ?]
              end;
              cbv zeta in E; simpl next_node in E; cbv iota beta in E;
              try match type of E with
                  | context [should_review ?st] =>
                      destruct (should_review st); simpl path_map in E
                  end).
      all: repeat match type of E with
                  | context [run_with ?f ?n ?st ?s0] =>
                      destruct (run_with f n st s0) as [[[? ?] ?] |];
                      [| discriminate E]
                  end.
      all: try (injection E as <- _ _; simpl; auto).
    + repeat split;
        eapply (run_accumulates _ _); try exact E; intros st d; apply Hadd.
  - exfalso. unfold ainvoke in E.
    destruct (run_reaches_report ingestion_node classification_node
                extraction_node compliance_node risk_assessment_node clock
                generate_executive_summary extract_top_recommendations 7
                ingestion initial_state s) as (c & f & s1 & E1 & _);
      [simpl; lia |].
    congruence.
Qed.

End Runs.

Lemma hitl_node_unknown_action_witness :
  hitl_node "t" (sample_state (Some (feedback "escalated" None None)))
    sample_store
  = (sample_store, None).
Proof.
  assert (Hnot : "escalated" ∉ ["approved"; "revised"; "rejected"])
    by (apply (bool_decide_unpack _); exact I).
  apply (proj1 (hitl_node_unknown_action
                  (fun _ s => (s, no_update)) (fun _ s => (s, no_update))
                  (fun _ s => (s, no_update)) (fun _ s => (s, no_update))
                  (fun _ s => (s, no_update)) (fun _ => "t")
                  (fun _ _ => "EXECUTIVE SUMMARY") (fun _ _ => [])
                  (sample_state (Some (feedback "escalated" None None)))
                  sample_store (feedback "escalated" None None) "escalated"
                  eq_refl eq_refl
                  Hnot)).
Defined.

Section Pipeline.

Variables lower upper : string -> string.
Variable extraction_node : stage.
Variable clock : node -> string.
Variable generate_executive_summary : State -> Store -> string.
Variable extract_top_recommendations : State -> Store -> list string.

(** X17.  With the stages of the repository, whatever the extraction
    returns, a call of the graph ends with [status] completed, progress 100
    and a report: the classification always sets the metadata the report
    needs, so the report is generated and overwrites the status.  This
    includes a document without text, for which the ingestion returned the
    error state. *)
Theorem verification_always_completes (initial_state : State) (s : Store) :
  exists called final s',
    ainvoke (ingestion_node (clock ingestion))
      (classification_node (clock classification)) extraction_node
      (compliance_node lower (clock compliance))
      (risk_assessment_node upper (clock risk_assessment)) clock
      generate_executive_summary extract_top_recommendations initial_state s
    = Some (called, final, s')
    /\ st_status final = "completed"
    /\ st_progress_percentage final = 100%Z
    /\ is_Some (st_verification_report final)
    /\ (st_raw_text initial_state = "" ->
        exists d, called !! 0%nat = Some (ingestion, d)
                  /\ u_status d = Some "error"
                  /\ u_error_message d
                     = Some ("Document ingestion failed: "
                             +:+ "No text content found in document")).
Proof.
  destruct (run_reaches_report (ingestion_node (clock ingestion))
              (classification_node (clock classification)) extraction_node
              (compliance_node lower (clock compliance))
              (risk_assessment_node upper (clock risk_assessment)) clock
              generate_executive_summary extract_top_recommendations 7
              ingestion initial_state s) as (called & final & s' & E & _);
    [simpl; lia |].
  exists called, final, s'. unfold ainvoke. split; [exact E |].
  rewrite run_unfold in E. simpl node_fn in E.
  destruct (ingestion_node (clock ingestion) initial_state s) as [s1 d1] eqn:E1.
  cbv zeta in E. simpl next_node in E. cbv iota beta in E.
  rewrite run_unfold in E. simpl node_fn in E.
  destruct (classification_node (clock classification) (merge initial_state d1)
              s1) as [s2 d2] eqn:E2.
  cbv zeta in E. simpl next_node in E. cbv iota beta in E.
  destruct (run _ _ _ _ _ _ _ _ 5 extraction _ s2)
    as [[[called' final'] s''] |] eqn:E'; [| discriminate].
  injection E as <- <- <-.
  assert (Hm : is_Some (st_document_metadata
                          (merge (merge initial_state d1) d2))).
  { unfold classification_node in E2. injection E2 as _ <-. by eexists. }
  destruct (run_ends_completed _ _ _ _ _ _ _ _ _ _ _ _ _ _ _ Hm E')
    as (Hs & Hp & Hr).
  split; [exact Hs |]. split; [exact Hp |]. split; [exact Hr |].
  intros Hraw. exists d1. split; [done |].
  unfold ingestion_node in E1. rewrite Hraw in E1.
  rewrite decide_True in E1 by done. by injection E1 as _ <-.
Qed.

End Pipeline.

Lemma verification_always_completes_witness :
  exists called final s',
    ainvoke (ingestion_node "t") (classification_node "t")
      (fun _ s => (s, no_update)) (compliance_node id "t")
      (risk_assessment_node id "t") (fun _ => "t")
      (fun _ _ => "EXECUTIVE SUMMARY") (fun _ _ => [])
      (merge (sample_state None) (set_raw_text "" no_update)) sample_store
    = Some (called, final, s')
    /\ st_status final = "completed"
    /\ exists d, called !! 0%nat = Some (ingestion, d)
                 /\ u_status d = Some "error".
Proof.
  destruct (verification_always_completes id id (fun _ s => (s, no_update))
              (fun _ => "t") (fun _ _ => "EXECUTIVE SUMMARY") (fun _ _ => [])
              (merge (sample_state None) (set_raw_text "" no_update))
              sample_store)
    as (called & final & s' & E & Hs & _ & _ & Hraw).
  destruct (Hraw eq_refl) as (d & Hd & Hst & _).
  exists called, final, s'. split; [exact E |]. split; [exact Hs |].
  exists d. split; [exact Hd | exact Hst].
Defined.

Section ReviewRuns.

Variables ingestion_node classification_node extraction_node : stage.
Variables compliance_node risk_assessment_node : stage.
Variable clock : node -> string.
Variable generate_executive_summary : State -> Store -> string.
Variable extract_top_recommendations : State -> Store -> list string.

Local Abbreviation run_from :=
  (run ingestion_node classification_node extraction_node compliance_node
       risk_assessment_node clock generate_executive_summary
       extract_top_recommendations).

Lemma run_report_only (fuel : nat) (state : State) (s : Store) called final s' :
  run_from fuel report_generation state s = Some (called, final, s') ->
  exists d, called = [(report_generation, d)]
            /\ final = merge state d /\ u_requires_review d = None.
Proof.
  destruct fuel as [| fuel]; [discriminate |].
  rewrite (run_unfold ingestion_node classification_node extraction_node
             compliance_node risk_assessment_node clock
             generate_executive_summary extract_top_recommendations).
  simpl node_fn.
  destruct (report_generation_node _ _ _ state s) as [s2 d] eqn:Er.
  cbv zeta. simpl next_node. cbv iota. intros [= <- <- <-].
  exists d. split; [done |]. split; [done |].
  unfold report_generation_node in Er.
  destruct (st_document_metadata state); by injection Er as _ <-.
Qed.

Lemma run_pending_review (fuel : nat) :
  forall (n : node) (state : State) (s : Store) called final s',
    st_human_feedback state = None ->
    run_from fuel n state s = Some (called, final, s') ->
    st_human_feedback final = None
    /\ forall d, (hitl, d) ∈ called ->
                 u_requires_review d = Some true
                 /\ u_current_step d = Some "hitl_pending"
                 /\ u_status d = None
                 /\ st_requires_review final = true.
Proof.
  induction fuel as [| fuel IH]; intros n state s called final s' Hfb E;
    [discriminate |].
  rewrite (run_unfold ingestion_node classification_node extraction_node
             compliance_node risk_assessment_node clock
             generate_executive_summary extract_top_recommendations) in E.
  destruct (node_fn _ _ _ _ _ _ _ _ n state s) as [s1 d] eqn:En.
  cbv zeta in E.
  destruct (next_node n (merge state d)) as [n' |] eqn:Enext.
  - destruct (run_from fuel n' (merge state d) s1) as [[[called' final'] s''] |]
      eqn:E'; [| discriminate].
    injection E as <- <- <-.
    destruct (IH n' (merge state d) s1 called' final' s'' Hfb E') as [Hf Hh].
    split; [exact Hf |].
    intros d' Hin. apply elem_of_cons in Hin as [Heq | Hin]; [| by apply Hh].
    injection Heq as <- <-.
    simpl in Enext. injection Enext as <-.
    simpl in En. unfold hitl_node in En. rewrite Hfb in En.
    injection En as <- <-. simpl default.
    destruct (run_report_only _ _ _ _ _ _ E') as (d2 & _ & -> & Hd2).
    repeat split; try done. simpl. by rewrite Hd2.
  - injection E as <- <- <-. split; [exact Hfb |].
    intros d' Hin. apply list_elem_of_singleton in Hin.
    injection Hin as <- <-. discriminate Enext.
Qed.

(** X24.  The review gate does not wait.  A call of the graph on a state
    without feedback (the state the upload route builds) keeps it without
    feedback, so a gate that is reached takes its pending branch: it
    returns requires_review true and no status, the report is generated in
    the same run, and the final state still says that review is required. *)
Theorem review_is_not_awaited (initial_state : State) (s : Store) :
  st_human_feedback initial_state = None ->
  exists called final s',
    ainvoke ingestion_node classification_node extraction_node compliance_node
      risk_assessment_node clock generate_executive_summary
      extract_top_recommendations initial_state s
    = Some (called, final, s')
    /\ st_human_feedback final = None
    /\ fst <$> last called = Some report_generation
    /\ forall d, (hitl, d) ∈ called ->
                 u_requires_review d = Some true
                 /\ u_current_step d = Some "hitl_pending"
                 /\ u_status d = None
                 /\ st_requires_review final = true.
Proof.
  intros Hfb.
  destruct (run_reaches_report ingestion_node classification_node
              extraction_node compliance_node risk_assessment_node clock
              generate_executive_summary extract_top_recommendations 7
              ingestion initial_state s) as (called & final & s' & E & Hl & _);
    [simpl; lia |].
  exists called, final, s'. split; [exact E |].
  destruct (run_pending_review _ _ _ _ _ _ _ Hfb E) as [Hf Hh].
  split; [exact Hf |]. split; [exact Hl | exact Hh].
Qed.

End ReviewRuns.

Lemma review_is_not_awaited_witness :
  exists called final s',
    ainvoke (fun _ s => (s, no_update)) (fun _ s => (s, no_update))
      (fun _ s => (s, no_update)) (fun _ s => (s, no_update))
      (fun _ s => (s, set_requires_review true no_update)) (fun _ => "t")
      (fun _ _ => "EXECUTIVE SUMMARY") (fun _ _ => [])
      (sample_state None) sample_store
    = Some (called, final, s')
    /\ st_requires_review final = true
    /\ st_status final = "completed".
Proof.
  destruct (review_is_not_awaited
              (fun _ s => (s, no_update)) (fun _ s => (s, no_update))
              (fun _ s => (s, no_update)) (fun _ s => (s, no_update))
              (fun _ s => (s, set_requires_review true no_update))
              (fun _ => "t") (fun _ _ => "EXECUTIVE SUMMARY") (fun _ _ => [])
              (sample_state None) sample_store eq_refl)
    as (called & final & s' & E & _ & _ & Hh).
  exists called, final, s'. split; [exact E |].
  vm_compute in E. injection E as <- <- <-.
  split; [| reflexivity].
  eapply Hh. do 5 right. left.
Defined.

(** ** The overall score depends on the scores only *)

Lemma same_scores_refl (l : list Risk) : same_scores l l.
Proof. induction l; constructor; [reflexivity | done]. Qed.

Lemma same_scores_trans (l1 l2 l3 : list Risk) :
  same_scores l1 l2 -> same_scores l2 l3 -> same_scores l1 l3.
Proof.
  intros H. revert l3. induction H as [| a b l1 l2 Hab _ IH]; intros l3 H3;
    inversion H3 as [| b' c l2' l3' Hbc H' ]; subst; constructor.
  - by rewrite Hab.
  - by apply IH.
Qed.

Lemma insert_desc_same_scores (r1 r2 : Risk) (l1 l2 : list Risk) :
  r_score r1 == r_score r2 -> same_scores l1 l2 ->
  same_scores (insert_desc r1 l1) (insert_desc r2 l2).
Proof.
  intros Hr H. induction H as [| a b l1 l2 Hab H IH]; simpl.
  - by repeat constructor.
  - destruct (Qlt_le_dec (r_score r1) (r_score a)) as [H1 | H1];
      destruct (Qlt_le_dec (r_score r2) (r_score b)) as [H2 | H2];
      try (exfalso; lra).
    + by constructor.
    + constructor; [done |]. by constructor.
Qed.

Lemma insert_desc_comm (x y : Risk) (l : list Risk) :
  same_scores (insert_desc y (insert_desc x l)) (insert_desc x (insert_desc y l)).
Proof.
  induction l as [| z l IH]; simpl.
  - destruct (Qlt_le_dec (r_score y) (r_score x)) as [H1 | H1];
      destruct (Qlt_le_dec (r_score x) (r_score y)) as [H2 | H2];
      try (exfalso; lra); try apply same_scores_refl.
    repeat constructor; lra.
  - destruct (Qlt_le_dec (r_score x) (r_score z)) as [Hx | Hx];
      destruct (Qlt_le_dec (r_score y) (r_score z)) as [Hy | Hy]; simpl.
      destruct (Qlt_le_dec (r_score y) (r_score z)); [| exfalso; lra].
      destruct (Qlt_le_dec (r_score x) (r_score z)); [| exfalso; lra].
      constructor; [reflexivity | exact IH].
    + destruct (Qlt_le_dec (r_score y) (r_score z)); [exfalso; lra |].
      destruct (Qlt_le_dec (r_score x) (r_score y)); [| exfalso; lra].
      simpl. destruct (Qlt_le_dec (r_score x) (r_score z)); [| exfalso; lra].
      apply same_scores_refl.
    + destruct (Qlt_le_dec (r_score y) (r_score x)); [| exfalso; lra].
      simpl. destruct (Qlt_le_dec (r_score y) (r_score z)); [| exfalso; lra].
      destruct (Qlt_le_dec (r_score x) (r_score z)); [exfalso; lra |].
      apply same_scores_refl.
    + destruct (Qlt_le_dec (r_score y) (r_score x)) as [H1 | H1];
        destruct (Qlt_le_dec (r_score x) (r_score y)) as [H2 | H2];
        simpl; try (exfalso; lra).
      * destruct (Qlt_le_dec (r_score y) (r_score z)); [exfalso; lra |].
        apply same_scores_refl.
      * destruct (Qlt_le_dec (r_score x) (r_score z)); [exfalso; lra |].
        apply same_scores_refl.
      * constructor; [lra |]. constructor; [lra |]. apply same_scores_refl.
Qed.

Lemma sorted_desc_same_scores (l1 l2 : list Risk) :
  same_scores l1 l2 -> same_scores (sorted_desc l1) (sorted_desc l2).
Proof.
  induction 1; simpl; [constructor | by apply insert_desc_same_scores].
Qed.

Lemma sorted_desc_Permutation (l1 l2 : list Risk) :
  l1 ≡ₚ l2 -> same_scores (sorted_desc l1) (sorted_desc l2).
Proof.
  induction 1 as [| x l1 l2 _ IH | x y l | l1 l2 l3 _ IH1 _ IH2]; simpl.
  - constructor.
  - by apply insert_desc_same_scores.
  - apply insert_desc_comm.
  - by eapply same_scores_trans.
Qed.

Lemma weighted_loop_same_scores (l1 l2 : list Risk) :
  same_scores l1 l2 ->
  forall (idx : nat) (ws1 ws2 wt : Q),
    ws1 == ws2 ->
    (weighted_loop idx l1 ws1 wt).1 == (weighted_loop idx l2 ws2 wt).1
    /\ (weighted_loop idx l1 ws1 wt).2 = (weighted_loop idx l2 ws2 wt).2.
Proof.
  induction 1 as [| a b l1 l2 Hab _ IH]; intros idx ws1 ws2 wt Hws; simpl;
    [done |].
  apply IH. rewrite Hab, Hws. reflexivity.
Qed.

Lemma overall_score_same_scores (l1 l2 : list Risk) :
  same_scores (sorted_desc l1) (sorted_desc l2) ->
  calculate_overall_risk_score l1 == calculate_overall_risk_score l2.
Proof.
  intros H. unfold calculate_overall_risk_score.
  assert (Hlen : length l1 = length l2).
  { rewrite <- (sorted_desc_length l1), <- (sorted_desc_length l2).
    by eapply Forall2_length. }
  destruct l1 as [| a l1]; destruct l2 as [| b l2]; try discriminate Hlen;
    [reflexivity |].
  assert (H5 : same_scores (take 5 (sorted_desc (a :: l1)))
                           (take 5 (sorted_desc (b :: l2))))
    by (by apply Forall2_take).
  destruct (weighted_loop_same_scores _ _ H5 0%nat 0 0 0) as [Hs Ht];
    [reflexivity |].
  destruct (weighted_loop 0 (take 5 (sorted_desc (a :: l1))) 0 0) as [ws1 wt1].
  destruct (weighted_loop 0 (take 5 (sorted_desc (b :: l2))) 0 0) as [ws2 wt2].
  simpl in Hs, Ht. subst wt2.
  apply round1_comp.
  destruct (Qlt_le_dec 0 wt1); [| reflexivity].
  by rewrite Hs.
Qed.

(** X18.  The overall score depends on the scores of the risks only, not on
    their order or on any other key: two lists whose scores are a
    rearrangement of each other get the same score. *)
Theorem calculate_overall_risk_score_rearranged (risks1 risks2 : list Risk) :
  r_score <$> risks1 ≡ₚ r_score <$> risks2 ->
  calculate_overall_risk_score risks1 == calculate_overall_risk_score risks2.
Proof.
  intros H.
  apply Permutation_map_inv in H as (risks3 & Heq & Hperm).
  apply overall_score_same_scores.
  eapply same_scores_trans; [| apply sorted_desc_Permutation; symmetry;
                               exact Hperm].
  apply sorted_desc_same_scores.
  clear Hperm. revert risks3 Heq.
  induction risks1 as [| a l IH]; intros [| b l3] Heq; try discriminate Heq;
    [constructor |].
  injection Heq as Hab Hl. constructor; [by rewrite Hab | by apply IH].
Qed.

Lemma calculate_overall_risk_score_rearranged_witness :
  calculate_overall_risk_score [scored 90; scored 50; scored 70]
  == calculate_overall_risk_score
       [risk_of "deadline_risk_0" "high" 50;
        risk_of "compliance_risk_1" "critical" 70;
        risk_of "compliance_risk_0" "critical" 90].
Proof.
  apply calculate_overall_risk_score_rearranged.
  change ([90; 50; 70] ≡ₚ [50; 70; 90]).
  apply (Permutation_cons_app [50; 70] [] 90). reflexivity.
Defined.

Lemma insert_desc_head (r : Risk) (l : list Risk) :
  Forall (fun y => r_score y <= r_score r) l -> insert_desc r l = r :: l.
Proof.
  intros H. destruct H as [| y l Hy _]; simpl; [done |].
  destruct (Qlt_le_dec (r_score r) (r_score y)); [exfalso; lra | done].
Qed.

Lemma sorted_desc_fixed (l : list Risk) : descending l -> sorted_desc l = l.
Proof.
  induction 1 as [| r l Hr _ IH]; simpl; [done |].
  rewrite IH. by apply insert_desc_head.
Qed.

Lemma descending_take (n : nat) (l : list Risk) :
  descending l -> descending (take n l).
Proof.
  intros H. revert n. induction H as [| r l Hr _ IH]; intros [| n]; simpl;
    try constructor; [by apply Forall_take | apply IH].
Qed.

Lemma insert_desc_below (r : Risk) (top rest : list Risk) :
  Forall (fun y => r_score r < r_score y) top ->
  insert_desc r (top ++ rest) = top ++ insert_desc r rest.
Proof.
  induction 1 as [| y top Hy _ IH]; simpl; [done |].
  destruct (Qlt_le_dec (r_score r) (r_score y)); [| exfalso; lra].
  by rewrite IH.
Qed.

(** X19.  Only the five highest scores count: the score of a list is the
    score of its five highest risks, so a further risk scored below those
    five leaves the overall score as it is. *)
Theorem calculate_overall_risk_score_top_five (risks : list Risk) :
  calculate_overall_risk_score risks
  = calculate_overall_risk_score (take 5 (sorted_desc risks))
  /\ forall risk : Risk,
       (5 <= length risks)%nat ->
       Forall (fun y => r_score risk < r_score y) (take 5 (sorted_desc risks)) ->
       calculate_overall_risk_score (risk :: risks)
       = calculate_overall_risk_score risks.
Proof.
  assert (Htop : forall l : list Risk,
             l <> [] ->
             calculate_overall_risk_score l
             = Py.round1
                 (let '(ws, wt) := weighted_loop 0 (take 5 (sorted_desc l)) 0 0 in
                  if Qlt_le_dec 0 wt then ws / wt else 0)).
  { intros [| a l] Hne; [done |]. unfold calculate_overall_risk_score.
    by destruct (weighted_loop _ _ _ _). }
  split.
  - destruct risks as [| a l]; [reflexivity |].
    assert (Hne : take 5 (sorted_desc (a :: l)) <> []).
    { pose proof (sorted_desc_length (a :: l)) as Hlen.
      destruct (sorted_desc (a :: l)); [discriminate Hlen | done]. }
    rewrite (Htop (a :: l)) by done. rewrite (Htop _ Hne).
    rewrite (sorted_desc_fixed (take 5 (sorted_desc (a :: l))))
      by apply descending_take, sorted_desc_descending.
    by rewrite take_take.
  - intros risk Hlen Hbelow.
    assert (Hne : risks <> []) by (destruct risks; [simpl in Hlen; lia | done]).
    rewrite (Htop (risk :: risks)) by done. rewrite (Htop risks Hne).
    simpl sorted_desc. fold (sorted_desc risks).
    rewrite <- (take_drop 5 (sorted_desc risks)) at 1.
    rewrite (insert_desc_below _ _ _ Hbelow).
    rewrite take_app_le; [by rewrite take_take |].
    rewrite length_take, sorted_desc_length. lia.
Qed.

Lemma calculate_overall_risk_score_top_five_witness :
  calculate_overall_risk_score
    (scored 10 :: [scored 90; scored 80; scored 70; scored 60; scored 50])
  = calculate_overall_risk_score
      [scored 90; scored 80; scored 70; scored 60; scored 50].
Proof.
  apply (proj2 (calculate_overall_risk_score_top_five
                  [scored 90; scored 80; scored 70; scored 60; scored 50])).
  - simpl. lia.
  - vm_compute. repeat constructor.
Defined.

(** ** The report: recommendations and sections *)

Lemma insert_by_key_front {A : Type} (key : A -> nat) (x : A) (l : list A) :
  Forall (fun y => key x <= key y)%nat l -> insert_by_key key x l = x :: l.
Proof.
  intros H. destruct H as [| y l Hy _]; simpl; [done |].
  destruct (decide (key y < key x)%nat); [lia | done].
Qed.

Lemma insert_by_key_behind {A : Type} (key : A -> nat) (x : A)
  (front rest : list A) :
  Forall (fun y => key y < key x)%nat front ->
  insert_by_key key x (front ++ rest) = front ++ insert_by_key key x rest.
Proof.
  induction 1 as [| y front Hy _ IH]; simpl; [done |].
  destruct (decide (key y < key x)%nat); [by rewrite IH | lia].
Qed.

(** A stable sort on two keys puts the entries of the lower key first, each
    group in its order of arrival. *)
Lemma sorted_by_key_two {A : Type} (key : A -> nat) (a b : nat) (l : list A) :
  (a < b)%nat ->
  Forall (fun x => key x = a \/ key x = b) l ->
  sorted_by_key key l
  = filter (fun x => key x = a) l ++ filter (fun x => key x = b) l.
Proof.
  intros Hab. induction 1 as [| x l Hx Hl IH]; [done |].
  change (sorted_by_key key (x :: l))
    with (insert_by_key key x (sorted_by_key key l)).
  rewrite IH.
  destruct Hx as [Hx | Hx].
  - rewrite (filter_cons_True (fun x => key x = a)) by done.
    rewrite (filter_cons_False (fun x => key x = b)) by lia.
    apply insert_by_key_front. apply Forall_app. split.
    + apply Forall_forall. intros y Hy. apply list_elem_of_filter in Hy. lia.
    + apply Forall_forall. intros y Hy. apply list_elem_of_filter in Hy. lia.
  - rewrite (filter_cons_False (fun x => key x = a)) by lia.
    rewrite (filter_cons_True (fun x => key x = b)) by done.
    rewrite insert_by_key_behind.
    + f_equal. apply insert_by_key_front.
      apply Forall_forall. intros y Hy. apply list_elem_of_filter in Hy. lia.
    + apply Forall_forall. intros y Hy. apply list_elem_of_filter in Hy. lia.
Qed.

Lemma filter_all {A : Type} (P : A -> Prop) `{!forall x, Decision (P x)}
  (l : list A) :
  Forall P l -> filter P l = l.
Proof.
  induction 1 as [| x l Hx _ IH]; [done |].
  by rewrite filter_cons_True, IH.
Qed.

Lemma filter_none {A : Type} (P : A -> Prop) `{!forall x, Decision (P x)}
  (l : list A) :
  Forall (fun x => ~ P x) l -> filter P l = [].
Proof.
  induction 1 as [| x l Hx _ IH]; [done |].
  by rewrite filter_cons_False.
Qed.

(** X20.  The top recommendations are the first five of: the critical
    risks, then the deadlines of critical urgency, then up to three high
    risks, then up to three compliance gaps, formatted in that order.  The
    stable sort by priority moves the deadlines ahead of the high risks and
    gaps, so with five critical findings no other recommendation is
    listed. *)
Theorem extract_top_recommendations_order (upper : string -> string)
  (risks : list Risk) (compliance_items : list ComplianceItem)
  (renewal_dates : list RenewalDate) :
  let top :=
    extract_top_recommendations upper
      (generate_recommendations_section risks compliance_items renewal_dates) in
  let critical :=
    critical_risk_recommendations risks
    ++ deadline_recommendations renewal_dates in
  top
  = format_recommendation upper
      <$> take 5 (critical
                  ++ high_risk_recommendations risks
                  ++ gap_recommendations compliance_items)
  /\ (length top <= 5)%nat
  /\ ((5 <= length critical)%nat ->
      top = format_recommendation upper <$> take 5 critical).
Proof.
  intros top critical. subst top critical.
  unfold extract_top_recommendations, generate_recommendations_section.
  cbn [app].
  set (C := critical_risk_recommendations risks).
  set (H := high_risk_recommendations risks).
  set (G := gap_recommendations compliance_items).
  set (D := deadline_recommendations renewal_dates).
  assert (HC : Forall (fun r => rec_priority r = "critical") C).
  { apply Forall_fmap, Forall_forall. by intros. }
  assert (HD : Forall (fun r => rec_priority r = "critical") D).
  { apply Forall_fmap, Forall_forall. by intros. }
  assert (HH : Forall (fun r => rec_priority r = "high") H).
  { apply Forall_fmap, Forall_forall. by intros. }
  assert (HG : Forall (fun r => rec_priority r = "high") G).
  { apply Forall_fmap, Forall_forall. by intros. }
  assert (K0 : forall l, Forall (fun r => rec_priority r = "critical") l ->
                         Forall (fun r => priority_order (rec_priority r) = 0%nat) l).
  { intros l Hl. eapply Forall_impl; [exact Hl |]. by intros r ->. }
  assert (K1 : forall l, Forall (fun r => rec_priority r = "high") l ->
                         Forall (fun r => priority_order (rec_priority r) = 1%nat) l).
  { intros l Hl. eapply Forall_impl; [exact Hl |]. by intros r ->. }
  assert (N0 : forall l, Forall (fun r => rec_priority r = "critical") l ->
                         Forall (fun r => ~ priority_order (rec_priority r) = 1%nat) l).
  { intros l Hl. eapply Forall_impl; [exact Hl |]. by intros r ->. }
  assert (N1 : forall l, Forall (fun r => rec_priority r = "high") l ->
                         Forall (fun r => ~ priority_order (rec_priority r) = 0%nat) l).
  { intros l Hl. eapply Forall_impl; [exact Hl |]. by intros r ->. }
  assert (E : sorted_by_key (fun r => priority_order (rec_priority r))
                ((C ++ H) ++ G ++ D)
              = (C ++ D) ++ H ++ G).
  { rewrite (sorted_by_key_two _ 0 1);
      [| lia
       | repeat (apply Forall_app; split);
         (eapply Forall_impl; [eassumption |]); intros r ->; auto].
    rewrite !filter_app.
    rewrite (filter_all _ C), (filter_all _ D) by auto.
    rewrite (filter_none _ H), (filter_none _ G) by auto.
    rewrite (filter_none _ C), (filter_none _ D) by auto.
    rewrite (filter_all _ H), (filter_all _ G) by auto.
    by rewrite !app_nil_r. }
  rewrite <- !app_assoc in E |- *. rewrite E.
  split; [by rewrite <- !app_assoc |].
  split.
  - rewrite length_fmap, length_take. lia.
  - intros Hlen. f_equal.
    rewrite (app_assoc C D). by rewrite take_app_le.
Qed.

Lemma extract_top_recommendations_order_witness :
  extract_top_recommendations id
    (generate_recommendations_section
       (replicate 3 (risk_of "r" "critical" 90))
       [sample_item] [renewal_in 3; renewal_in (-2)])
  = format_recommendation id
      <$> take 5 (critical_risk_recommendations
                    (replicate 3 (risk_of "r" "critical" 90))
                  ++ deadline_recommendations [renewal_in 3; renewal_in (-2)]).
Proof.
  apply (proj2 (proj2 (extract_top_recommendations_order id
                         (replicate 3 (risk_of "r" "critical" 90))
                         [sample_item] [renewal_in 3; renewal_in (-2)]))).
  vm_compute. lia.
Defined.

Lemma status_partition (items : list ComplianceItem) :
  (length (filter (fun c => c_status c = "compliant") items)
   + length (filter (fun c => c_status c = "non_compliant") items)
   + length (filter (fun c => c_status c = "partially_compliant") items)
   + length (filter (fun c => c_status c = "unclear") items)
   + length (filter (fun c => c_status c
                              ∉ ["compliant"; "non_compliant";
                                 "partially_compliant"; "unclear"]) items)
   = length items)%nat.
Proof.
  induction items as [| x l IH]; [done |].
  rewrite !filter_cons. status_cases.
Qed.

Lemma scored_status_filter (items : list ComplianceItem) :
  length (List.filter scored_status items)
  = (length (filter (fun c => c_status c = "non_compliant") items)
     + length (filter (fun c => c_status c = "partially_compliant") items))%nat.
Proof.
  induction items as [| x l IH]; [done |].
  rewrite !filter_cons. simpl. unfold scored_status at 1, one_of.
  case_bool_decide as Hin; status_cases.
Qed.

Lemma get_group_insert {A : Type} (k k' : string) (x : A)
  (groups : list (string * list A)) :
  get_group k (group_insert k' x groups)
  = if decide (k' = k) then get_group k groups ++ [x] else get_group k groups.
Proof.
  induction groups as [| [k0 xs] rest IH]; cbn [get_group group_insert].
  - by destruct (decide (k' = k)).
  - destruct (decide (k0 = k')) as [-> | Hne]; cbn [get_group].
    + by destruct (decide (k' = k)).
    + destruct (decide (k0 = k)) as [-> | Hk]; [| exact IH].
      by destruct (decide (k' = k)).
Qed.

Lemma group_by_snoc {A : Type} (key : A -> string) (items : list A) (x : A) :
  group_by key (items ++ [x]) = group_insert (key x) x (group_by key items).
Proof. unfold group_by. by rewrite foldl_app. Qed.

(** Looking a key up in the grouping gives the entries of that key, in
    their order in the list. *)
Lemma get_group_by {A : Type} (key : A -> string) (k : string) (items : list A) :
  get_group k (group_by key items) = filter (fun x => key x = k) items.
Proof.
  induction items as [| x items IH] using rev_ind; [done |].
  rewrite group_by_snoc, get_group_insert, IH, filter_app.
  destruct (decide (key x = k)) as [E | E].
  - by rewrite (filter_cons_True _ x []).
  - rewrite (filter_cons_False _ x []) by done. by rewrite app_nil_r.
Qed.

Lemma group_insert_keys {A : Type} (k : string) (x : A)
  (groups : list (string * list A)) :
  (group_insert k x groups).*1
  = if decide (k ∈ groups.*1) then groups.*1 else groups.*1 ++ [k].
Proof.
  induction groups as [| [k0 xs] rest IH]; cbn [group_insert fmap list_fmap fst].
  - by destruct (decide (k ∈ [])) as [Hin | _]; [apply elem_of_nil in Hin |].
  - destruct (decide (k0 = k)) as [-> | Hne]; cbn [fmap list_fmap fst].
    + destruct (decide (k ∈ k :: rest.*1)) as [_ | Hn]; [done |].
      exfalso. apply Hn. left.
    + rewrite IH. destruct (decide (k ∈ rest.*1)) as [Hin | Hin];
        destruct (decide (k ∈ k0 :: rest.*1)) as [Hin' | Hin']; try done.
      * exfalso. apply Hin'. by right.
      * exfalso. apply elem_of_cons in Hin' as [-> | Hin']; done.
Qed.

Lemma group_by_keys_NoDup {A : Type} (key : A -> string) (items : list A) :
  NoDup (group_by key items).*1.
Proof.
  induction items as [| x items IH] using rev_ind; [constructor |].
  rewrite group_by_snoc, group_insert_keys.
  destruct (decide _) as [Hin | Hin]; [done |].
  apply NoDup_app. split; [done |]. split.
  - intros k Hk Hx. apply list_elem_of_singleton in Hx as ->. done.
  - apply NoDup_singleton.
Qed.

(** X21.  The compliance section of the report: the four status counts
    never exceed the total and add up to it when every item has one of the
    four statuses; the compliance rate lies between 0 and 100 and is 0 for
    an empty list (no division by zero); the section lists as gaps as many
    items as the risk assessment turns into compliance risks; looking a
    regulation up in the grouping gives the items of that regulation in
    their order. *)
Theorem generate_compliance_section_counts (compliance_items : list ComplianceItem) :
  let section := generate_compliance_section compliance_items in
  (cs_compliant_count section + cs_non_compliant_count section
   + cs_partially_compliant_count section + cs_unclear_count section
   <= cs_total_count section)%nat
  /\ (Forall (fun c => c_status c ∈ ["compliant"; "non_compliant";
                                     "partially_compliant"; "unclear"])
             compliance_items ->
      (cs_compliant_count section + cs_non_compliant_count section
       + cs_partially_compliant_count section + cs_unclear_count section
       = cs_total_count section)%nat)
  /\ 0 <= cs_compliance_rate section <= 100
  /\ (compliance_items = [] -> cs_compliance_rate section = 0)
  /\ length (cs_gaps section)
     = length (assess_compliance_risks compliance_items)
  /\ forall regulation : string,
       get_group regulation (cs_by_regulation section)
       = filter (fun c => c_regulation c = regulation) compliance_items.
Proof.
  intros section. subst section. unfold generate_compliance_section.
  cbn [cs_compliant_count cs_non_compliant_count cs_partially_compliant_count
       cs_unclear_count cs_total_count cs_compliance_rate cs_gaps
       cs_by_regulation].
  pose proof (status_partition compliance_items) as Hp.
  split; [lia |]. split; [| split; [| split; [| split]]].
  - intros Hall.
    rewrite (filter_none (fun c => c_status c ∉ _)) in Hp.
    + simpl in Hp. lia.
    + eapply Forall_impl; [exact Hall |]. intros c Hc Hn. by apply Hn.
  - assert (Hrate : forall n m : nat,
               (n <= m)%nat -> (0 < m)%nat ->
               0 <= inject_Z (Z.of_nat n) / inject_Z (Z.of_nat m) * 100 <= 100).
    { intros n m Hn Hm.
      assert (H0 : 0 <= inject_Z (Z.of_nat n)).
      { change 0 with (inject_Z 0). rewrite <- Zle_Qle. lia. }
      assert (H1 : inject_Z (Z.of_nat n) <= inject_Z (Z.of_nat m)).
      { rewrite <- Zle_Qle. lia. }
      assert (H2 : 0 < inject_Z (Z.of_nat m)).
      { change 0 with (inject_Z 0). rewrite <- Zlt_Qlt. lia. }
      set (a := inject_Z (Z.of_nat n)) in *.
      set (b := inject_Z (Z.of_nat m)) in *.
      assert (Hr : 0 <= a / b <= 1).
      { split.
        - apply Qle_shift_div_l; [done | lra].
        - apply Qle_shift_div_r; [done | lra]. }
      split; lra. }
    destruct compliance_items as [| c0 l0]; [split; lra |].
    apply Hrate; [lia | simpl; lia].
  - by intros ->.
  - rewrite length_app.
    unfold assess_compliance_risks.
    rewrite assess_compliance_loop_appended, app_nil_l, appended_length.
    by rewrite scored_status_filter.
  - intros regulation. apply get_group_by.
Qed.

Lemma generate_compliance_section_counts_witness :
  let section := generate_compliance_section [sample_item; sample_item] in
  (cs_compliant_count section + cs_non_compliant_count section
   + cs_partially_compliant_count section + cs_unclear_count section
   = cs_total_count section)%nat.
Proof.
  apply (proj1 (proj2 (generate_compliance_section_counts
                         [sample_item; sample_item]))).
  repeat constructor; apply (bool_decide_unpack _); reflexivity.
Defined.

(** X22.  The risk section of the report groups without loss: looking a
    severity or a category up in its grouping gives the risks of that
    severity or category in their order, each key appears once, the lists
    of critical and of high risks are those groups, and the critical risks
    are as many as the critical recommendations. *)
Theorem generate_risk_assessment_section_groups (risks : list Risk)
  (risk_level : string) :
  let section := generate_risk_assessment_section risks risk_level in
  (forall severity : string,
     get_group severity (ras_by_severity section)
     = filter (fun r => r_severity r = severity) risks)
  /\ (forall category : string,
        get_group category (ras_by_category section)
        = filter (fun r => r_category r = category) risks)
  /\ NoDup (ras_by_severity section).*1
  /\ NoDup (ras_by_category section).*1
  /\ ras_critical_risks section
     = filter (fun r => r_severity r = "critical") risks
  /\ ras_high_risks section = filter (fun r => r_severity r = "high") risks
  /\ length (ras_critical_risks section)
     = length (critical_risk_recommendations risks)
  /\ length (ras_risk_matrix section) = ras_total_risks section.
Proof.
  intros section. subst section. unfold generate_risk_assessment_section.
  cbn [ras_by_severity ras_by_category ras_critical_risks ras_high_risks
       ras_risk_matrix ras_total_risks].
  split; [intros k; apply get_group_by |].
  split; [intros k; apply get_group_by |].
  split; [apply group_by_keys_NoDup |].
  split; [apply group_by_keys_NoDup |].
  split; [apply get_group_by |].
  split; [apply get_group_by |].
  split.
  - rewrite get_group_by. unfold critical_risk_recommendations.
    by rewrite length_fmap.
  - unfold generate_risk_matrix. by rewrite length_fmap.
Qed.
